(** * psutil C extension: kernel-table fetch loops, error classification
      and socket-owner correlation

    A shallow embedding of the C sources vendored under
    [pipenv/vendor/psutil]: the routines common to all platforms
    ([_psutil_common.c]), the macOS process-list fetch
    ([arch/osx/process_info.c]), the Windows process probes and growth
    loops ([arch/windows/process_info.c], [arch/windows/process_handles.c],
    [_psutil_windows.c]), the FreeBSD and NetBSD socket listings
    ([arch/bsd/freebsd_socks.c], [arch/bsd/netbsd_socks.c]), the BSD
    process lookup and the NetBSD/OpenBSD swap counters
    ([arch/bsd/freebsd.c], [arch/bsd/netbsd.c], [arch/bsd/openbsd.c]).

    The operating system is an oracle: every system call and every C
    allocation is answered by a function of the number of external calls
    made so far, and each call is appended to a log carried in the state
    together with [errno], the Windows last-error cell and the pending
    Python exception.  Loops that the C code does not bound take a [fuel]
    argument and answer [None] when it runs out, as does a call that
    does not return. *)

From Stdlib Require Import ZArith List Lia Bool String.
Import ListNotations.
Open Scope Z_scope.

(* ------------------------------------------------------------------ *)
(** ** C integer types *)

(** Wrap-around of an unsigned [w]-bit integer. *)
Definition uwrap (w x : Z) : Z := x mod 2 ^ w.

(** Conversion to a signed [w]-bit integer (two's complement). *)
Definition swrap (w x : Z) : Z := (x + 2 ^ (w - 1)) mod 2 ^ w - 2 ^ (w - 1).

Definition to_size_t (x : Z) : Z := uwrap 64 x.
Definition to_DWORD (x : Z) : Z := uwrap 32 x.
Definition to_int (x : Z) : Z := swrap 32 x.
Definition to_pid_t (x : Z) : Z := swrap 32 x.

(* ------------------------------------------------------------------ *)
(** ** Constants of the system headers

    These names come from <errno.h>, <winerror.h>, <winbase.h> and
    <ntstatus.h>, which are not part of the repository.  The values are
    the usual ones; the development only relies on their being distinct. *)

Definition EPERM : Z := 1.
Definition ESRCH : Z := 3.
Definition ENOMEM : Z := 12.
Definition EACCES : Z := 13.
Definition EINVAL : Z := 22.

Definition NO_ERROR : Z := 0.
Definition ERROR_ACCESS_DENIED : Z := 5.
Definition ERROR_NOT_ENOUGH_MEMORY : Z := 8.
Definition ERROR_INVALID_PARAMETER : Z := 87.
Definition ERROR_INSUFFICIENT_BUFFER : Z := 122.
Definition STILL_ACTIVE : Z := 259.
Definition WAIT_OBJECT_0 : Z := 0.
Definition WAIT_TIMEOUT : Z := 258.
Definition WAIT_FAILED : Z := 0xFFFFFFFF.
Definition INFINITE : Z := 0xFFFFFFFF.
Definition MAX_PATH : Z := 260.

(** [#define STATUS_INFO_LENGTH_MISMATCH 0xc0000004] (process_handles.h). *)
Definition STATUS_INFO_LENGTH_MISMATCH : Z := 0xC0000004.

(** [#define NTQO_TIMEOUT 100] (process_handles.h), in milliseconds. *)
Definition NTQO_TIMEOUT : Z := 100.

(* ------------------------------------------------------------------ *)
(** ** The C runtime state *)

(** The Python exception left pending by a failing call. *)
Inductive py_exc : Type :=
| OSError (en : Z)            (* PyErr_SetFromErrno(PyExc_OSError) *)
| RuntimeError (msg : string) (* PyErr_SetString(PyExc_RuntimeError, msg) *)
| MemoryError                 (* PyErr_NoMemory() *)
| WindowsError (code : Z).    (* PyErr_SetFromWindowsErr(...) *)

(** External calls, in the order the code issues them. *)
Inductive event : Type :=
| EvKill (pid sig : Z)
| EvTaskForPid (pid : Z)
| EvSysctlSize (name : string)
| EvSysctlPid (pid : Z)
| EvSysctlNameToMib (name : string)
| EvSysctl (name : string) (cap : Z)
| EvAlloc (bytes : Z)
| EvSwapctlNswap
| EvSwapctlStats (n : Z)
| EvOpenProcess (pid : Z)
| EvGetExitCodeProcess (pid : Z)
| EvTerminateProcess
| EvTableCall (with_buffer : bool) (size : Z)
| EvNtQuerySystemInformation (size : Z)
| EvWaitForSingleObject (milliseconds : Z)
| EvCreateThread
| EvSetEvent
| EvSuspendThread
| EvTerminateThread
| EvDuplicateHandle (h : Z).

Record cstate : Type := mkState {
  errno : Z;                  (* the thread's errno *)
  last_error : Z;             (* GetLastError() *)
  pyerr : option py_exc;      (* the pending Python exception *)
  calls : list event          (* external calls so far, oldest first *)
}.

Definition init_state : cstate :=
  {| errno := 0; last_error := 0; pyerr := None; calls := [] |}.

(** The oracle's clock: how many external calls were made. *)
Definition now (st : cstate) : nat := List.length (calls st).

Definition log (e : event) (st : cstate) : cstate :=
  {| errno := errno st; last_error := last_error st; pyerr := pyerr st;
     calls := calls st ++ [e] |}.

Definition set_errno (e : Z) (st : cstate) : cstate :=
  {| errno := e; last_error := last_error st; pyerr := pyerr st;
     calls := calls st |}.

Definition set_last_error (e : Z) (st : cstate) : cstate :=
  {| errno := errno st; last_error := e; pyerr := pyerr st;
     calls := calls st |}.

(** Setting an exception replaces the pending one. *)
Definition set_exc (x : py_exc) (st : cstate) : cstate :=
  {| errno := errno st; last_error := last_error st; pyerr := Some x;
     calls := calls st |}.

Definition PyErr_SetFromErrno_OSError (st : cstate) : cstate :=
  set_exc (OSError (errno st)) st.

(** What the interpreter makes of [PyErr_SetFromErrno(0)], a call whose
    exception type is NULL.  The interpreter is not among the sources:
    either the call returns, leaving the pending exception it leaves
    (CPython 2.7 stores the NULL type, after which none is pending), or
    the process dies in the call (CPython 3 calls the type). *)
Inductive null_type_res : Type :=
| NullTypeReturns (pending : option py_exc)
| NullTypeDies.

(** The interpreter's answer at a given time. *)
Definition null_type_oracle : Type := nat -> null_type_res.

(** [PyErr_SetFromErrno(0)]: the state the call returns in, or [None]
    when it does not return. *)
Definition PyErr_SetFromErrno_0 (null_type : null_type_oracle) (st : cstate)
    : option cstate :=
  match null_type (now st) with
  | NullTypeReturns pending =>
      Some {| errno := errno st; last_error := last_error st;
              pyerr := pending; calls := calls st |}
  | NullTypeDies => None
  end.

Definition PyErr_NoMemory (st : cstate) : cstate := set_exc MemoryError st.

Definition PyErr_SetFromWindowsErr_0 (st : cstate) : cstate :=
  set_exc (WindowsError (last_error st)) st.

(** [NoSuchProcess()]: OSError(errno=ESRCH). *)
Definition NoSuchProcess (st : cstate) : cstate := set_exc (OSError ESRCH) st.

(** [AccessDenied()]: OSError(errno=EACCES). *)
Definition AccessDenied (st : cstate) : cstate := set_exc (OSError EACCES) st.

(** The answer of a [sysctl] that writes into a buffer: success with the
    byte length stored through [oldlenp] and the data written, or failure
    (return -1) with the [errno] it sets. *)
Inductive sysctl_res (A : Type) : Type :=
| SysOk (len : Z) (data : A)
| SysErr (en : Z).
Arguments SysOk {A} len data.
Arguments SysErr {A} en.

(** A buffer read as a C array: the element found at each index. *)
Definition carray (A : Type) : Type := nat -> A.

(** The first [n] elements of a C array. *)
Definition elements {A : Type} (buf : carray A) (n : Z) : list A :=
  map buf (seq 0 (Z.to_nat n)).

(** The C allocator ([malloc], [realloc], [calloc], [HeapAlloc]) at a
    given time and size: [true] when it returns a block. *)
Definition alloc_oracle : Type := nat -> Z -> bool.

(** One allocation: logged, answered by the oracle; a failing POSIX
    allocation sets [errno] to [ENOMEM]. *)
Definition c_alloc (alloc : alloc_oracle) (bytes : Z) (st : cstate)
    : bool * cstate :=
  let st1 := log (EvAlloc bytes) st in
  if alloc (now st) bytes then (true, st1) else (false, set_errno ENOMEM st1).

(** How many events of a log satisfy [p]. *)
Definition count_events (p : event -> bool) (l : list event) : nat :=
  List.length (filter p l).

(* ------------------------------------------------------------------ *)
(** ** The caller-visible taxonomy *)

Inductive Outcome : Type := NotFound | PermissionDenied | Transient | Fatal.

(** Modelled from the spec: the mapping of a pending exception to the
    four-way taxonomy is done by the Python wrappers, which are not among
    the C sources.  Following the rule set of the ErrorClassifier: "no
    such process" (the exception [NoSuchProcess()] sets) is [NotFound],
    "permission" ([EPERM]/[EACCES], [ERROR_ACCESS_DENIED]) is
    [PermissionDenied], any other code is [Fatal]; [Transient] is never
    the image of an exception. *)
Definition classify (x : py_exc) : Outcome :=
  match x with
  | OSError en =>
      if en =? ESRCH then NotFound
      else if (en =? EPERM) || (en =? EACCES) then PermissionDenied
      else Fatal
  | WindowsError c =>
      if c =? ERROR_ACCESS_DENIED then PermissionDenied else Fatal
  | RuntimeError _ | MemoryError => Fatal
  end.

(* ------------------------------------------------------------------ *)
(** ** _psutil_common.c: routines common to the POSIX platforms *)

Module Common.

(** The [#if defined(PSUTIL_...)] selection. *)
Inductive platform : Type := Linux | FreeBSD | OpenBSD | NetBSD | OSX | SunOS.

(** [defined(PSUTIL_LINUX) || defined(PSUTIL_FREEBSD)] *)
Definition linux_or_freebsd (pf : platform) : bool :=
  match pf with
  | Linux | FreeBSD => true
  | _ => false
  end.

(** [kill(pid, sig)] at a given time: [None] is success (return 0),
    [Some e] is failure (return -1) with [errno] set to [e]. *)
Definition kill_oracle : Type := nat -> Z -> Z -> option Z.

(** [psutil_pid_exists]: 1 exists, 0 does not exist, -1 error with a
    Python exception set.  The [long] argument reaches [kill] as a
    [pid_t]. *)
Definition psutil_pid_exists (pf : platform) (kill : kill_oracle)
    (pid : Z) (st : cstate) : Z * cstate :=
  if pid <? 0 then (0, st)
  else if pid =? 0 then
    (if linux_or_freebsd pf then 0 else 1, st)
  else
    let st1 := log (EvKill (to_pid_t pid) 0) st in
    match kill (now st) (to_pid_t pid) 0 with
    | None => (1, st1)
    | Some e =>
        let st2 := set_errno e st1 in
        if e =? ESRCH then (0, st2)
        else if e =? EPERM then (1, st2)
        else (-1, PyErr_SetFromErrno_OSError st2)
    end.

(** [psutil_raise_for_pid]: always sets an exception and returns 0. *)
Definition psutil_raise_for_pid (pf : platform) (kill : kill_oracle)
    (pid : Z) (msg : string) (st : cstate) : Z * cstate :=
  if negb (errno st =? 0) then (0, PyErr_SetFromErrno_OSError st)
  else
    let '(r, st1) := psutil_pid_exists pf kill pid st in
    if r =? 0 then (0, NoSuchProcess st1)
    else (0, set_exc (RuntimeError msg) st1).

End Common.

(* ------------------------------------------------------------------ *)
(** ** arch/osx/process_info.c and _psutil_osx.c *)

Module OSX.

Section Kernel.

(** [sizeof(kinfo_proc)], from <sys/sysctl.h>. *)
Variable sizeof_kinfo_proc : Z.

(** [sysctl({CTL_KERN, KERN_PROC, KERN_PROC_ALL}, NULL, &size)]: the size
    query. *)
Variable proc_all_size : nat -> sysctl_res unit.

(** The same sysctl with a buffer of [size] bytes; the data is the buffer
    read as an array of [kinfo_proc], given by their [kp_proc.p_pid]. *)
Variable proc_all_fetch : nat -> Z -> sysctl_res (carray Z).

Variable alloc : alloc_oracle.

Definition kern_proc_all : string := "kern.proc.all".

Record proc_list : Type := mkProcList {
  pl_ret : Z;                       (* 0 or a BSD errno value *)
  procList : option (carray Z);     (* NULL until success *)
  procCount : Z
}.

(** The body of [while (lim-- > 0)] in [psutil_get_proc_list], repeated
    [lim] times at most; falling out of the loop returns [ENOMEM]. *)
Fixpoint psutil_get_proc_list_loop (lim : nat) (st : cstate)
    : proc_list * cstate :=
  match lim with
  | O => (mkProcList ENOMEM None 0, st)
  | S lim' =>
      let st1 := log (EvSysctlSize kern_proc_all) st in
      match proc_all_size (now st) with
      | SysErr e =>
          let st2 := set_errno e st1 in
          (mkProcList (errno st2) None 0, st2)
      | SysOk size _ =>
          let size2 := to_size_t (size + Z.shiftr size 3) in
          let '(ptr, size', st2) :=
            if size <? size2 then
              let '(ok2, sa) := c_alloc alloc size2 st1 in
              if ok2 then (true, size2, sa)
              else let '(ok1, sb) := c_alloc alloc size sa in (ok1, size, sb)
            else
              let '(ok1, sa) := c_alloc alloc size st1 in (ok1, size, sa) in
          if negb ptr then (mkProcList ENOMEM None 0, st2)
          else
            let st3 := log (EvSysctl kern_proc_all size') st2 in
            match proc_all_fetch (now st2) size' with
            | SysErr e =>
                let st4 := set_errno e st3 in
                if negb (e =? ENOMEM) then (mkProcList e None 0, st4)
                else psutil_get_proc_list_loop lim' st4
            | SysOk n data =>
                (mkProcList 0 (Some data) (n / sizeof_kinfo_proc), st3)
            end
      end
  end.

(** [int lim = 8;  // some limit] *)
Definition lim : nat := 8.

Definition psutil_get_proc_list (st : cstate) : proc_list * cstate :=
  psutil_get_proc_list_loop lim st.

(** [psutil_pids]: the list of pids, or NULL with an exception set. *)
Definition psutil_pids (st : cstate) : option (list Z) * cstate :=
  let '(r, st1) := psutil_get_proc_list st in
  if negb (pl_ret r =? 0) then
    if negb (errno st1 =? 0) then (None, PyErr_SetFromErrno_OSError st1)
    else (None, set_exc (RuntimeError "failed to retrieve process list") st1)
  else
    match procList r with
    | Some buf => (Some (elements buf (procCount r)), st1)
    | None => (Some [], st1)
    end.

(** [sysctl({CTL_KERN, KERN_PROC, KERN_PROC_PID, pid}, kp, &len)]; the
    data stands for the [kinfo_proc] written. *)
Variable proc_pid_fetch : nat -> Z -> sysctl_res Z.

(** [psutil_get_kinfo_proc]: 0 on success, -1 with an exception set. *)
Definition psutil_get_kinfo_proc (pid : Z) (st : cstate)
    : Z * option Z * cstate :=
  let st1 := log (EvSysctlPid (to_pid_t pid)) st in
  match proc_pid_fetch (now st) (to_pid_t pid) with
  | SysErr e =>
      let st2 := set_errno e st1 in
      (-1, None, PyErr_SetFromErrno_OSError st2)
  | SysOk len kp =>
      if len =? 0 then (-1, None, NoSuchProcess st1)
      else (0, Some kp, st1)
  end.

(** [task_for_pid(mach_task_self(), pid, &task)] at a given time: the
    [kern_return_t] it returns. *)
Variable task_for_pid : nat -> Z -> Z.

Variable kill : Common.kill_oracle.

Definition KERN_SUCCESS : Z := 0.

(** The [task_for_pid] step that opens [psutil_proc_memory_maps],
    [psutil_proc_memory_uss] and [psutil_proc_threads]: [true] when the
    task port was obtained, [false] after the error branch has set its
    exception. *)
Definition task_for_pid_or_raise (pid : Z) (st : cstate) : bool * cstate :=
  let st1 := log (EvTaskForPid (to_pid_t pid)) st in
  let err := task_for_pid (now st) (to_pid_t pid) in
  if negb (err =? KERN_SUCCESS) then
    let '(r, st2) := Common.psutil_pid_exists Common.OSX kill pid st1 in
    if r =? 0 then (false, NoSuchProcess st2)
    else (false, AccessDenied st2)
  else (true, st1).

End Kernel.

End OSX.

(* ------------------------------------------------------------------ *)
(** ** arch/bsd/freebsd.c, arch/bsd/netbsd.c, arch/bsd/openbsd.c *)

Module BSD.

Section Kernel.

(** [sysctl({CTL_KERN, KERN_PROC, KERN_PROC_PID, pid, ...}, proc, &size)];
    the data is the [kinfo_proc] written. *)
Variable kinfo : Type.
Variable proc_pid_fetch : nat -> Z -> sysctl_res kinfo.

(** [psutil_kinfo_proc(pid_t pid, struct kinfo_proc *proc)], the same
    statements on the three systems: 0 on success, -1 with an exception
    set. *)
Definition psutil_kinfo_proc (pid : Z) (st : cstate)
    : Z * option kinfo * cstate :=
  let st1 := log (EvSysctlPid pid) st in
  match proc_pid_fetch (now st) pid with
  | SysErr e =>
      let st2 := set_errno e st1 in
      (-1, None, PyErr_SetFromErrno_OSError st2)
  | SysOk size proc =>
      if size =? 0 then (-1, None, NoSuchProcess st1)
      else (0, Some proc, st1)
  end.

End Kernel.

End BSD.

(* ------------------------------------------------------------------ *)
(** ** arch/windows/process_info.c, arch/windows/process_handles.c and
       _psutil_windows.c *)

Module Windows.

(** [OpenProcess]: a handle, or NULL with the last error it sets. *)
Inductive open_res : Type :=
| Opened (h : Z)
| OpenFailed (err : Z).

(** [GetExitCodeProcess]: the exit code stored, or FALSE with the last
    error it sets. *)
Inductive exit_res : Type :=
| ExitCode (code : Z)
| ExitFailed (err : Z).

Definition ERROR_INVALID_HANDLE : Z := 6.

(** [CloseHandle(NULL)] fails and sets the last error; closing a handle
    that was opened leaves the state alone. *)
Definition CloseHandle_NULL (st : cstate) : cstate :=
  set_last_error ERROR_INVALID_HANDLE st.

Section Kernel.

Variable open_process : nat -> Z -> open_res.
Variable get_exit_code : nat -> Z -> exit_res.

(** [psutil_pid_is_running(DWORD pid)]: 1 running, 0 not running, -1
    error with an exception set. *)
Definition psutil_pid_is_running (pid : Z) (st : cstate) : Z * cstate :=
  if pid =? 0 then (1, st)
  else if pid <? 0 then (0, st)
  else
    let st1 := log (EvOpenProcess pid) st in
    match open_process (now st) pid with
    | OpenFailed err =>
        let st2 := set_last_error err st1 in
        if last_error st2 =? ERROR_INVALID_PARAMETER then
          (0, CloseHandle_NULL st2)
        else if last_error st2 =? ERROR_ACCESS_DENIED then
          (1, CloseHandle_NULL st2)
        else (-1, PyErr_SetFromWindowsErr_0 (CloseHandle_NULL st2))
    | Opened h =>
        let st2 := log (EvGetExitCodeProcess pid) st1 in
        match get_exit_code (now st1) h with
        | ExitCode c => (if c =? STILL_ACTIVE then 1 else 0, st2)
        | ExitFailed err =>
            let st3 := set_last_error err st2 in
            if last_error st3 =? ERROR_ACCESS_DENIED then (1, st3)
            else (-1, PyErr_SetFromWindowsErr_0 st3)
        end
    end.

(** The module function [pid_exists]: [PyArg_ParseTuple(args, "l", &pid)]
    reads a [long], which reaches [psutil_pid_is_running] as a [DWORD].
    [None] is the NULL return, with the exception already set. *)
Definition psutil_pid_exists (pid : Z) (st : cstate) : option bool * cstate :=
  let '(status, st1) := psutil_pid_is_running (to_DWORD pid) st in
  if status =? -1 then (None, st1)
  else (Some (negb (status =? 0)), st1).

(** [psutil_handle_from_pid_waccess(DWORD pid, DWORD dwDesiredAccess)]: a
    process handle, or NULL with an exception set. *)
Definition psutil_handle_from_pid_waccess (pid : Z) (st : cstate)
    : option Z * cstate :=
  if pid =? 0 then (None, AccessDenied st)
  else
    let st1 := log (EvOpenProcess pid) st in
    match open_process (now st) pid with
    | OpenFailed err =>
        let st2 := set_last_error err st1 in
        if last_error st2 =? ERROR_INVALID_PARAMETER then
          (None, NoSuchProcess st2)
        else (None, PyErr_SetFromWindowsErr_0 st2)
    | Opened h =>
        let st2 := log (EvGetExitCodeProcess pid) st1 in
        let '(processExitCode, st3) :=
          match get_exit_code (now st1) h with
          | ExitCode c => (c, st2)
          | ExitFailed err => (0, set_last_error err st2)
          end in
        if processExitCode =? 0 then (None, NoSuchProcess st3)
        else (Some h, st3)
    end.

End Kernel.

(** [WaitForSingleObject]: the value returned, [WAIT_FAILED] with the
    last error it sets, or a call that does not return. *)
Inductive wait_res : Type :=
| WaitValue (retVal : Z)
| WaitFailedWith (err : Z)
| WaitNever.

(** What [psutil_proc_wait] hands back: [None], NULL, or an integer. *)
Inductive proc_wait_ret : Type :=
| ProcWaitNone
| ProcWaitNULL
| ProcWaitLong (v : Z).

Section ProcessControl.

Variable open_process : nat -> Z -> open_res.
Variable get_exit_code : nat -> Z -> exit_res.

(** [TerminateProcess(hProcess, 0)]: [None] on success, or the last
    error it sets. *)
Variable terminate_process : nat -> Z -> option Z.

(** [psutil_proc_kill(pid)] of _psutil_windows.c, after the [long] was
    parsed: [true] for the [None] it returns, [false] for NULL. *)
Definition psutil_proc_kill (pid : Z) (st : cstate) : bool * cstate :=
  if pid =? 0 then (false, AccessDenied st)
  else
    let st1 := log (EvOpenProcess (to_DWORD pid)) st in
    match open_process (now st) (to_DWORD pid) with
    | OpenFailed err =>
        let st2 := set_last_error err st1 in
        if last_error st2 =? ERROR_INVALID_PARAMETER then
          (false, NoSuchProcess st2)
        else (false, PyErr_SetFromWindowsErr_0 st2)
    | Opened hProcess =>
        let st2 := log EvTerminateProcess st1 in
        match terminate_process (now st1) hProcess with
        | Some err =>
            (false, PyErr_SetFromWindowsErr_0 (set_last_error err st2))
        | None => (true, st2)
        end
    end.

(** [WaitForSingleObject(hProcess, timeout)]. *)
Variable wait_for_process : nat -> Z -> Z -> wait_res.

(** [psutil_proc_wait(pid, timeout)] of _psutil_windows.c, after the two
    [long]s were parsed; [None] when the wait does not return. *)
Definition psutil_proc_wait (pid timeout : Z) (st : cstate)
    : option (proc_wait_ret * cstate) :=
  if pid =? 0 then Some (ProcWaitNULL, AccessDenied st)
  else
    let st1 := log (EvOpenProcess (to_DWORD pid)) st in
    match open_process (now st) (to_DWORD pid) with
    | OpenFailed err =>
        let st2 := set_last_error err st1 in
        if last_error st2 =? ERROR_INVALID_PARAMETER then
          Some (ProcWaitNone, st2)
        else Some (ProcWaitNULL, PyErr_SetFromWindowsErr_0 st2)
    | Opened hProcess =>
        let st2 := log (EvWaitForSingleObject (to_DWORD timeout)) st1 in
        match wait_for_process (now st1) hProcess (to_DWORD timeout) with
        | WaitNever => None
        | WaitFailedWith err =>
            Some (ProcWaitNULL,
                  PyErr_SetFromWindowsErr_0 (set_last_error err st2))
        | WaitValue retVal =>
            if to_DWORD retVal =? WAIT_FAILED then
              Some (ProcWaitNULL, PyErr_SetFromWindowsErr_0 st2)
            else if to_DWORD retVal =? WAIT_TIMEOUT then
              Some (ProcWaitLong WAIT_TIMEOUT, st2)
            else
              let st3 := log (EvGetExitCodeProcess (to_DWORD pid)) st2 in
              match get_exit_code (now st2) hProcess with
              | ExitFailed err =>
                  Some (ProcWaitNULL,
                        PyErr_SetFromWindowsErr_0 (set_last_error err st3))
              | ExitCode c => Some (ProcWaitLong (to_int c), st3)
              end
        end
    end.

End ProcessControl.

Section ExtendedTable.

(** The rows of a connection table ([MIB_TCPTABLE_OWNER_PID], ...). *)
Variable table : Type.

(** [call(buffer, &size, FALSE, address_family, class, 0)] at a given
    time, without ([false]) or with ([true]) a buffer of [size] bytes: the
    error code returned, the size stored back, and the table written. *)
Variable call : nat -> bool -> Z -> Z * Z * table.

Variable alloc : alloc_oracle.

Record ext_table : Type := mkExtTable {
  et_error : Z;              (* the DWORD returned *)
  et_data : option table;    (* [*data], NULL as [None] *)
  et_size : Z                (* [*size] *)
}.

(** [while (error == ERROR_INSUFFICIENT_BUFFER)] of
    [__GetExtendedTcpTable] and [__GetExtendedUdpTable]; [None] when the
    loop is still running after [fuel] iterations. *)
Fixpoint extended_table_loop (fuel : nat) (error : Z) (data : option table)
    (size : Z) (st : cstate) : option (ext_table * cstate) :=
  if negb (error =? ERROR_INSUFFICIENT_BUFFER) then
    Some (mkExtTable error data size, st)
  else
    match fuel with
    | O => None
    | S fuel' =>
        let st1 := log (EvAlloc size) st in
        if negb (alloc (now st) size) then
          extended_table_loop fuel' ERROR_NOT_ENOUGH_MEMORY None size st1
        else
          let st2 := log (EvTableCall true size) st1 in
          let '(err, size', tbl) := call (now st1) true size in
          if negb (err =? NO_ERROR) then
            extended_table_loop fuel' err None size' st2
          else
            extended_table_loop fuel' err (Some tbl) size' st2
    end.

(** [__GetExtendedTcpTable(call, address_family, &data, &size)]. *)
Definition __GetExtendedTcpTable (fuel : nat) (st : cstate)
    : option (ext_table * cstate) :=
  let st1 := log (EvTableCall false 0) st in
  let '(err, size, _) := call (now st) false 0 in
  extended_table_loop fuel err None size st1.

(** [__GetExtendedUdpTable(call, address_family, &data, &size)]: the same
    statements, with the UDP table class. *)
Definition __GetExtendedUdpTable (fuel : nat) (st : cstate)
    : option (ext_table * cstate) :=
  let st1 := log (EvTableCall false 0) st in
  let '(err, size, _) := call (now st) false 0 in
  extended_table_loop fuel err None size st1.

End ExtendedTable.

Arguments mkExtTable {table} et_error et_data et_size.
Arguments et_error {table} e.
Arguments et_data {table} e.
Arguments et_size {table} e.

Section HandleTable.

(** [SYSTEM_HANDLE_INFORMATION_EX] as written by the kernel. *)
Variable handle_info : Type.

(** [__NtQuerySystemInformation(SystemExtendedHandleInformation,
    pHandleInfo, dwInfoSize, &dwRet)]: the NTSTATUS and the table. *)
Variable nt_query_system_information : nat -> Z -> Z * handle_info.

Variable heap_alloc : alloc_oracle.

Definition NT_SUCCESS (status : Z) : bool := 0 <=? to_int status.

(** [HRESULT_FROM_NT(x)]: [x | FACILITY_NT_BIT]. *)
Definition HRESULT_FROM_NT (status : Z) : Z :=
  Z.lor (to_DWORD status) 0x10000000.

(** The [do { ... } while (status == STATUS_INFO_LENGTH_MISMATCH)] that
    opens [psutil_get_open_files_ntqueryobject], and the [NT_SUCCESS]
    test after it: the handle table, or [inl tt] after [error = TRUE].
    [None] when the loop is still running after [fuel] iterations. *)
Fixpoint psutil_get_open_files_fetch (fuel : nat) (dwInfoSize : Z)
    (st : cstate) : option ((unit + handle_info) * cstate) :=
  match fuel with
  | O => None
  | S fuel' =>
      let dwInfoSize := to_DWORD (dwInfoSize * 2) in
      let st1 := log (EvAlloc dwInfoSize) st in
      if negb (heap_alloc (now st) dwInfoSize) then
        Some (inl tt, PyErr_NoMemory st1)
      else
        let st2 := log (EvNtQuerySystemInformation dwInfoSize) st1 in
        let '(status, info) :=
          nt_query_system_information (now st1) dwInfoSize in
        if to_DWORD status =? STATUS_INFO_LENGTH_MISMATCH then
          psutil_get_open_files_fetch fuel' dwInfoSize st2
        else if negb (NT_SUCCESS status) then
          Some (inl tt, set_exc (WindowsError (HRESULT_FROM_NT status)) st2)
        else Some (inr info, st2)
  end.

(** [DWORD dwInfoSize = 0x10000;] *)
Definition dwInfoSize_init : Z := 0x10000.

End HandleTable.

(** An entry of [SYSTEM_HANDLE_INFORMATION_EX.Handles]; both fields are
    [HANDLE]s. *)
Record handle_entry : Type := mkHandleEntry {
  UniqueProcessId : Z;
  HandleValue : Z
}.

(** [CreateThread] and [DuplicateHandle]: the handle they give, or
    failure with the last error it sets. *)
Inductive handle_res : Type :=
| HandleOk (h : Z)
| HandleFailed (err : Z).

(** What the worker thread has stored when the main thread looks:
    [g_status], [g_dwLength], and the [UNICODE_STRING] at
    [g_pNameBuffer] ([Length] in bytes, and the characters). *)
Record name_info : Type := mkNameInfo {
  ni_status : Z;
  ni_dwLength : Z;
  ni_Length : Z;
  ni_Buffer : list Z
}.

Section OpenFiles.

Variable nt_query_system_information : nat -> Z -> Z * list handle_entry.
Variable heap_alloc : alloc_oracle.

(** [CreateThread(NULL, 0, psutil_NtQueryObjectThread, NULL, 0, NULL)]. *)
Variable create_thread : nat -> handle_res.

(** [WaitForSingleObject(g_hEvtFinish, NTQO_TIMEOUT)] for the query on
    the handle [g_hFile] with a buffer of [g_dwSize] bytes: the value
    returned and, when the worker thread has stored its results by
    then, what it stored ([None]: the globals are as the main thread
    last saw them). *)
Variable finish_wait : nat -> Z -> Z -> Z * option name_info.

(** [WaitForSingleObject(g_hThread, INFINITE)] on the terminated worker
    thread: [true] when the call returns. *)
Variable thread_wait : nat -> bool.

(** [DuplicateHandle(hProcess, HandleValue, ..., &g_hFile, ...)]. *)
Variable duplicate_handle : nat -> Z -> Z -> handle_res.

(** [psutil_NtQueryObject()]: the value returned, what the worker has
    stored, and [g_hThread] as the call leaves it ([None] for NULL).
    The result is [None] when the call does not return. *)
Definition psutil_NtQueryObject (g_hThread : option Z) (g_hFile g_dwSize : Z)
    (st : cstate) : option (Z * option name_info * option Z * cstate) :=
  let '(g_hThread1, st1) :=
    match g_hThread with
    | Some h => (Some h, st)
    | None =>
        let st0 := log EvCreateThread st in
        match create_thread (now st) with
        | HandleOk h => (Some h, st0)
        | HandleFailed err => (None, set_last_error err st0)
        end
    end in
  match g_hThread1 with
  | None => Some (to_DWORD (last_error st1), None, None, st1)
  | Some h =>
      let st2 := log EvSetEvent st1 in
      let st3 := log (EvWaitForSingleObject NTQO_TIMEOUT) st2 in
      let '(dwWait, stored) := finish_wait (now st2) g_hFile g_dwSize in
      if to_DWORD dwWait =? WAIT_TIMEOUT then
        let st4 := log EvSuspendThread st3 in
        let st5 := log EvTerminateThread st4 in
        let st6 := log (EvWaitForSingleObject INFINITE) st5 in
        if thread_wait (now st5) then
          Some (to_DWORD dwWait, stored, None, st6)
        else None
      else Some (to_DWORD dwWait, stored, Some h, st3)
  end.

(** The [do { ... } while (g_status == STATUS_INFO_LENGTH_MISMATCH)]
    over one handle and the [NT_SUCCESS] test after it: the name
    ([Length], a [USHORT], and the characters) or [None] after
    [goto loop_cleanup], with [g_hThread] and [g_status] as they are
    left.  A buffer the worker has not written to holds zeros
    ([HEAP_ZERO_MEMORY]).  The result is [None] when a query does not
    return or the loop is still running after [fuel] iterations. *)
Fixpoint psutil_get_open_files_name (fuel : nat) (g_hThread : option Z)
    (g_status g_hFile g_dwLength : Z) (st : cstate)
    : option (option (Z * list Z) * option Z * Z * cstate) :=
  match fuel with
  | O => None
  | S fuel' =>
      if g_dwLength =? 0 then Some (None, g_hThread, g_status, st)
      else
        let g_dwSize := g_dwLength in
        let st1 := log (EvAlloc g_dwSize) st in
        if negb (heap_alloc (now st) g_dwSize) then
          Some (None, g_hThread, g_status, st1)
        else
          match psutil_NtQueryObject g_hThread g_hFile g_dwSize st1 with
          | None => None
          | Some (dwWait, stored, g_hThread', st2) =>
              let '(g_status', g_dwLength', name) :=
                match stored with
                | Some ni =>
                    (ni_status ni, to_DWORD (ni_dwLength ni),
                     (uwrap 16 (ni_Length ni), ni_Buffer ni))
                | None => (g_status, g_dwLength, (0, []))
                end in
              if negb (dwWait =? WAIT_OBJECT_0) then
                Some (None, g_hThread', g_status', st2)
              else if to_DWORD g_status' =? STATUS_INFO_LENGTH_MISMATCH then
                psutil_get_open_files_name fuel' g_hThread' g_status' g_hFile
                  g_dwLength' st2
              else if negb (NT_SUCCESS g_status') then
                Some (None, g_hThread', g_status', st2)
              else Some (Some name, g_hThread', g_status', st2)
          end
  end.

(** [(MAX_PATH+1) * sizeof(WCHAR)] *)
Definition g_dwLength_init : Z := (MAX_PATH + 1) * 2.

(** [for (i = 0; i < pHandleInfo->NumberOfHandles; i++)] of
    [psutil_get_open_files_ntqueryobject]: the paths appended to
    [py_retlist], as lists of characters.  [(HANDLE)dwPid] widens the
    [long]. *)
Fixpoint psutil_get_open_files_handles (fuel : nat) (dwPid hProcess : Z)
    (handles : list handle_entry) (g_hThread : option Z) (g_status : Z)
    (py_retlist : list (list Z)) (st : cstate)
    : option (list (list Z) * option Z * Z * cstate) :=
  match handles with
  | [] => Some (py_retlist, g_hThread, g_status, st)
  | hHandle :: rest =>
      if negb (UniqueProcessId hHandle =? to_size_t (to_int dwPid)) then
        psutil_get_open_files_handles fuel dwPid hProcess rest g_hThread
          g_status py_retlist st
      else
        let st1 := log (EvDuplicateHandle (HandleValue hHandle)) st in
        match duplicate_handle (now st) hProcess (HandleValue hHandle) with
        | HandleFailed err =>
            psutil_get_open_files_handles fuel dwPid hProcess rest g_hThread
              g_status py_retlist (set_last_error err st1)
        | HandleOk g_hFile =>
            match psutil_get_open_files_name fuel g_hThread g_status g_hFile
                    g_dwLength_init st1 with
            | None => None
            | Some (None, g_hThread', g_status', st2) =>
                psutil_get_open_files_handles fuel dwPid hProcess rest
                  g_hThread' g_status' py_retlist st2
            | Some (Some (Length, Buffer), g_hThread', g_status', st2) =>
                psutil_get_open_files_handles fuel dwPid hProcess rest
                  g_hThread' g_status'
                  (if 0 <? Length then
                     py_retlist ++ [firstn (Z.to_nat (Length / 2)) Buffer]
                   else py_retlist)
                  st2
            end
        end
  end.

(** [psutil_get_open_files_ntqueryobject(dwPid, hProcess)]: the list of
    paths, or [None] for NULL, with [g_hThread] and [g_status] as the
    call leaves them.  [resolved] says whether the two functions of
    ntdll.dll and the two events were found; the interpreter's own
    allocations are taken to succeed, and no other call of the function
    holds the critical section. *)
Definition psutil_get_open_files_ntqueryobject (resolved : bool) (fuel : nat)
    (dwPid hProcess : Z) (g_hThread : option Z) (g_status : Z) (st : cstate)
    : option (option (list (list Z)) * option Z * Z * cstate) :=
  if negb resolved then
    Some (None, g_hThread, g_status, PyErr_SetFromWindowsErr_0 st)
  else
    match psutil_get_open_files_fetch (list handle_entry)
            nt_query_system_information heap_alloc fuel dwInfoSize_init st with
    | None => None
    | Some (inl _, st1) => Some (None, g_hThread, g_status, st1)
    | Some (inr handles, st1) =>
        match psutil_get_open_files_handles fuel dwPid hProcess handles
                g_hThread g_status [] st1 with
        | None => None
        | Some (py_retlist, g_hThread', g_status', st2) =>
            Some (Some py_retlist, g_hThread', g_status', st2)
        end
    end.

End OpenFiles.

End Windows.

(* ------------------------------------------------------------------ *)
(** ** arch/bsd/freebsd_socks.c *)

Module FreeBSDSocks.

(** [#define HASHSIZE 1009] *)
Definition HASHSIZE : Z := 1009.

(** [static int PSUTIL_CONN_NONE = 128;] *)
Definition PSUTIL_CONN_NONE : Z := 128.

(** Constants of <sys/socket.h>, <netinet/in.h> and <netinet/in_pcb.h>. *)
Definition AF_UNIX : Z := 1.
Definition AF_INET : Z := 2.
Definition AF_INET6 : Z := 28.
Definition SOCK_STREAM : Z := 1.
Definition SOCK_DGRAM : Z := 2.
Definition INP_IPV4 : Z := 1.
Definition INP_IPV6 : Z := 2.

(** [struct xfile], the fields the listing reads.  [xf_data] is a kernel
    address, 0 for NULL. *)
Record xfile : Type := mkXfile {
  xf_size : Z;
  xf_pid : Z;
  xf_data : Z
}.

(** [struct xinpgen] / [struct xunpgen]: the header and the trailer of a
    pcb list. *)
Record xinpgen : Type := mkXinpgen {
  xig_len : Z;
  xig_gen : Z
}.

Record xsocket : Type := mkXsocket {
  xso_so : Z                 (* kernel address of the socket *)
}.

(** [struct inpcb]: ports in network byte order, addresses as stored. *)
Record inpcb : Type := mkInpcb {
  inp_vflag : Z;
  inp_lport : Z;
  inp_fport : Z;
  inp_laddr : Z;
  inp_faddr : Z
}.

(** One element of a TCP or UDP pcb list: [struct xtcpcb] ([xt_len],
    [xt_inp], [xt_socket], [xt_tp.t_state]) or [struct xinpcb] ([xi_len],
    [xi_inp], [xi_socket]; no state). *)
Record xpcb : Type := mkXpcb {
  xp_len : Z;
  xp_inp : inpcb;
  xp_socket : xsocket;
  xp_t_state : Z
}.

(** [struct xunpcb]: [xu_len], [xu_socket] and the [sockaddr_un] of
    [xu_addr]. *)
Record xunpcb : Type := mkXunpcb {
  xu_len : Z;
  xu_socket : xsocket;
  sun_len : Z;
  sun_path : string
}.

(** What a pcb-list sysctl wrote: the header at the start of the buffer,
    the trailer found [sizeof] bytes before the returned length, and the
    elements between them, each read at the stride of its struct. *)
Record pcblist (A : Type) : Type := mkPcblist {
  pl_head : xinpgen;
  pl_elems : list A;
  pl_tail : xinpgen
}.
Arguments mkPcblist {A} pl_head pl_elems pl_tail.
Arguments pl_head {A} p.
Arguments pl_elems {A} p.
Arguments pl_tail {A} p.

(** An address of a connection tuple. *)
Inductive addr : Type :=
| InetAddr (ip : option Z) (port : Z)  (* [None]: text never written *)
| UnixPath (path : string)
| NoAddr.                              (* the empty tuple, or None *)

(** The tuple appended to the result list:
    (fd, family, type, laddr, raddr, status, pid). *)
Record conn : Type := mkConn {
  c_fd : Z;
  c_family : option Z;       (* [None]: the variable was left unset *)
  c_type : Z;
  c_laddr : addr;
  c_raddr : addr;
  c_status : Z;
  c_pid : Z
}.

(** [static struct xfile *psutil_xfiles; static int psutil_nxfiles;] *)
Record globals : Type := mkGlobals {
  psutil_xfiles : carray xfile;
  psutil_nxfiles : Z
}.

Inductive inet_proto : Type := IPPROTO_TCP | IPPROTO_UDP.

Inductive unix_proto : Type := UNIX_STREAM | UNIX_DGRAM.

(** [ntohs] on a little-endian machine. *)
Definition ntohs (x : Z) : Z :=
  Z.lor (Z.shiftl (Z.land x 255) 8) (Z.land (Z.shiftr x 8) 255).

(** [(int)((uintptr_t)p % HASHSIZE)] *)
Definition sock_hash_of (p : Z) : Z := to_int (to_size_t p mod HASHSIZE).

(** The [for] loop of [psutil_get_pid_from_sock] over the entries of the
    file table, in order. *)
Fixpoint psutil_get_pid_from_sock_loop (xfs : list xfile) (sock_hash : Z) : Z :=
  match xfs with
  | [] => -1
  | xf :: rest =>
      if xf_data xf =? 0 then psutil_get_pid_from_sock_loop rest sock_hash
      else
        let hash := sock_hash_of (xf_data xf) in
        if sock_hash =? hash then xf_pid xf
        else psutil_get_pid_from_sock_loop rest sock_hash
  end.

Definition psutil_get_pid_from_sock (g : globals) (sock_hash : Z) : Z :=
  psutil_get_pid_from_sock_loop
    (elements (psutil_xfiles g) (psutil_nxfiles g)) sock_hash.

Section Kernel.

(** Struct sizes of the running kernel's headers. *)
Variable sizeof_xfile : Z.
Variable sizeof_xinpgen : Z.
Variable sizeof_xtcpcb : Z.
Variable sizeof_xinpcb : Z.
Variable sizeof_xunpgen : Z.
Variable sizeof_xunpcb : Z.

(** [sysctlbyname("kern.file", buf, &len, 0, 0)] with a buffer of [len]
    bytes. *)
Variable kern_file : nat -> Z -> sysctl_res (carray xfile).

(** [sysctlbyname("net.inet.{tcp,udp}.pcblist", buf, &len, NULL, 0)]. *)
Variable inet_pcblist : inet_proto -> nat -> Z -> sysctl_res (pcblist xpcb).

(** [sysctlbyname("net.local.{stream,dgram}.pcblist", buf, &len, NULL, 0)]. *)
Variable unix_pcblist : unix_proto -> nat -> Z -> sysctl_res (pcblist xunpcb).

Variable alloc : alloc_oracle.

(** The interpreter's answers to [PyErr_SetFromErrno(0)]. *)
Variable null_type : null_type_oracle.

(** [while (sysctlbyname("kern.file", ...) == -1)] of
    [psutil_populate_xfiles]: the length and buffer on leaving the loop, or
    [inl tt] after a [return 0].  Here and below [None] is a call that
    has not returned: its loop is still running after [fuel] turns, or
    the process has died in [PyErr_SetFromErrno(0)]. *)
Fixpoint psutil_populate_xfiles_loop (fuel : nat) (len : Z) (st : cstate)
    : option ((unit + Z * carray xfile) * cstate) :=
  match fuel with
  | O => None
  | S fuel' =>
      let st1 := log (EvSysctl "kern.file" len) st in
      match kern_file (now st) len with
      | SysOk n buf => Some (inr (n, buf), st1)
      | SysErr e =>
          let st2 := set_errno e st1 in
          if negb (errno st2 =? ENOMEM) then
            option_map (fun st3 => (inl tt, st3))
              (PyErr_SetFromErrno_0 null_type st2)
          else
            let len' := to_size_t (len * 2) in
            let '(ok, st3) := c_alloc alloc len' st2 in
            if ok then psutil_populate_xfiles_loop fuel' len' st3
            else Some (inl tt, PyErr_NoMemory st3)
      end
  end.

(** [psutil_populate_xfiles]: [Some g] is the return value 1 with the
    globals it leaves, [None] the return value 0. *)
Definition psutil_populate_xfiles (fuel : nat) (st : cstate)
    : option (option globals * cstate) :=
  let '(ok, st1) := c_alloc alloc sizeof_xfile st in
  if negb ok then Some (None, PyErr_NoMemory st1)
  else
    match psutil_populate_xfiles_loop fuel sizeof_xfile st1 with
    | None => None
    | Some (inl _, st2) => Some (None, st2)
    | Some (inr (len, buf), st2) =>
        if (0 <? len) && negb (xf_size (buf O) =? sizeof_xfile) then
          Some (None, set_exc (RuntimeError "struct xfile size mismatch") st2)
        else
          Some (Some (mkGlobals buf (to_int (len / sizeof_xfile))), st2)
    end.

Definition inet_varname (proto : inet_proto) : string :=
  match proto with
  | IPPROTO_TCP => "net.inet.tcp.pcblist"
  | IPPROTO_UDP => "net.inet.udp.pcblist"
  end.

Definition inet_type (proto : inet_proto) : Z :=
  match proto with
  | IPPROTO_TCP => SOCK_STREAM
  | IPPROTO_UDP => SOCK_DGRAM
  end.

(** [sizeof *xtp] or [sizeof *xip]. *)
Definition inet_sizeof (proto : inet_proto) : Z :=
  match proto with
  | IPPROTO_TCP => sizeof_xtcpcb
  | IPPROTO_UDP => sizeof_xinpcb
  end.

Definition inet_mismatch (proto : inet_proto) : string :=
  match proto with
  | IPPROTO_TCP => "struct xtcpcb size mismatch"
  | IPPROTO_UDP => "struct xinpcb size mismatch"
  end.

(** The inner [for (;;)] of [psutil_gather_inet]: the table written and
    the buffer size in use on [break], or [inl tt] on [goto error]. *)
Fixpoint psutil_gather_inet_fetch (fuel : nat) (proto : inet_proto)
    (bufsize : Z) (st : cstate)
    : option ((unit + pcblist xpcb) * Z * cstate) :=
  match fuel with
  | O => None
  | S fuel' =>
      let '(ok, st1) := c_alloc alloc bufsize st in
      if negb ok then psutil_gather_inet_fetch fuel' proto bufsize st1
      else
        let st2 := log (EvSysctl (inet_varname proto) bufsize) st1 in
        match inet_pcblist proto (now st1) bufsize with
        | SysOk _ tbl => Some (inr tbl, bufsize, st2)
        | SysErr e =>
            let st3 := set_errno e st2 in
            if negb (errno st3 =? ENOMEM) then
              option_map (fun st4 => (inl tt, bufsize, st4))
                (PyErr_SetFromErrno_0 null_type st3)
            else
              psutil_gather_inet_fetch fuel' proto (to_size_t (bufsize * 2)) st3
        end
  end.

(** The [do { ... } while (xig->xig_gen != exig->xig_gen && retry--)] of
    [psutil_gather_inet]. *)
Fixpoint psutil_gather_inet_snapshot (fuel : nat) (proto : inet_proto)
    (retry : nat) (bufsize : Z) (st : cstate)
    : option ((unit + pcblist xpcb) * cstate) :=
  match psutil_gather_inet_fetch fuel proto bufsize st with
  | None => None
  | Some (inl _, _, st1) => Some (inl tt, st1)
  | Some (inr tbl, bufsize', st1) =>
      if negb (xig_len (pl_head tbl) =? sizeof_xinpgen)
         || negb (xig_len (pl_tail tbl) =? sizeof_xinpgen) then
        Some (inl tt,
              set_exc (RuntimeError "struct xinpgen size mismatch") st1)
      else if negb (xig_gen (pl_head tbl) =? xig_gen (pl_tail tbl)) then
        match retry with
        | S retry' => psutil_gather_inet_snapshot fuel proto retry' bufsize' st1
        | O => Some (inr tbl, st1)
        end
      else Some (inr tbl, st1)
  end.

(** The tuple built for one element whose owner was found. *)
Definition inet_conn (proto : inet_proto) (x : xpcb) (pid : Z) : conn :=
  let inp := xp_inp x in
  let lport := ntohs (inp_lport inp) in
  let rport := ntohs (inp_fport inp) in
  let status :=
    match proto with
    | IPPROTO_TCP => xp_t_state x
    | IPPROTO_UDP => PSUTIL_CONN_NONE
    end in
  let '(family, lip, rip) :=
    if negb (Z.land (inp_vflag inp) INP_IPV4 =? 0) then
      (Some AF_INET, Some (inp_laddr inp), Some (inp_faddr inp))
    else if negb (Z.land (inp_vflag inp) INP_IPV6 =? 0) then
      (Some AF_INET6, Some (inp_laddr inp), Some (inp_faddr inp))
    else (None, None, None) in
  mkConn (-1) family (inet_type proto) (InetAddr lip lport)
         (if negb (rport =? 0) then InetAddr rip rport else NoAddr)
         status pid.

(** The second [for (;;)] of [psutil_gather_inet], over the elements
    between header and trailer; [py_retlist] is appended to in place. *)
Fixpoint psutil_gather_inet_walk (proto : inet_proto) (g : globals)
    (elems : list xpcb) (py_retlist : list conn) (st : cstate)
    : bool * list conn * cstate :=
  match elems with
  | [] => (true, py_retlist, st)
  | x :: rest =>
      if negb (xp_len x =? inet_sizeof proto) then
        (false, py_retlist, set_exc (RuntimeError (inet_mismatch proto)) st)
      else
        let hash := sock_hash_of (xso_so (xp_socket x)) in
        let pid := psutil_get_pid_from_sock g hash in
        if pid <? 0 then psutil_gather_inet_walk proto g rest py_retlist st
        else
          psutil_gather_inet_walk proto g rest
            (py_retlist ++ [inet_conn proto x pid]) st
  end.

(** [psutil_gather_inet(proto, py_retlist)]: [true] for the return value
    1, with the list as the call leaves it. *)
Definition psutil_gather_inet (fuel : nat) (proto : inet_proto) (g : globals)
    (py_retlist : list conn) (st : cstate)
    : option (bool * list conn * cstate) :=
  match psutil_gather_inet_snapshot fuel proto 5 8192 st with
  | None => None
  | Some (inl _, st1) => Some (false, py_retlist, st1)
  | Some (inr tbl, st1) =>
      Some (psutil_gather_inet_walk proto g (pl_elems tbl) py_retlist st1)
  end.

Definition unix_varname (proto : unix_proto) : string :=
  match proto with
  | UNIX_STREAM => "net.local.stream.pcblist"
  | UNIX_DGRAM => "net.local.dgram.pcblist"
  end.

(** The value of the [proto] argument: [SOCK_STREAM] or [SOCK_DGRAM]. *)
Definition unix_type (proto : unix_proto) : Z :=
  match proto with
  | UNIX_STREAM => SOCK_STREAM
  | UNIX_DGRAM => SOCK_DGRAM
  end.

(** The inner [for (;;)] of [psutil_gather_unix]. *)
Fixpoint psutil_gather_unix_fetch (fuel : nat) (proto : unix_proto)
    (bufsize : Z) (st : cstate)
    : option ((unit + pcblist xunpcb) * Z * cstate) :=
  match fuel with
  | O => None
  | S fuel' =>
      let '(ok, st1) := c_alloc alloc bufsize st in
      if negb ok then Some (inl tt, bufsize, PyErr_NoMemory st1)
      else
        let st2 := log (EvSysctl (unix_varname proto) bufsize) st1 in
        match unix_pcblist proto (now st1) bufsize with
        | SysOk _ tbl => Some (inr tbl, bufsize, st2)
        | SysErr e =>
            let st3 := set_errno e st2 in
            if negb (errno st3 =? ENOMEM) then
              option_map (fun st4 => (inl tt, bufsize, st4))
                (PyErr_SetFromErrno_0 null_type st3)
            else
              psutil_gather_unix_fetch fuel' proto (to_size_t (bufsize * 2)) st3
        end
  end.

(** The [do { ... } while (xug->xug_gen != exug->xug_gen && retry--)] of
    [psutil_gather_unix]. *)
Fixpoint psutil_gather_unix_snapshot (fuel : nat) (proto : unix_proto)
    (retry : nat) (bufsize : Z) (st : cstate)
    : option ((unit + pcblist xunpcb) * cstate) :=
  match psutil_gather_unix_fetch fuel proto bufsize st with
  | None => None
  | Some (inl _, _, st1) => Some (inl tt, st1)
  | Some (inr tbl, bufsize', st1) =>
      if negb (xig_len (pl_head tbl) =? sizeof_xunpgen)
         || negb (xig_len (pl_tail tbl) =? sizeof_xunpgen) then
        Some (inl tt,
              set_exc (RuntimeError "struct xinpgen size mismatch") st1)
      else if negb (xig_gen (pl_head tbl) =? xig_gen (pl_tail tbl)) then
        match retry with
        | S retry' => psutil_gather_unix_snapshot fuel proto retry' bufsize' st1
        | O => Some (inr tbl, st1)
        end
      else Some (inr tbl, st1)
  end.

(** The offset of [sun_path] in [struct sockaddr_un] (its size less the
    size of [sun_path]), from <sys/un.h>. *)
Variable sun_path_offset : Z.

(** The [snprintf] of [sun_path] into [path] with precision
    [(int)(sun_len - offset)]: a negative precision prints the whole
    string. *)
Definition unix_path (x : xunpcb) : string :=
  let prec := to_int (to_size_t (sun_len x - sun_path_offset)) in
  if prec <? 0 then sun_path x
  else substring 0 (Z.to_nat prec) (sun_path x).

Definition unix_conn (proto : unix_proto) (x : xunpcb) (pid : Z) : conn :=
  mkConn (-1) (Some AF_UNIX) (unix_type proto) (UnixPath (unix_path x)) NoAddr
         PSUTIL_CONN_NONE pid.

(** The second [for (;;)] of [psutil_gather_unix]; a size mismatch leaves
    through [goto error] without setting an exception. *)
Fixpoint psutil_gather_unix_walk (proto : unix_proto) (g : globals)
    (elems : list xunpcb) (py_retlist : list conn) (st : cstate)
    : bool * list conn * cstate :=
  match elems with
  | [] => (true, py_retlist, st)
  | x :: rest =>
      if negb (xu_len x =? sizeof_xunpcb) then (false, py_retlist, st)
      else
        let hash := sock_hash_of (xso_so (xu_socket x)) in
        let pid := psutil_get_pid_from_sock g hash in
        if pid <? 0 then psutil_gather_unix_walk proto g rest py_retlist st
        else
          psutil_gather_unix_walk proto g rest
            (py_retlist ++ [unix_conn proto x pid]) st
  end.

(** [psutil_gather_unix(proto, py_retlist)]. *)
Definition psutil_gather_unix (fuel : nat) (proto : unix_proto) (g : globals)
    (py_retlist : list conn) (st : cstate)
    : option (bool * list conn * cstate) :=
  match psutil_gather_unix_snapshot fuel proto 5 8192 st with
  | None => None
  | Some (inl _, st1) => Some (false, py_retlist, st1)
  | Some (inr tbl, st1) =>
      Some (psutil_gather_unix_walk proto g (pl_elems tbl) py_retlist st1)
  end.

(** [psutil_net_connections]: the list of tuples, or [None] for the NULL
    return.  The interpreter's own allocations ([PyList_New],
    [Py_BuildValue], [PyList_Append]) are taken to succeed. *)
Definition psutil_net_connections (fuel : nat) (st : cstate)
    : option (option (list conn) * cstate) :=
  match psutil_populate_xfiles fuel st with
  | None => None
  | Some (None, st1) => Some (None, st1)
  | Some (Some g, st1) =>
  match psutil_gather_inet fuel IPPROTO_TCP g [] st1 with
  | None => None
  | Some (false, _, st2) => Some (None, st2)
  | Some (true, l2, st2) =>
  match psutil_gather_inet fuel IPPROTO_UDP g l2 st2 with
  | None => None
  | Some (false, _, st3) => Some (None, st3)
  | Some (true, l3, st3) =>
  match psutil_gather_unix fuel UNIX_STREAM g l3 st3 with
  | None => None
  | Some (false, _, st4) => Some (None, st4)
  | Some (true, l4, st4) =>
  match psutil_gather_unix fuel UNIX_DGRAM g l4 st4 with
  | None => None
  | Some (false, _, st5) => Some (None, st5)
  | Some (true, l5, st5) => Some (Some l5, st5)
  end end end end
  end.

End Kernel.

End FreeBSDSocks.

(* ------------------------------------------------------------------ *)
(** ** arch/bsd/netbsd_socks.c *)

Module NetBSDSocks.

(** [static int PSUTIL_CONN_NONE = 128;] *)
Definition PSUTIL_CONN_NONE : Z := 128.

Definition SOCK_STREAM : Z := 1.

(** [struct kinfo_file], the fields the listing reads. *)
Record kinfo_file : Type := mkKinfoFile {
  ki_pid : Z;
  ki_fd : Z;
  ki_fdata : Z               (* kernel address of the file's data *)
}.

(** The address families of the seven pcb lists that are read (the inet,
    inet6 and local domains). *)
Inductive sa_family : Type := AF_INET | AF_INET6 | AF_UNIX.

(** A [sockaddr_in], [sockaddr_in6] or [sockaddr_un] of a [kinfo_pcb]:
    port in network byte order, address as stored, path. *)
Record sockaddr : Type := mkSockaddr {
  sa_port : Z;
  sa_addr : Z;
  sa_path : string
}.

(** [struct kinfo_pcb], the fields the listing reads. *)
Record kinfo_pcb : Type := mkKinfoPcb {
  ki_sockaddr : Z;           (* kernel address of the socket *)
  ki_family : sa_family;
  ki_type : Z;
  ki_tstate : Z;
  ki_src : sockaddr;
  ki_dst : sockaddr
}.

Inductive addr : Type :=
| InetAddr (ip : Z) (port : Z)
| UnixPath (path : string)
| NoAddr.

(** (fd, family, type, laddr, raddr, status, pid) *)
Record conn : Type := mkConn {
  c_fd : Z;
  c_family : sa_family;
  c_type : Z;
  c_laddr : addr;
  c_raddr : addr;
  c_status : Z;
  c_pid : Z
}.

Definition ntohs (x : Z) : Z :=
  Z.lor (Z.shiftl (Z.land x 255) 8) (Z.land (Z.shiftr x 8) 255).

(** The body of the inner [SLIST_FOREACH] once the two kernel addresses
    were found equal. *)
Definition make_conn (k : kinfo_file) (kp : kinfo_pcb) : conn :=
  match ki_family kp with
  | AF_INET | AF_INET6 =>
      let lport := ntohs (sa_port (ki_src kp)) in
      let rport := ntohs (sa_port (ki_dst kp)) in
      let status :=
        if ki_type kp =? SOCK_STREAM then ki_tstate kp else PSUTIL_CONN_NONE in
      mkConn (ki_fd k) (ki_family kp) (ki_type kp)
             (InetAddr (sa_addr (ki_src kp)) lport)
             (if negb (rport =? 0) then InetAddr (sa_addr (ki_dst kp)) rport
              else NoAddr)
             status (ki_pid k)
  | AF_UNIX =>
      mkConn (ki_fd k) (ki_family kp) (ki_type kp)
             (UnixPath (sa_path (ki_src kp))) (UnixPath (sa_path (ki_dst kp)))
             PSUTIL_CONN_NONE (ki_pid k)
  end.

(** [SLIST_FOREACH(kp, &kpcbhead, kpcbs)] for one file entry [k]. *)
Fixpoint foreach_kpcb (k : kinfo_file) (kpcbhead : list kinfo_pcb)
    (py_retlist : list conn) : list conn :=
  match kpcbhead with
  | [] => py_retlist
  | kp :: rest =>
      if negb (ki_fdata k =? ki_sockaddr kp) then
        foreach_kpcb k rest py_retlist
      else foreach_kpcb k rest (py_retlist ++ [make_conn k kp])
  end.

(** [SLIST_FOREACH(k, &kihead, kifs)] of [psutil_net_connections]. *)
Fixpoint foreach_kif (pid : Z) (kihead : list kinfo_file)
    (kpcbhead : list kinfo_pcb) (py_retlist : list conn) : list conn :=
  match kihead with
  | [] => py_retlist
  | k :: rest =>
      if negb (pid =? -1) && negb (ki_pid k =? pid) then
        foreach_kif pid rest kpcbhead py_retlist
      else
        foreach_kif pid rest kpcbhead (foreach_kpcb k kpcbhead py_retlist)
  end.

Section Kernel.

Variable sizeof_off_t : Z.
Variable sizeof_kinfo_file : Z.
Variable sizeof_kinfo_pcb : Z.

(** [sysctl(mib, 6, NULL, &len, NULL, 0)] for KERN_FILE2. *)
Variable file2_size : nat -> sysctl_res unit.

(** [sysctl(mib, 6, buf + offset, &len, NULL, 0)]. *)
Variable file2_fetch : nat -> Z -> sysctl_res (carray kinfo_file).

(** [sysctlnametomib(name, mib, &namelen)]: [None], or the [errno] of a
    failure. *)
Variable nametomib : nat -> string -> option Z.

(** The size query and the fetch of the pcb list called [name]. *)
Variable pcb_size : nat -> string -> sysctl_res unit.
Variable pcb_fetch : nat -> string -> Z -> sysctl_res (carray kinfo_pcb).

Variable alloc : alloc_oracle.

(** [SLIST_INSERT_HEAD] of the elements of an array, first to last. *)
Definition insert_all_head {A : Type} (l : list A) (head : list A) : list A :=
  fold_left (fun h x => x :: h) l head.

(** [psutil_get_files]: 0 with the list [kihead] filled, or -1.  The
    list nodes are allocated without a check and are taken to exist. *)
Definition psutil_get_files (kihead : list kinfo_file) (st : cstate)
    : Z * list kinfo_file * cstate :=
  let st1 := log (EvSysctlSize "kern.file2") st in
  match file2_size (now st) with
  | SysErr e => (-1, kihead, PyErr_SetFromErrno_OSError (set_errno e st1))
  | SysOk len _ =>
      let offset := len mod sizeof_off_t in
      let '(ok, st2) := c_alloc alloc (to_size_t (len + offset)) st1 in
      if negb ok then (-1, kihead, PyErr_NoMemory st2)
      else
        let st3 := log (EvSysctl "kern.file2" len) st2 in
        match file2_fetch (now st2) len with
        | SysErr e => (-1, kihead, PyErr_SetFromErrno_OSError (set_errno e st3))
        | SysOk len' ki =>
            (0, insert_all_head (elements ki (len' / sizeof_kinfo_file)) kihead,
             st3)
        end
  end.

(** [psutil_get_sockets(name)]: 0 with the list [kpcbhead] extended, or
    -1. *)
Definition psutil_get_sockets (name : string) (kpcbhead : list kinfo_pcb)
    (st : cstate) : Z * list kinfo_pcb * cstate :=
  let st0 := log (EvSysctlNameToMib name) st in
  match nametomib (now st) name with
  | Some e => (-1, kpcbhead, PyErr_SetFromErrno_OSError (set_errno e st0))
  | None =>
      let st1 := log (EvSysctlSize name) st0 in
      match pcb_size (now st0) name with
      | SysErr e => (-1, kpcbhead, PyErr_SetFromErrno_OSError (set_errno e st1))
      | SysOk len _ =>
          let '(ok, st2) := c_alloc alloc len st1 in
          if negb ok then (-1, kpcbhead, PyErr_NoMemory st2)
          else
            let st3 := log (EvSysctl name len) st2 in
            match pcb_fetch (now st2) name len with
            | SysErr e =>
                (-1, kpcbhead, PyErr_SetFromErrno_OSError (set_errno e st3))
            | SysOk len' kp =>
                (0,
                 insert_all_head (elements kp (len' / sizeof_kinfo_pcb))
                   kpcbhead,
                 st3)
            end
      end
  end.

(** The names read by [psutil_get_info(ALL)], in order. *)
Definition pcblists_ALL : list string :=
  [ "net.inet.tcp.pcblist"; "net.inet.udp.pcblist";
    "net.inet6.tcp6.pcblist"; "net.inet6.udp6.pcblist";
    "net.local.stream.pcblist"; "net.local.seqpacket.pcblist";
    "net.local.dgram.pcblist" ]%string.

(** [psutil_get_info(ALL)]: every [psutil_get_sockets] in turn, -1 at the
    first that fails. *)
Fixpoint psutil_get_info (names : list string) (kpcbhead : list kinfo_pcb)
    (st : cstate) : Z * list kinfo_pcb * cstate :=
  match names with
  | [] => (0, kpcbhead, st)
  | name :: rest =>
      let '(r, kpcbhead', st1) := psutil_get_sockets name kpcbhead st in
      if negb (r =? 0) then (-1, kpcbhead', st1)
      else psutil_get_info rest kpcbhead' st1
  end.

(** [psutil_net_connections(pid)]: the list, or [None] for the NULL
    return.  [pid] is the Python integer: [PyArg_ParseTuple(args, "l",
    &pid)] stores a [long] where [pid_t pid] is declared, so that the
    variable holds its low 32 bits, read as a signed integer. *)
Definition psutil_net_connections (pid : Z) (st : cstate)
    : option (list conn) * cstate :=
  let pid := to_pid_t pid in
  let '(rf, kihead, st1) := psutil_get_files [] st in
  if negb (rf =? 0) then (None, st1)
  else
    let '(ri, kpcbhead, st2) := psutil_get_info pcblists_ALL [] st1 in
    if negb (ri =? 0) then (None, st2)
    else (Some (foreach_kif pid kihead kpcbhead []), st2).

End Kernel.

End NetBSDSocks.

(* ------------------------------------------------------------------ *)
(** ** arch/bsd/netbsd.c and arch/bsd/openbsd.c: swap counters *)

(** An [int]-returning system call: its value, or -1 with the [errno]
    it sets. *)
Inductive sys_int : Type :=
| Ret (v : Z)
| Fail (en : Z).

(** [struct swapent], the fields that are summed. *)
Record swapent : Type := mkSwapent {
  se_flags : Z;
  se_nblks : Z;
  se_inuse : Z
}.

(** Constants of <sys/swap.h> and <sys/param.h>. *)
Definition SWF_ENABLE : Z := 2.
Definition DEV_BSIZE : Z := 512.

(** What [psutil_swap_mem] hands back: the 5-tuple
    (total, used, free, swapped in, swapped out), NULL, or nothing at all
    when control runs off the end of the function. *)
Inductive swap_ret : Type :=
| SwapTuple (total used free sin sout : Z)
| SwapNULL
| SwapNoReturn.

Module NetBSD.

Section Kernel.

Variable sizeof_swapent : Z.

(** [swapctl(SWAP_NSWAP, 0, 0)]. *)
Variable swapctl_nswap : nat -> sys_int.

(** [swapctl(SWAP_STATS, swdev, nswap)]: the entries written. *)
Variable swapctl_stats : nat -> Z -> sysctl_res (carray swapent).

(** [sysctl({CTL_VM, VM_UVMEXP2}, &uv, &size)]: [pgswapin], [pgswapout]. *)
Variable uvmexp2 : nat -> sysctl_res (Z * Z).

(** [getpagesize()]. *)
Variable pagesize : Z.

Variable alloc : alloc_oracle.

(** The summing loop: [swap_total] and [swap_free] in bytes, as
    [uint64_t]; the products are computed in [int]. *)
Fixpoint total_up (swdev : list swapent) (swap_total swap_free : Z) : Z * Z :=
  match swdev with
  | [] => (swap_total, swap_free)
  | d :: rest =>
      if negb (Z.land (se_flags d) SWF_ENABLE =? 0) then
        total_up rest
          (uwrap 64 (swap_total + to_int (se_nblks d * DEV_BSIZE)))
          (uwrap 64 (swap_free
                     + to_int (to_int (se_nblks d - se_inuse d) * DEV_BSIZE)))
      else total_up rest swap_total swap_free
  end.

Definition psutil_swap_mem (st : cstate) : swap_ret * cstate :=
  let st1 := log EvSwapctlNswap st in
  let '(nswap, st2) :=
    match swapctl_nswap (now st) with
    | Ret v => (v, st1)
    | Fail e => (-1, set_errno e st1)
    end in
  if nswap =? 0 then (SwapTuple 0 0 0 0 0, st2)
  else
    let '(ok, st3) := c_alloc alloc (to_size_t nswap * sizeof_swapent) st2 in
    if negb ok then (SwapNULL, PyErr_SetFromErrno_OSError st3)
    else
      let st4 := log (EvSwapctlStats nswap) st3 in
      match swapctl_stats (now st3) nswap with
      | SysErr e => (SwapNoReturn, PyErr_SetFromErrno_OSError (set_errno e st4))
      | SysOk _ swdev =>
          let '(swap_total, swap_free) :=
            total_up (elements swdev nswap) 0 0 in
          let st5 := log (EvSysctl "vm.uvmexp2" 0) st4 in
          match uvmexp2 (now st4) with
          | SysErr e =>
              (SwapNoReturn, PyErr_SetFromErrno_OSError (set_errno e st5))
          | SysOk _ (pgswapin, pgswapout) =>
              (SwapTuple (swrap 64 swap_total)
                         (swrap 64 (swap_total - swap_free))
                         (swrap 64 swap_free)
                         (swrap 64 (pgswapin * pagesize))
                         (swrap 64 (pgswapout * pagesize)),
               st5)
          end
      end.

End Kernel.

End NetBSD.

Module OpenBSD.

Section Kernel.

Variable sizeof_swapent : Z.

(** [swapctl(SWAP_NSWAP, 0, 0)]. *)
Variable swapctl_nswap : nat -> sys_int.

(** [swapctl(SWAP_STATS, swdev, nswap)]: the entries written. *)
Variable swapctl_stats : nat -> Z -> sysctl_res (carray swapent).

Variable alloc : alloc_oracle.

(** The summing loop: [swap_total] and [swap_free] in blocks, as
    [uint64_t]. *)
Fixpoint total_up (swdev : list swapent) (swap_total swap_free : Z) : Z * Z :=
  match swdev with
  | [] => (swap_total, swap_free)
  | d :: rest =>
      if negb (Z.land (se_flags d) SWF_ENABLE =? 0) then
        total_up rest
          (uwrap 64 (swap_total + se_nblks d))
          (uwrap 64 (swap_free + to_int (se_nblks d - se_inuse d)))
      else total_up rest swap_total swap_free
  end.

Definition psutil_swap_mem (st : cstate) : swap_ret * cstate :=
  let st1 := log EvSwapctlNswap st in
  let '(nswap, st2) :=
    match swapctl_nswap (now st) with
    | Ret v => (v, st1)
    | Fail e => (-1, set_errno e st1)
    end in
  if nswap =? 0 then (SwapNULL, PyErr_SetFromErrno_OSError st2)
  else
    let '(ok, st3) := c_alloc alloc (to_size_t nswap * sizeof_swapent) st2 in
    if negb ok then (SwapNULL, PyErr_NoMemory st3)
    else
      let st4 := log (EvSwapctlStats nswap) st3 in
      match swapctl_stats (now st3) nswap with
      | SysErr e => (SwapNULL, PyErr_SetFromErrno_OSError (set_errno e st4))
      | SysOk _ swdev =>
          let '(swap_total, swap_free) :=
            total_up (elements swdev nswap) 0 0 in
          (SwapTuple (swrap 64 (swap_total * DEV_BSIZE))
                     (swrap 64 ((swap_total - swap_free) * DEV_BSIZE))
                     (swrap 64 (swap_free * DEV_BSIZE))
                     0 0,
           st4)
      end.

End Kernel.

End OpenBSD.

(* ------------------------------------------------------------------ *)
(** ** arch/windows/process_info.c: the list of pids *)

(** A call that has no event of its own is logged under its name, with
    the size of the buffer it was given. *)
Definition EvCall (name : string) (size : Z) : event := EvSysctl name size.

Module WindowsPids.

Section Kernel.

(** [EnumProcesses(procArray, procArrayByteSz, &enumReturnSz)]: the
    number of bytes stored and the array written, or FALSE with the last
    error it sets. *)
Variable enum_processes : nat -> Z -> sysctl_res (carray Z).

Variable alloc : alloc_oracle.

(** [sizeof(DWORD)] *)
Definition sizeof_DWORD : Z := 4.

(** The [do { ... } while (enumReturnSz == procArraySz * sizeof(DWORD))]
    of [psutil_get_pids], entered with the current [procArraySz]: the
    array and [*numberOfReturnedPIDs], or [None] for the NULL return.
    The products are those of a 64-bit build ([size_t] of 64 bits). *)
Fixpoint psutil_get_pids_loop (fuel : nat) (procArraySz : Z) (st : cstate)
    : option (option (carray Z * Z) * cstate) :=
  match fuel with
  | O => None
  | S fuel' =>
      let procArraySz := to_int (procArraySz + 1024) in
      let procArrayByteSz := to_DWORD (to_size_t (procArraySz * sizeof_DWORD)) in
      let '(ok, st1) := c_alloc alloc procArrayByteSz st in
      if negb ok then Some (None, PyErr_NoMemory st1)
      else
        let st2 := log (EvCall "EnumProcesses" procArrayByteSz) st1 in
        match enum_processes (now st1) procArrayByteSz with
        | SysErr err =>
            Some (None, PyErr_SetFromWindowsErr_0 (set_last_error err st2))
        | SysOk enumReturnSz procArray =>
            if enumReturnSz =? to_size_t (procArraySz * sizeof_DWORD) then
              psutil_get_pids_loop fuel' procArraySz st2
            else Some (Some (procArray, enumReturnSz / sizeof_DWORD), st2)
        end
  end.

(** [psutil_get_pids(&numberOfReturnedPIDs)] *)
Definition psutil_get_pids (fuel : nat) (st : cstate)
    : option (option (carray Z * Z) * cstate) :=
  psutil_get_pids_loop fuel 0 st.

(** The [for] loop of [psutil_pid_in_proclist]. *)
Fixpoint pid_in_proclist_loop (pid : Z) (proclist : list Z) : Z :=
  match proclist with
  | [] => 0
  | p :: rest => if pid =? p then 1 else pid_in_proclist_loop pid rest
  end.

(** [psutil_pid_in_proclist(DWORD pid)]: 1, 0, or -1 when the list could
    not be had. *)
Definition psutil_pid_in_proclist (fuel : nat) (pid : Z) (st : cstate)
    : option (Z * cstate) :=
  match psutil_get_pids fuel st with
  | None => None
  | Some (None, st1) => Some (-1, st1)
  | Some (Some (proclist, numberOfReturnedPIDs), st1) =>
      Some (pid_in_proclist_loop pid (elements proclist numberOfReturnedPIDs),
            st1)
  end.

End Kernel.

End WindowsPids.

(* ------------------------------------------------------------------ *)
(** ** _psutil_windows.c: the connection listing *)

Module WindowsNet.

(** [#define BYTESWAP_USHORT(x)
     ((((USHORT)(x) << 8) | ((USHORT)(x) >> 8)) & 0xffff)] *)
Definition BYTESWAP_USHORT (x : Z) : Z :=
  Z.land (Z.lor (Z.shiftl (uwrap 16 x) 8) (Z.shiftr (uwrap 16 x) 8)) 0xffff.

(** [static int PSUTIL_CONN_NONE = 128;] *)
Definition PSUTIL_CONN_NONE : Z := 128.

(** [#define AF_INET6 23], and constants of <winsock2.h> and
    <iprtrmib.h>. *)
Definition AF_INET : Z := 2.
Definition AF_INET6 : Z := 23.
Definition SOCK_STREAM : Z := 1.
Definition SOCK_DGRAM : Z := 2.
Definition MIB_TCP_STATE_LISTEN : Z := 2.

(** A row of [MIB_TCPTABLE_OWNER_PID] or [MIB_TCP6TABLE_OWNER_PID]; an
    IPv6 address is the number its 16 bytes spell. *)
Record tcp_row : Type := mkTcpRow {
  dwState : Z;
  dwLocalAddr : Z;
  dwLocalPort : Z;
  dwRemoteAddr : Z;
  dwRemotePort : Z;
  dwOwningPid : Z
}.

(** A row of [MIB_UDPTABLE_OWNER_PID] or [MIB_UDP6TABLE_OWNER_PID]. *)
Record udp_row : Type := mkUdpRow {
  udp_dwLocalAddr : Z;
  udp_dwLocalPort : Z;
  udp_dwOwningPid : Z
}.

(** (fd, family, type, laddr, raddr, status, pid); an address is the
    pair (address, port), or [None] for the empty tuple. *)
Record conn : Type := mkConn {
  c_fd : Z;
  c_family : Z;
  c_type : Z;
  c_laddr : option (Z * Z);
  c_raddr : option (Z * Z);
  c_status : Z;
  c_pid : Z
}.

(** What the listing hands back: the list, NULL, or nothing at all when
    a NULL table is read. *)
Inductive net_ret : Type :=
| NetList (l : list conn)
| NetNULL
| NetNullTable.

(** [(unsigned long)-1] *)
Definition ALL_PIDS : Z := to_DWORD (-1).

(** The tuple built for one TCP row. *)
Definition tcp_conn (family : Z) (row : tcp_row) : conn :=
  mkConn (-1) family SOCK_STREAM
    (if negb (dwLocalAddr row =? 0) || negb (dwLocalPort row =? 0) then
       Some (dwLocalAddr row, BYTESWAP_USHORT (dwLocalPort row))
     else None)
    (if (negb (dwRemoteAddr row =? 0) || negb (dwRemotePort row =? 0))
        && negb (dwState row =? MIB_TCP_STATE_LISTEN) then
       Some (dwRemoteAddr row, BYTESWAP_USHORT (dwRemotePort row))
     else None)
    (dwState row) (dwOwningPid row).

(** The tuple built for one UDP row. *)
Definition udp_conn (family : Z) (row : udp_row) : conn :=
  mkConn (-1) family SOCK_DGRAM
    (if negb (udp_dwLocalAddr row =? 0) || negb (udp_dwLocalPort row =? 0) then
       Some (udp_dwLocalAddr row, BYTESWAP_USHORT (udp_dwLocalPort row))
     else None)
    None PSUTIL_CONN_NONE (udp_dwOwningPid row).

(** [for (i = 0; i < tcpTable->dwNumEntries; i++)] *)
Fixpoint tcp_rows (pid family : Z) (table : list tcp_row)
    (py_retlist : list conn) : list conn :=
  match table with
  | [] => py_retlist
  | row :: rest =>
      if negb (pid =? ALL_PIDS) && negb (dwOwningPid row =? pid) then
        tcp_rows pid family rest py_retlist
      else tcp_rows pid family rest (py_retlist ++ [tcp_conn family row])
  end.

(** [for (i = 0; i < udpTable->dwNumEntries; i++)] *)
Fixpoint udp_rows (pid family : Z) (table : list udp_row)
    (py_retlist : list conn) : list conn :=
  match table with
  | [] => py_retlist
  | row :: rest =>
      if negb (pid =? ALL_PIDS) && negb (udp_dwOwningPid row =? pid) then
        udp_rows pid family rest py_retlist
      else udp_rows pid family rest (py_retlist ++ [udp_conn family row])
  end.

(** [PySequence_Contains(filter, value) == 1] for a sequence of
    integers. *)
Definition contains (filter : list Z) (value : Z) : bool :=
  existsb (Z.eqb value) filter.

Section Kernel.

Variable open_process : nat -> Z -> Windows.open_res.
Variable get_exit_code : nat -> Z -> Windows.exit_res.

(** [GetExtendedTcpTable] and [GetExtendedUdpTable] of iphlpapi.dll, by
    address family. *)
Variable tcp_call : Z -> nat -> bool -> Z -> Z * Z * list tcp_row.
Variable udp_call : Z -> nat -> bool -> Z -> Z * Z * list udp_row.

Variable alloc : alloc_oracle.

(** One of the two TCP blocks of [psutil_net_connections]: the list as
    the block leaves it, or the way the function is left. *)
Definition tcp_block (fuel : nat) (pid family : Z) (py_retlist : list conn)
    (st : cstate) : option ((net_ret + list conn) * cstate) :=
  match Windows.__GetExtendedTcpTable (list tcp_row) (tcp_call family) alloc
          fuel st with
  | None => None
  | Some (r, st1) =>
      if Windows.et_error r =? ERROR_NOT_ENOUGH_MEMORY then
        Some (inl NetNULL, PyErr_NoMemory st1)
      else if Windows.et_error r =? NO_ERROR then
        match Windows.et_data r with
        | Some table => Some (inr (tcp_rows pid family table py_retlist), st1)
        | None => Some (inl NetNullTable, st1)
        end
      else
        Some (inl NetNULL, set_exc (WindowsError (Windows.et_error r)) st1)
  end.

(** One of the two UDP blocks. *)
Definition udp_block (fuel : nat) (pid family : Z) (py_retlist : list conn)
    (st : cstate) : option ((net_ret + list conn) * cstate) :=
  match Windows.__GetExtendedUdpTable (list udp_row) (udp_call family) alloc
          fuel st with
  | None => None
  | Some (r, st1) =>
      if Windows.et_error r =? ERROR_NOT_ENOUGH_MEMORY then
        Some (inl NetNULL, PyErr_NoMemory st1)
      else if Windows.et_error r =? NO_ERROR then
        match Windows.et_data r with
        | Some table => Some (inr (udp_rows pid family table py_retlist), st1)
        | None => Some (inl NetNullTable, st1)
        end
      else
        Some (inl NetNULL, set_exc (WindowsError (Windows.et_error r)) st1)
  end.

(** A block is run when its family and its type are in the filters. *)
Definition when_wanted (wanted : bool)
    (block : list conn -> cstate -> option ((net_ret + list conn) * cstate))
    (py_retlist : list conn) (st : cstate)
    : option ((net_ret + list conn) * cstate) :=
  if wanted then block py_retlist st else Some (inr py_retlist, st).

(** The four blocks of [psutil_net_connections], in order: TCP IPv4, TCP
    IPv6, UDP IPv4, UDP IPv6. *)
Definition psutil_net_connections_tables (fuel : nat) (pid : Z)
    (af_filter type_filter : list Z) (st : cstate)
    : option (net_ret * cstate) :=
  match when_wanted
          (contains af_filter AF_INET && contains type_filter SOCK_STREAM)
          (tcp_block fuel pid AF_INET) [] st with
  | None => None
  | Some (inl r, st1) => Some (r, st1)
  | Some (inr l1, st1) =>
  match when_wanted
          (contains af_filter AF_INET6 && contains type_filter SOCK_STREAM)
          (tcp_block fuel pid AF_INET6) l1 st1 with
  | None => None
  | Some (inl r, st2) => Some (r, st2)
  | Some (inr l2, st2) =>
  match when_wanted
          (contains af_filter AF_INET && contains type_filter SOCK_DGRAM)
          (udp_block fuel pid AF_INET) l2 st2 with
  | None => None
  | Some (inl r, st3) => Some (r, st3)
  | Some (inr l3, st3) =>
  match when_wanted
          (contains af_filter AF_INET6 && contains type_filter SOCK_DGRAM)
          (udp_block fuel pid AF_INET6) l3 st3 with
  | None => None
  | Some (inl r, st4) => Some (r, st4)
  | Some (inr l4, st4) => Some (NetList l4, st4)
  end end end
  end.

(** [psutil_net_connections(pid, af_filter, type_filter)], once the two
    functions of iphlpapi.dll were found: the pid, read as an
    [unsigned long], is checked unless it is -1, then the tables are
    walked.  The interpreter's own allocations are taken to succeed. *)
Definition psutil_net_connections (fuel : nat) (pid : Z)
    (af_filter type_filter : list Z) (st : cstate)
    : option (net_ret * cstate) :=
  let pid := to_DWORD pid in
  if negb (pid =? ALL_PIDS) then
    let '(status, st1) :=
      Windows.psutil_pid_is_running open_process get_exit_code pid st in
    if status =? 0 then Some (NetNULL, NoSuchProcess st1)
    else psutil_net_connections_tables fuel pid af_filter type_filter st1
  else psutil_net_connections_tables fuel pid af_filter type_filter st.

End Kernel.

End WindowsNet.

(* ------------------------------------------------------------------ *)
(** ** Argument blocks: arch/osx/process_info.c and arch/bsd/netbsd.c *)

(** [strlen]: the number of bytes before the first NUL, or [None] when
    the memory holds no NUL. *)
Fixpoint c_strlen (mem : list Z) : option nat :=
  match mem with
  | [] => None
  | c :: rest => if c =? 0 then Some O else option_map S (c_strlen rest)
  end.

(** The C string that starts a piece of memory. *)
Definition c_string (mem : list Z) : option (list Z) :=
  option_map (fun n => firstn n mem) (c_strlen mem).

(** What a sysctl that copies out an argument block leaves in the
    buffer: [data] are the bytes it wrote (their number is the length it
    stores back), [tail] the bytes of the buffer after them. *)
Inductive procargs_res : Type :=
| ProcargsOk (data tail : list Z)
| ProcargsErr (en : Z).

(** What [psutil_get_cmdline] hands back: the list of arguments (as byte
    strings, before decoding), NULL, or nothing at all when a string is
    read past the end of the buffer. *)
Inductive args_ret : Type :=
| ArgsList (l : list (list Z))
| ArgsNULL
| ArgsOverrun.

Module OSXArgs.

(** [memcpy(&nargs, procargs, sizeof(nargs))] on a little-endian
    machine. *)
Definition read_int (b0 b1 b2 b3 : Z) : Z :=
  to_int (b0 + 256 * b1 + 65536 * b2 + 16777216 * b3).

(** The [for (; arg_ptr < arg_end; arg_ptr++)] that stops at the first
    byte other than NUL, over the bytes from [arg_ptr] up to [arg_end]. *)
Fixpoint skip_nul (region : list Z) : list Z :=
  match region with
  | [] => []
  | c :: rest => if negb (c =? 0) then region else skip_nul rest
  end.

(** [while (arg_ptr < arg_end && nargs > 0)] over the bytes from
    [arg_ptr] up to [arg_end]; [curr_arg] are the bytes read since the
    pointer [curr_arg] was set. *)
Fixpoint scan_args (region : list Z) (nargs : Z) (curr_arg : list Z)
    : list (list Z) :=
  match region with
  | [] => []
  | c :: rest =>
      if nargs <=? 0 then []
      else if c =? 0 then curr_arg :: scan_args rest (nargs - 1) []
      else scan_args rest nargs (curr_arg ++ [c])
  end.

(** The statements of [psutil_get_cmdline] that follow the sysctl. *)
Definition parse_procargs (data tail : list Z) : args_ret :=
  let procargs := data ++ tail in
  let arg_end := List.length data in
  match procargs with
  | b0 :: b1 :: b2 :: b3 :: after_nargs =>
      let nargs := read_int b0 b1 b2 b3 in
      match c_strlen after_nargs with
      | None => ArgsOverrun
      | Some len =>
          let arg_ptr := (4 + len + 1)%nat in
          if (arg_ptr =? arg_end)%nat then ArgsList []
          else ArgsList (scan_args (skip_nul (skipn arg_ptr data)) nargs [])
      end
  | _ => ArgsOverrun
  end.

Section Kernel.

(** [sysctl({CTL_KERN, KERN_ARGMAX}, &argmax, &size)]: the [int]
    written. *)
Variable kern_argmax : nat -> sysctl_res Z.

(** [sysctl({CTL_KERN, KERN_PROCARGS2, pid}, procargs, &argmax)]. *)
Variable kern_procargs2 : nat -> Z -> Z -> procargs_res.

Variable alloc : alloc_oracle.
Variable kill : Common.kill_oracle.

(** [psutil_get_argmax] *)
Definition psutil_get_argmax (st : cstate) : Z * cstate :=
  let st1 := log (EvSysctl "kern.argmax" 4) st in
  match kern_argmax (now st) with
  | SysOk _ argmax => (to_int argmax, st1)
  | SysErr e => (0, set_errno e st1)
  end.

(** [psutil_get_cmdline(long pid)] *)
Definition psutil_get_cmdline (pid : Z) (st : cstate) : args_ret * cstate :=
  if pid =? 0 then (ArgsList [], st)
  else
    let '(am, st1) := psutil_get_argmax st in
    let argmax := to_size_t am in
    if argmax =? 0 then (ArgsNULL, PyErr_SetFromErrno_OSError st1)
    else
      let '(ok, st2) := c_alloc alloc argmax st1 in
      if negb ok then (ArgsNULL, PyErr_SetFromErrno_OSError st2)
      else
        let st3 := log (EvSysctl "kern.procargs2" argmax) st2 in
        match kern_procargs2 (now st2) (to_pid_t pid) argmax with
        | ProcargsErr e =>
            let st4 := set_errno e st3 in
            if errno st4 =? EINVAL then
              let '(r, st5) :=
                Common.psutil_pid_exists Common.OSX kill pid st4 in
              if negb (r =? 0) then (ArgsNULL, AccessDenied st5)
              else (ArgsNULL, NoSuchProcess st5)
            else (ArgsNULL, st4)
        | ProcargsOk data tail => (parse_procargs data tail, st3)
        end.

(** [proc_pidinfo((int)pid, flavor, arg, pti, size)]: the value
    returned, and the [errno] it sets, if any. *)
Variable proc_pidinfo : nat -> Z -> Z -> Z * option Z.

(** [sizeof(pti)], the size of a pointer. *)
Definition sizeof_pti : Z := 8.

(** [psutil_proc_pidinfo(pid, flavor, arg, pti, size)]: the number of
    bytes, or 0 with an exception set. *)
Definition psutil_proc_pidinfo (pid : Z) (size : Z) (st : cstate)
    : Z * cstate :=
  let st1 := log (EvCall "proc_pidinfo" size) (set_errno 0 st) in
  let '(ret, en) := proc_pidinfo (now st) (to_int pid) size in
  let st2 := match en with Some e => set_errno e st1 | None => st1 end in
  if (ret <=? 0) || (to_size_t ret <? sizeof_pti) then
    let '(_, st3) :=
      Common.psutil_raise_for_pid Common.OSX kill pid
        "proc_pidinfo() syscall failed" st2 in
    (0, st3)
  else (ret, st2).

End Kernel.

End OSXArgs.

Module NetBSDArgs.

(** The [while (pos < argsize)] of [psutil_get_cmdline]: each turn
    decodes the C string at [argstr + pos] and steps over it and its
    NUL.  [None] when [fuel] turns were not enough. *)
Fixpoint cmdline_loop (fuel : nat) (argstr : list Z) (pos argsize : nat)
    (py_retlist : list (list Z)) : option args_ret :=
  if (pos <? argsize)%nat then
    match fuel with
    | O => None
    | S fuel' =>
        match c_string (skipn pos argstr) with
        | None => Some ArgsOverrun
        | Some s =>
            cmdline_loop fuel' argstr (pos + List.length s + 1) argsize
              (py_retlist ++ [s])
        end
    end
  else Some (ArgsList py_retlist).

(** The loop, which advances [pos] at every turn, given the [argsize]
    turns it can take at most. *)
Definition split_args (data tail : list Z) : args_ret :=
  match cmdline_loop (List.length data) (data ++ tail) 0 (List.length data) []
  with
  | Some r => r
  | None => ArgsOverrun
  end.

Section Kernel.

(** [sysctl({CTL_KERN, KERN_ARGMAX}, &argmax, &size)]. *)
Variable kern_argmax : nat -> sysctl_res Z.

(** [sysctl({CTL_KERN, KERN_PROC_ARGS, pid, KERN_PROC_ARGV}, procargs,
    &argmax)]. *)
Variable kern_proc_args : nat -> Z -> Z -> procargs_res.

Variable alloc : alloc_oracle.

(** [psutil_get_cmd_args(pid, &argsize)]: the buffer, or NULL with an
    exception set. *)
Definition psutil_get_cmd_args (pid : Z) (st : cstate)
    : option (list Z * list Z) * cstate :=
  let st1 := log (EvSysctl "kern.argmax" 8) st in
  match kern_argmax (now st) with
  | SysErr e => (None, PyErr_SetFromErrno_OSError (set_errno e st1))
  | SysOk _ argmax =>
      let '(ok, st2) := c_alloc alloc argmax st1 in
      if negb ok then (None, PyErr_NoMemory st2)
      else
        let st3 := log (EvSysctl "kern.proc_args" argmax) st2 in
        match kern_proc_args (now st2) pid argmax with
        | ProcargsErr e => (None, PyErr_SetFromErrno_OSError (set_errno e st3))
        | ProcargsOk data tail => (Some (data, tail), st3)
        end
  end.

(** [psutil_get_cmdline(pid_t pid)] *)
Definition psutil_get_cmdline (pid : Z) (st : cstate) : args_ret * cstate :=
  if pid =? 0 then (ArgsList [], st)
  else
    match psutil_get_cmd_args pid st with
    | (None, st1) => (ArgsNULL, st1)
    | (Some (data, tail), st1) => (split_args data tail, st1)
    end.

End Kernel.

End NetBSDArgs.

(* ------------------------------------------------------------------ *)
(** ** The hash join, in the words of the design *)

Module Correlator.

(** An entry of the owner table: (kernel object pointer, pid). *)
Definition owner_entry : Type := (Z * Z)%type.

Definition xfile_entry (xf : FreeBSDSocks.xfile) : owner_entry :=
  (FreeBSDSocks.xf_data xf, FreeBSDSocks.xf_pid xf).

Definition kinfo_file_entry (k : NetBSDSocks.kinfo_file) : owner_entry :=
  (NetBSDSocks.ki_fdata k, NetBSDSocks.ki_pid k).

(** An entry with a non-null pointer whose hash is that of [ptr]. *)
Definition in_bucket (ptr : Z) (e : owner_entry) : bool :=
  negb (fst e =? 0)
  && (fst e mod FreeBSDSocks.HASHSIZE =? ptr mod FreeBSDSocks.HASHSIZE).

(** "hash(kernel object pointer) mod TABLE_SIZE ... the pid of the first
    open-file-table entry with a non-null kernel object pointer whose
    hash equals it, or the unknown sentinel -1". *)
Definition hash_join_owner (table : list owner_entry) (ptr : Z) : Z :=
  match find (in_bucket ptr) table with
  | Some e => snd e
  | None => -1
  end.

(** The tuples one pcb-list element contributes to the FreeBSD listing:
    the one built with the pid the lookup found, none when the lookup
    answers a negative pid. *)
Definition inet_records (proto : FreeBSDSocks.inet_proto)
    (g : FreeBSDSocks.globals) (x : FreeBSDSocks.xpcb)
    : list FreeBSDSocks.conn :=
  let pid :=
    FreeBSDSocks.psutil_get_pid_from_sock g
      (FreeBSDSocks.sock_hash_of
         (FreeBSDSocks.xso_so (FreeBSDSocks.xp_socket x))) in
  if pid <? 0 then [] else [FreeBSDSocks.inet_conn proto x pid].

End Correlator.

(* ------------------------------------------------------------------ *)
(** ** Reading a state *)

(** The outcome a caller sees for the pending exception, if any. *)
Definition outcome (st : cstate) : option Outcome :=
  option_map classify (pyerr st).

Definition is_kill (e : event) : bool :=
  match e with EvKill _ _ => true | _ => false end.

Definition is_fetch (e : event) : bool :=
  match e with EvSysctl _ _ => true | _ => false end.

Definition is_table_fetch (e : event) : bool :=
  match e with EvTableCall true _ => true | _ => false end.

(** A computation with fuel that has not returned whatever the fuel. *)
Definition never_returns {A : Type} (run : nat -> option A) : Prop :=
  forall fuel, run fuel = None.

(* ------------------------------------------------------------------ *)
(** ** Scenarios used below *)

Module Scenario.

(** A process table in which only pid 42 is alive and owned by the
    caller, and pid 1 is alive but owned by someone else. *)
Definition kill_42_alive : Common.kill_oracle :=
  fun _ pid _ =>
    if pid =? 42 then None
    else if pid =? 1 then Some EPERM
    else Some ESRCH.

(** A state in which the failing call left [errno] at 0. *)
Definition errno_unset : cstate := init_state.

(** A state in which the failing call left [errno] at [EINVAL]. *)
Definition errno_einval : cstate := set_errno EINVAL init_state.

(** An allocator that never fails. *)
Definition alloc_always : alloc_oracle := fun _ _ => true.

(** macOS: the process list is 6480 bytes at every size query, and every
    fetch finds it grown ([ENOMEM]). *)
Definition proc_size_6480 : nat -> sysctl_res unit := fun _ => SysOk 6480 tt.

Definition proc_fetch_enomem : nat -> Z -> sysctl_res (carray Z) :=
  fun _ _ => SysErr ENOMEM.

(** Windows: a connection table of 24 bytes at the size probe that has
    grown to 48 bytes by the first fetch. *)
Definition table_grows_once : nat -> bool -> Z -> Z * Z * list Z :=
  fun _ with_buffer size =>
    if negb with_buffer then (ERROR_INSUFFICIENT_BUFFER, 24, [])
    else if size <? 48 then (ERROR_INSUFFICIENT_BUFFER, 48, [])
    else (NO_ERROR, 48, [4; 1234]).

(** Windows: a connection table that has always grown by one more row
    than the buffer holds. *)
Definition table_always_grows : nat -> bool -> Z -> Z * Z * list Z :=
  fun _ _ size => (ERROR_INSUFFICIENT_BUFFER, size + 24, []).

(** Windows: every process id opens, and the process is still active. *)
Definition open_any : nat -> Z -> Windows.open_res :=
  fun _ pid => Windows.Opened pid.

Definition exit_still_active : nat -> Z -> Windows.exit_res :=
  fun _ _ => Windows.ExitCode STILL_ACTIVE.

(** Windows: no process id opens ("invalid parameter"). *)
Definition open_none : nat -> Z -> Windows.open_res :=
  fun _ _ => Windows.OpenFailed ERROR_INVALID_PARAMETER.

(** Windows: a wait that ends with the process signalled, and a
    termination that succeeds. *)
Definition wait_signalled : nat -> Z -> Z -> Windows.wait_res :=
  fun _ _ _ => Windows.WaitValue WAIT_OBJECT_0.

Definition terminate_ok : nat -> Z -> option Z := fun _ _ => None.

(** Windows: the handle table holds two handles of process 612.  The
    name query on the first hangs; the second is named [\D\a]. *)
Definition two_handles : nat -> Z -> Z * list Windows.handle_entry :=
  fun _ _ =>
    (0, [Windows.mkHandleEntry 612 0x44; Windows.mkHandleEntry 612 0x48]).

Definition thread_created : nat -> Windows.handle_res :=
  fun _ => Windows.HandleOk 0x900.

Definition duplicated : nat -> Z -> Z -> Windows.handle_res :=
  fun _ _ h => Windows.HandleOk (h + 0x1000).

Definition device_name : Windows.name_info :=
  Windows.mkNameInfo 0 16 8 [92; 68; 92; 97].

Definition first_query_hangs : nat -> Z -> Z -> Z * option Windows.name_info :=
  fun _ g_hFile _ =>
    if g_hFile =? 0x1044 then (WAIT_TIMEOUT, None)
    else (WAIT_OBJECT_0, Some device_name).

(** The terminated worker thread is gone at once, or never. *)
Definition thread_exits : nat -> bool := fun _ => true.
Definition thread_lingers : nat -> bool := fun _ => false.

(** The open files of process 612, through the handle [0x10]. *)
Definition open_files (thread_wait : nat -> bool) (fuel : nat)
    : option (option (list (list Z)) * option Z * Z * cstate) :=
  Windows.psutil_get_open_files_ntqueryobject two_handles alloc_always
    thread_created first_query_hangs thread_wait duplicated true fuel
    612 0x10 None 0 init_state.

(** *** FreeBSD *)

(** Struct sizes of an amd64 kernel. *)
Definition sizeof_xfile : Z := 128.
Definition sizeof_xinpgen : Z := 24.
Definition sizeof_xtcpcb : Z := 1192.
Definition sizeof_xinpcb : Z := 400.
Definition sizeof_xunpgen : Z := 24.
Definition sizeof_xunpcb : Z := 392.
Definition sun_path_offset : Z := 2.

(** A buffer holding the given structs, zero-filled after them. *)
Definition xfile_array (l : list FreeBSDSocks.xfile)
    : carray FreeBSDSocks.xfile :=
  fun i => nth i l (FreeBSDSocks.mkXfile 0 0 0).

(** A listening TCP socket (port 80, network byte order) at a kernel
    address. *)
Definition socket_address : Z := 0xfffff80003a1c000.

Definition tcp_listener : FreeBSDSocks.xpcb :=
  FreeBSDSocks.mkXpcb sizeof_xtcpcb
    (FreeBSDSocks.mkInpcb FreeBSDSocks.INP_IPV4 0x5000 0 0 0)
    (FreeBSDSocks.mkXsocket socket_address) 1.

Definition gen7 : FreeBSDSocks.xinpgen :=
  FreeBSDSocks.mkXinpgen sizeof_xinpgen 7.

(** The TCP list holds the listener, the UDP list is empty. *)
Definition inet_one_listener
    : FreeBSDSocks.inet_proto -> nat -> Z
      -> sysctl_res (FreeBSDSocks.pcblist FreeBSDSocks.xpcb) :=
  fun proto _ _ =>
    match proto with
    | FreeBSDSocks.IPPROTO_TCP =>
        SysOk 1240 (FreeBSDSocks.mkPcblist gen7 [tcp_listener] gen7)
    | FreeBSDSocks.IPPROTO_UDP =>
        SysOk 48 (FreeBSDSocks.mkPcblist gen7 [] gen7)
    end.

Definition unix_no_socket
    : FreeBSDSocks.unix_proto -> nat -> Z
      -> sysctl_res (FreeBSDSocks.pcblist FreeBSDSocks.xunpcb) :=
  fun _ _ _ => SysOk 48 (FreeBSDSocks.mkPcblist gen7 [] gen7).

(** The open-file table comes from a kernel whose [struct xfile] has
    another size: its first entry declares 136 bytes. *)
Definition kern_file_foreign
    : nat -> Z -> sysctl_res (carray FreeBSDSocks.xfile) :=
  fun _ _ =>
    SysOk 136 (xfile_array [FreeBSDSocks.mkXfile 136 321 socket_address]).

(** The open-file table is empty. *)
Definition kern_file_empty
    : nat -> Z -> sysctl_res (carray FreeBSDSocks.xfile) :=
  fun _ _ => SysOk 0 (xfile_array []).

(** The open-file table has the listener's file, owned by pid 321. *)
Definition kern_file_listener
    : nat -> Z -> sysctl_res (carray FreeBSDSocks.xfile) :=
  fun _ _ =>
    SysOk 128 (xfile_array [FreeBSDSocks.mkXfile 128 321 socket_address]).

(** An open-file table of 300 bytes (two structs and 44 more bytes)
    whose second entry declares another size than the first. *)
Definition ragged_xfiles : carray FreeBSDSocks.xfile :=
  xfile_array [FreeBSDSocks.mkXfile 128 10 socket_address;
               FreeBSDSocks.mkXfile 999 20 (socket_address + 64)].

Definition kern_file_ragged
    : nat -> Z -> sysctl_res (carray FreeBSDSocks.xfile) :=
  fun _ cap => if cap <? 300 then SysErr ENOMEM else SysOk 300 ragged_xfiles.

(** An interpreter in which [PyErr_SetFromErrno(0)] returns with no
    exception pending, and one in which the process dies in it. *)
Definition null_type_stored : null_type_oracle :=
  fun _ => NullTypeReturns None.

Definition null_type_dies : null_type_oracle := fun _ => NullTypeDies.

(** The FreeBSD listing in a world that differs by its open-file table. *)
Definition freebsd_net_connections
    (kern_file : nat -> Z -> sysctl_res (carray FreeBSDSocks.xfile))
    (fuel : nat) : option (option (list FreeBSDSocks.conn) * cstate) :=
  FreeBSDSocks.psutil_net_connections sizeof_xfile sizeof_xinpgen
    sizeof_xtcpcb sizeof_xinpcb sizeof_xunpgen sizeof_xunpcb kern_file
    inet_one_listener unix_no_socket alloc_always null_type_stored
    sun_path_offset fuel init_state.

(** *** NetBSD *)

(** Two sockets whose kernel addresses differ by 1009, each open in one
    process. *)
Definition kinfo_files : list NetBSDSocks.kinfo_file :=
  [NetBSDSocks.mkKinfoFile 10 3 socket_address;
   NetBSDSocks.mkKinfoFile 20 4 (socket_address + 1009)].

Definition no_sockaddr : NetBSDSocks.sockaddr :=
  NetBSDSocks.mkSockaddr 0 0 "".

Definition kinfo_pcbs : list NetBSDSocks.kinfo_pcb :=
  [NetBSDSocks.mkKinfoPcb socket_address NetBSDSocks.AF_INET 1 1
     (NetBSDSocks.mkSockaddr 0x5000 0 "") no_sockaddr;
   NetBSDSocks.mkKinfoPcb (socket_address + 1009) NetBSDSocks.AF_INET 1 1
     (NetBSDSocks.mkSockaddr 0x5100 0 "") no_sockaddr].

Definition sizeof_kinfo_file : Z := 120.
Definition sizeof_kinfo_pcb : Z := 504.

Definition file2_size : nat -> sysctl_res unit := fun _ => SysOk 240 tt.

Definition file2_fetch
    : nat -> Z -> sysctl_res (carray NetBSDSocks.kinfo_file) :=
  fun _ _ =>
    SysOk 240 (fun i => nth i kinfo_files (NetBSDSocks.mkKinfoFile 0 0 0)).

Definition pcb_size : nat -> string -> sysctl_res unit :=
  fun _ name =>
    if String.eqb name "net.inet.tcp.pcblist" then SysOk 1008 tt
    else SysOk 0 tt.

Definition pcb_fetch
    : nat -> string -> Z -> sysctl_res (carray NetBSDSocks.kinfo_pcb) :=
  fun _ name _ =>
    let buf := fun i =>
      nth i kinfo_pcbs
        (NetBSDSocks.mkKinfoPcb 0 NetBSDSocks.AF_INET 0 0 no_sockaddr
           no_sockaddr) in
    if String.eqb name "net.inet.tcp.pcblist" then SysOk 1008 buf
    else SysOk 0 buf.

Definition netbsd_net_connections (pid : Z)
    : option (list NetBSDSocks.conn) * cstate :=
  NetBSDSocks.psutil_net_connections 8 sizeof_kinfo_file sizeof_kinfo_pcb
    file2_size file2_fetch (fun _ _ => None) pcb_size pcb_fetch alloc_always
    pid init_state.

(** *** Swap devices *)

(** A machine without any swap device. *)
Definition swapctl_no_device : nat -> sys_int := fun _ => Ret 0.

Definition swapctl_stats_none : nat -> Z -> sysctl_res (carray swapent) :=
  fun _ _ => SysOk 0 (fun _ => mkSwapent 0 0 0).

Definition uvmexp2_idle : nat -> sysctl_res (Z * Z) :=
  fun _ => SysOk 0 (0, 0).

End Scenario.

(* ------------------------------------------------------------------ *)
(** ** The NetBSD join, written as a query

    What the two nested [SLIST_FOREACH] of [psutil_net_connections] are
    compared with below: for every file entry of the wanted process, in
    list order, one tuple per socket with the same kernel address. *)

Module NetBSDJoin.

Definition same_socket (k : NetBSDSocks.kinfo_file)
    (kp : NetBSDSocks.kinfo_pcb) : bool :=
  NetBSDSocks.ki_fdata k =? NetBSDSocks.ki_sockaddr kp.

Definition wanted_pid (pid : Z) (k : NetBSDSocks.kinfo_file) : bool :=
  (pid =? -1) || (NetBSDSocks.ki_pid k =? pid).

Definition join (pid : Z) (kihead : list NetBSDSocks.kinfo_file)
    (kpcbhead : list NetBSDSocks.kinfo_pcb) : list NetBSDSocks.conn :=
  flat_map
    (fun k =>
       map (NetBSDSocks.make_conn k) (filter (same_socket k) kpcbhead))
    (filter (wanted_pid pid) kihead).

End NetBSDJoin.

(* ------------------------------------------------------------------ *)
(** ** A FreeBSD open-file table of three entries *)

Module Sample2.

Definition three_xfiles : carray FreeBSDSocks.xfile :=
  Scenario.xfile_array
    [FreeBSDSocks.mkXfile 128 10 Scenario.socket_address;
     FreeBSDSocks.mkXfile 128 10 0;
     FreeBSDSocks.mkXfile 128 20 0].

(** [kern.file] fails with [ENOMEM] until the buffer holds the 384
    bytes of the table. *)
Definition kern_file_384
    : nat -> Z -> sysctl_res (carray FreeBSDSocks.xfile) :=
  fun _ len => if len <? 384 then SysErr ENOMEM else SysOk 384 three_xfiles.

(** A table of the same length whose first entry declares 136 bytes. *)
Definition foreign_xfiles : carray FreeBSDSocks.xfile :=
  Scenario.xfile_array
    [FreeBSDSocks.mkXfile 136 10 Scenario.socket_address;
     FreeBSDSocks.mkXfile 136 10 0].

Definition kern_file_384_foreign
    : nat -> Z -> sysctl_res (carray FreeBSDSocks.xfile) :=
  fun _ len => if len <? 384 then SysErr ENOMEM else SysOk 384 foreign_xfiles.

End Sample2.

(* ------------------------------------------------------------------ *)
(** ** Argument blocks as the kernels lay them out *)

(** A byte string that holds no NUL. *)
Definition nul_free (a : list Z) : Prop := Forall (fun c => c <> 0) a.

(** The strings one after the other, each followed by its NUL. *)
Definition nul_terminated (args : list (list Z)) : list Z :=
  List.concat (map (fun a => a ++ [0]) args).

(* ------------------------------------------------------------------ *)
(** ** Sums over the swap devices *)

(** [swdev[i].se_flags & SWF_ENABLE] *)
Definition swap_enabled (d : swapent) : bool :=
  negb (Z.land (se_flags d) SWF_ENABLE =? 0).

(** The blocks of the enabled devices, and those not in use. *)
Definition blocks_total (swdev : list swapent) : Z :=
  fold_right Z.add 0 (map se_nblks (filter swap_enabled swdev)).

Definition blocks_free (swdev : list swapent) : Z :=
  fold_right Z.add 0
    (map (fun d => se_nblks d - se_inuse d) (filter swap_enabled swdev)).

(** A device as the kernel reports it: counts of blocks that fit an
    [int], no more blocks in use than there are. *)
Definition device_ok (bound : Z) (d : swapent) : Prop :=
  0 <= se_inuse d <= se_nblks d /\ se_nblks d < bound.

(* ------------------------------------------------------------------ *)
(** ** Conventions of the listings *)

(** Windows: a row is listed when all pids are wanted or it is owned by
    [pid]. *)
Definition listed (pid owner : Z) : Prop :=
  pid = WindowsNet.ALL_PIDS \/ owner = pid.

(** Windows: the exception [psutil_net_connections] sets for the error
    code a table helper returned: MemoryError for
    [ERROR_NOT_ENOUGH_MEMORY], the WindowsError of any other code. *)
Definition table_exception (error : Z) : py_exc :=
  if error =? ERROR_NOT_ENOUGH_MEMORY then MemoryError
  else WindowsError error.

(** Windows: one of the two table helpers, called for some address
    family, returned [error] in the state [st1]. *)
Definition table_helper_returned
    (tcp_call : Z -> nat -> bool -> Z -> Z * Z * list WindowsNet.tcp_row)
    (udp_call : Z -> nat -> bool -> Z -> Z * Z * list WindowsNet.udp_row)
    (alloc : alloc_oracle) (fuel : nat) (error : Z) (st1 : cstate) : Prop :=
  exists family st0,
    (exists r,
       Windows.__GetExtendedTcpTable (list WindowsNet.tcp_row)
         (tcp_call family) alloc fuel st0 = Some (r, st1) /\
       Windows.et_error r = error) \/
    (exists r,
       Windows.__GetExtendedUdpTable (list WindowsNet.udp_row)
         (udp_call family) alloc fuel st0 = Some (r, st1) /\
       Windows.et_error r = error).

(** Windows: how a block of [psutil_net_connections] leaves the
    function with NULL in the state [st']: its table helper returned an
    error code, and the exception of that code was set. *)
Definition raised_by_table
    (tcp_call : Z -> nat -> bool -> Z -> Z * Z * list WindowsNet.tcp_row)
    (udp_call : Z -> nat -> bool -> Z -> Z * Z * list WindowsNet.udp_row)
    (alloc : alloc_oracle) (fuel : nat) (st' : cstate) : Prop :=
  exists error st1,
    table_helper_returned tcp_call udp_call alloc fuel error st1 /\
    error <> NO_ERROR /\
    st' = set_exc (table_exception error) st1.

(** The convention of the NetBSD helpers: 0 with the exception state
    untouched, or -1 with an exception pending. *)
Definition answers (st : cstate) (r : Z) (st' : cstate) : Prop :=
  (r = 0 /\ pyerr st' = pyerr st) \/ (r = -1 /\ pyerr st' <> None).

(* ------------------------------------------------------------------ *)
(** ** Further sample systems *)

Module Sample.

(** A Windows system of three processes. *)
Definition three_pids : list Z := [0; 4; 612].

Definition enum_three : nat -> Z -> sysctl_res (carray Z) :=
  fun _ cap =>
    SysOk (Z.min cap (WindowsPids.sizeof_DWORD * Z.of_nat (List.length three_pids)))
      (fun i => nth i three_pids 0).

(** Windows connection tables: a TCP listener of process 612 whose row
    holds a stale remote address, an established connection of process
    4, and a UDP socket of process 612; no IPv6 socket. *)
Definition tcp_rows_v4 : list WindowsNet.tcp_row :=
  [WindowsNet.mkTcpRow WindowsNet.MIB_TCP_STATE_LISTEN 0 0x901f 0x0100007f 0x5000 612;
   WindowsNet.mkTcpRow 5 0x0100007f 0xbb01 0x0101a8c0 0x5000 4].

Definition udp_rows_v4 : list WindowsNet.udp_row :=
  [WindowsNet.mkUdpRow 0 0x3500 612].

Definition tcp_tables : Z -> nat -> bool -> Z -> Z * Z * list WindowsNet.tcp_row :=
  fun family _ with_buffer _ =>
    if negb with_buffer then (ERROR_INSUFFICIENT_BUFFER, 60, [])
    else if family =? WindowsNet.AF_INET then (NO_ERROR, 60, tcp_rows_v4)
    else (NO_ERROR, 60, []).

Definition udp_tables : Z -> nat -> bool -> Z -> Z * Z * list WindowsNet.udp_row :=
  fun family _ with_buffer _ =>
    if negb with_buffer then (ERROR_INSUFFICIENT_BUFFER, 24, [])
    else if family =? WindowsNet.AF_INET then (NO_ERROR, 24, udp_rows_v4)
    else (NO_ERROR, 24, []).

(** The arguments of [ls -l], in ASCII. *)
Definition ls_l : list (list Z) := [[108; 115]; [45; 108]].

(** NetBSD: [kern.argmax] is 262144; the arguments of every process are
    those of [ls -l], in a buffer that held 0xff bytes. *)
Definition netbsd_argmax : nat -> sysctl_res Z := fun _ => SysOk 8 262144.

Definition netbsd_proc_args : nat -> Z -> Z -> procargs_res :=
  fun _ _ _ => ProcargsOk (nul_terminated ls_l) [255; 255].

(** macOS: the block of [/bin/ls -l]: the count, the path of the
    executable, padding, the arguments and one environment string. *)
Definition osx_argmax : nat -> sysctl_res Z := fun _ => SysOk 4 262144.

Definition bin_ls : list Z := [47; 98; 105; 110; 47; 108; 115].

Definition osx_procargs2 : nat -> Z -> Z -> procargs_res :=
  fun _ _ _ =>
    ProcargsOk
      (2 :: 0 :: 0 :: 0 :: bin_ls ++ 0 :: [0; 0; 0; 0]
         ++ nul_terminated ls_l ++ [65; 61; 49; 0])
      [255; 255].

(** macOS: the sysctl fails with [EIO]. *)
Definition osx_procargs2_eio : nat -> Z -> Z -> procargs_res :=
  fun _ _ _ => ProcargsErr 5.

(** Two swap devices: one of 1 GiB, enabled, with 1024 blocks in use,
    and one that is not enabled. *)
Definition swap_devices : list swapent :=
  [mkSwapent 3 2097152 1024; mkSwapent 1 4096 0].

Definition swapctl_two_devices : nat -> sys_int := fun _ => Ret 2.

Definition swapctl_stats_two : nat -> Z -> sysctl_res (carray swapent) :=
  fun _ _ => SysOk 2 (fun i => nth i swap_devices (mkSwapent 0 0 0)).

Definition uvmexp2_busy : nat -> sysctl_res (Z * Z) :=
  fun _ => SysOk 0 (7, 9).

(** An allocator that always fails. *)
Definition alloc_never : alloc_oracle := fun _ _ => false.

(** FreeBSD: no file is open. *)
Definition no_xfiles : FreeBSDSocks.globals :=
  FreeBSDSocks.mkGlobals (Scenario.xfile_array []) 0.

(** FreeBSD: a TCP list that changes during every fetch (the generation
    count of the trailer is ahead of the header's). *)
Definition gen8 : FreeBSDSocks.xinpgen :=
  FreeBSDSocks.mkXinpgen Scenario.sizeof_xinpgen 8.

Definition inet_unstable_table : FreeBSDSocks.pcblist FreeBSDSocks.xpcb :=
  FreeBSDSocks.mkPcblist Scenario.gen7 [Scenario.tcp_listener] gen8.

Definition inet_unstable
    : FreeBSDSocks.inet_proto -> nat -> Z
      -> sysctl_res (FreeBSDSocks.pcblist FreeBSDSocks.xpcb) :=
  fun _ _ _ => SysOk 1240 inet_unstable_table.

(** macOS: a process table of three entries of 648 bytes. *)
Definition osx_pids : list Z := [0; 1; 731].

Definition osx_proc_all_size : nat -> sysctl_res unit :=
  fun _ => SysOk 1944 tt.

Definition osx_proc_all_fetch : nat -> Z -> sysctl_res (carray Z) :=
  fun _ _ => SysOk 1944 (fun i => nth i osx_pids 0).

End Sample.

(* ------------------------------------------------------------------ *)
(** * Properties *)

(** ** Logs *)

Lemma calls_log e st : calls (log e st) = calls st ++ [e].
Proof. reflexivity. Qed.

Lemma now_log e st : now (log e st) = S (now st).
Proof. unfold now. rewrite calls_log, length_app. simpl. lia. Qed.

Lemma count_events_app p l1 l2 :
  count_events p (l1 ++ l2) = (count_events p l1 + count_events p l2)%nat.
Proof. unfold count_events. now rewrite filter_app, length_app. Qed.

Lemma calls_c_alloc alloc bytes st :
  calls (snd (c_alloc alloc bytes st)) = calls st ++ [EvAlloc bytes].
Proof. unfold c_alloc. destruct (alloc (now st) bytes); reflexivity. Qed.

Lemma c_alloc_true alloc bytes st :
  alloc (now st) bytes = true ->
  c_alloc alloc bytes st = (true, log (EvAlloc bytes) st).
Proof. intros H. unfold c_alloc. now rewrite H. Qed.

(** Closes a goal that compares event counts of explicit logs. *)
Ltac count_events_tac :=
  subst; rewrite ?calls_log, ?count_events_app in *;
  unfold count_events in *; simpl in *; lia.

(** ** _psutil_common.c *)

Module CommonSpec.
Import Common.

(** A negative pid is answered without any call. *)
Lemma pid_exists_negative pf kill pid st :
  pid < 0 -> psutil_pid_exists pf kill pid st = (0, st).
Proof.
  intros H. unfold psutil_pid_exists.
  destruct (Z.ltb_spec pid 0); [reflexivity | lia].
Qed.

(** Pid 0 is answered by the platform's constant, without any call. *)
Lemma pid_exists_zero pf kill st :
  psutil_pid_exists pf kill 0 st =
  (if linux_or_freebsd pf then 0 else 1, st).
Proof. reflexivity. Qed.

(** For a positive pid exactly one [kill(pid, 0)] is issued. *)
Lemma pid_exists_probes pf kill pid st :
  0 < pid ->
  calls (snd (psutil_pid_exists pf kill pid st)) =
  calls st ++ [EvKill (to_pid_t pid) 0].
Proof.
  intros H. unfold psutil_pid_exists.
  destruct (Z.ltb_spec pid 0); [lia |].
  destruct (Z.eqb_spec pid 0); [lia |].
  destruct (kill (now st) (to_pid_t pid) 0) as [e |]; [| reflexivity].
  destruct (e =? ESRCH); [reflexivity |].
  destruct (e =? EPERM); reflexivity.
Qed.

(** [EPERM] from the probe means the process exists. *)
Lemma pid_exists_eperm pf kill pid st :
  0 < pid ->
  kill (now st) (to_pid_t pid) 0 = Some EPERM ->
  fst (psutil_pid_exists pf kill pid st) = 1.
Proof.
  intros H K. unfold psutil_pid_exists.
  destruct (Z.ltb_spec pid 0); [lia |].
  destruct (Z.eqb_spec pid 0); [lia |].
  rewrite K. reflexivity.
Qed.

(** [ESRCH] from the probe means the process does not exist. *)
Lemma pid_exists_esrch pf kill pid st :
  0 < pid ->
  kill (now st) (to_pid_t pid) 0 = Some ESRCH ->
  fst (psutil_pid_exists pf kill pid st) = 0.
Proof.
  intros H K. unfold psutil_pid_exists.
  destruct (Z.ltb_spec pid 0); [lia |].
  destruct (Z.eqb_spec pid 0); [lia |].
  rewrite K. reflexivity.
Qed.

(** The probe answers 0, 1 or -1. *)
Lemma pid_exists_range pf kill pid st :
  let r := fst (psutil_pid_exists pf kill pid st) in
  r = 0 \/ r = 1 \/ r = -1.
Proof.
  unfold psutil_pid_exists.
  destruct (pid <? 0); [now left |].
  destruct (pid =? 0); [destruct (linux_or_freebsd pf); simpl; auto |].
  destruct (kill (now st) (to_pid_t pid) 0) as [e |]; [| simpl; auto].
  destruct (e =? ESRCH); [simpl; auto |].
  destruct (e =? EPERM); simpl; auto.
Qed.



(** With [errno] left at [EINVAL] the error is surfaced as it is, and no
    [kill] is issued. *)
Example raise_for_pid_errno_set :
  let st' := snd (psutil_raise_for_pid Linux Scenario.kill_42_alive 42
                    "proc_pidinfo() syscall failed" Scenario.errno_einval) in
  pyerr st' = Some (OSError EINVAL) /\
  count_events is_kill (calls st') = 0%nat.
Proof. split; reflexivity. Qed.

(** With [errno] unset and the process alive, the caller's message is
    raised after one [kill]. *)
Example raise_for_pid_process_alive :
  let st' := snd (psutil_raise_for_pid Linux Scenario.kill_42_alive 42
                    "proc_pidinfo() syscall failed" Scenario.errno_unset) in
  pyerr st' = Some (RuntimeError "proc_pidinfo() syscall failed") /\
  count_events is_kill (calls st') = 1%nat.
Proof. split; reflexivity. Qed.

End CommonSpec.

(** ** arch/osx/process_info.c *)

Module OSXSpec.
Import OSX.

Section Loop.

Variable sizeof_kinfo_proc : Z.
Variable proc_all_size : nat -> sysctl_res unit.
Variable proc_all_fetch : nat -> Z -> sysctl_res (carray Z).
Variable alloc : alloc_oracle.

Local Abbreviation loop :=
  (psutil_get_proc_list_loop sizeof_kinfo_proc proc_all_size proc_all_fetch
     alloc).

(** Each turn of the loop issues at most one fetch. *)
Lemma loop_fetch_bound lim st :
  (count_events is_fetch (calls (snd (loop lim st)))
   <= count_events is_fetch (calls st) + lim)%nat.
Proof.
  revert st. induction lim as [| lim IH]; intros st; simpl.
  - lia.
  - destruct (proc_all_size (now st)) as [size [] | e]; simpl.
    2:{ count_events_tac. }
    set (size2 := to_size_t (size + Z.shiftr size 3)).
    set (st1 := log (EvSysctlSize kern_proc_all) st).
    assert (C1 : count_events is_fetch (calls st1)
                 = count_events is_fetch (calls st)).
    { unfold st1. count_events_tac. }
    assert (A : forall b s,
               count_events is_fetch (calls (snd (c_alloc alloc b s)))
               = count_events is_fetch (calls s)).
    { intros b s. rewrite calls_c_alloc. count_events_tac. }
    destruct (size <? size2).
    + destruct (c_alloc alloc size2 st1) as [ok2 sa] eqn:E2.
      pose proof (A size2 st1) as A2. rewrite E2 in A2. simpl in A2.
      destruct ok2.
      * simpl.
        destruct (proc_all_fetch (now sa) size2) as [n data | e]; simpl.
        -- count_events_tac.
        -- destruct (e =? ENOMEM); simpl.
           ++ etransitivity; [apply IH |]. simpl.
              count_events_tac.
           ++ count_events_tac.
      * destruct (c_alloc alloc size sa) as [ok1 sb] eqn:E1.
        pose proof (A size sa) as A1. rewrite E1 in A1. simpl in A1.
        destruct ok1; simpl; [| count_events_tac].
        destruct (proc_all_fetch (now sb) size) as [n data | e]; simpl.
        -- count_events_tac.
        -- destruct (e =? ENOMEM); simpl.
           ++ etransitivity; [apply IH |]. simpl.
              count_events_tac.
           ++ count_events_tac.
    + destruct (c_alloc alloc size st1) as [ok1 sb] eqn:E1.
      pose proof (A size st1) as A1. rewrite E1 in A1. simpl in A1.
      destruct ok1; simpl; [| count_events_tac].
      destruct (proc_all_fetch (now sb) size) as [n data | e]; simpl.
      -- count_events_tac.
      -- destruct (e =? ENOMEM); simpl.
         ++ etransitivity; [apply IH |]. simpl.
            count_events_tac.
         ++ count_events_tac.
Qed.

Hypothesis size_ok : forall t, exists n, proc_all_size t = SysOk n tt.
Hypothesis alloc_ok : forall t b, alloc t b = true.
Hypothesis fetch_enomem : forall t cap, proc_all_fetch t cap = SysErr ENOMEM.

(** When every fetch reports [ENOMEM] each turn fetches once and the
    loop runs to its limit. *)
Lemma loop_always_enomem lim st :
  let r := loop lim st in
  pl_ret (fst r) = ENOMEM /\ procList (fst r) = None /\
  errno (snd r) = (if (0 <? Z.of_nat lim) then ENOMEM else errno st) /\
  count_events is_fetch (calls (snd r))
  = (count_events is_fetch (calls st) + lim)%nat.
Proof.
  revert st. induction lim as [| lim IH]; intros st; cbv zeta; simpl.
  - repeat split; lia.
  - destruct (size_ok (now st)) as [size Hs]. rewrite Hs.
    set (size2 := to_size_t (size + Z.shiftr size 3)).
    set (st1 := log (EvSysctlSize kern_proc_all) st).
    destruct (size <? size2).
    + rewrite c_alloc_true by apply alloc_ok. simpl.
      rewrite fetch_enomem. simpl.
      specialize (IH (set_errno ENOMEM
                        (log (EvSysctl kern_proc_all size2)
                           (log (EvAlloc size2) st1)))).
      cbv zeta in IH. destruct IH as (R & P & E & C).
      repeat split; try assumption.
      * rewrite E. simpl. destruct (0 <? Z.of_nat lim); reflexivity.
      * rewrite C. simpl. count_events_tac.
    + rewrite c_alloc_true by apply alloc_ok. simpl.
      rewrite fetch_enomem. simpl.
      specialize (IH (set_errno ENOMEM
                        (log (EvSysctl kern_proc_all size)
                           (log (EvAlloc size) st1)))).
      cbv zeta in IH. destruct IH as (R & P & E & C).
      repeat split; try assumption.
      * rewrite E. simpl. destruct (0 <? Z.of_nat lim); reflexivity.
      * rewrite C. simpl. count_events_tac.
Qed.

End Loop.

End OSXSpec.

(** ** arch/windows/process_info.c and _psutil_windows.c *)

Module WindowsSpec.
Import Windows.

(** Pid 0 is always reported as running, without any call. *)
Lemma pid_is_running_zero open_process get_exit_code st :
  psutil_pid_is_running open_process get_exit_code 0 st = (1, st).
Proof. reflexivity. Qed.

(** [ERROR_ACCESS_DENIED] from [OpenProcess] means the process runs. *)
Lemma pid_is_running_access_denied open_process get_exit_code pid st :
  0 < pid ->
  open_process (now st) pid = OpenFailed ERROR_ACCESS_DENIED ->
  fst (psutil_pid_is_running open_process get_exit_code pid st) = 1.
Proof.
  intros H O. unfold psutil_pid_is_running.
  destruct (Z.eqb_spec pid 0); [lia |].
  destruct (Z.ltb_spec pid 0); [lia |].
  rewrite O. reflexivity.
Qed.

(** A [DWORD] is never negative: the [pid < 0] test cannot succeed. *)
Lemma to_DWORD_nonneg x : 0 <= to_DWORD x.
Proof. unfold to_DWORD, uwrap. apply Z.mod_pos_bound. reflexivity. Qed.

(** The module function leaves the state [psutil_pid_is_running] left. *)
Lemma pid_exists_state open_process get_exit_code pid st :
  snd (psutil_pid_exists open_process get_exit_code pid st)
  = snd (psutil_pid_is_running open_process get_exit_code (to_DWORD pid) st).
Proof.
  unfold psutil_pid_exists.
  destruct (psutil_pid_is_running open_process get_exit_code (to_DWORD pid) st)
    as [status st1].
  destruct (status =? -1); reflexivity.
Qed.

(** Whatever the system answers, a nonzero pid that reaches
    [psutil_pid_is_running] as a [DWORD] is looked up with
    [OpenProcess]. *)
Lemma pid_exists_opens_process open_process get_exit_code pid st :
  to_DWORD pid <> 0 ->
  exists rest,
    calls (snd (psutil_pid_exists open_process get_exit_code pid st))
    = calls st ++ EvOpenProcess (to_DWORD pid) :: rest.
Proof.
  intros H. rewrite pid_exists_state. unfold psutil_pid_is_running.
  destruct (Z.eqb_spec (to_DWORD pid) 0); [contradiction |].
  pose proof (to_DWORD_nonneg pid).
  destruct (Z.ltb_spec (to_DWORD pid) 0); [lia |].
  destruct (open_process (now st) (to_DWORD pid)) as [h | err].
  - exists [EvGetExitCodeProcess (to_DWORD pid)].
    destruct (get_exit_code _ h) as [c | err]; simpl.
    + rewrite <- app_assoc. reflexivity.
    + destruct (err =? ERROR_ACCESS_DENIED); simpl;
        rewrite <- app_assoc; reflexivity.
  - exists []. simpl.
    destruct (err =? ERROR_INVALID_PARAMETER); [reflexivity |].
    destruct (err =? ERROR_ACCESS_DENIED); reflexivity.
Qed.

Section ExtendedTable.

Variable table : Type.
Variable call : nat -> bool -> Z -> Z * Z * table.
Variable alloc : alloc_oracle.

Local Abbreviation loop := (extended_table_loop table call alloc).

(** What the loop hands back: if it is entered with another code than
    "insufficient buffer" it returns at once; otherwise it leaves with
    another code, and with data exactly when that code is [NO_ERROR]. *)
Lemma extended_table_loop_exit fuel :
  forall error data size st r st',
    loop fuel error data size st = Some (r, st') ->
    (error <> ERROR_INSUFFICIENT_BUFFER ->
       r = mkExtTable error data size /\ st' = st) /\
    (error = ERROR_INSUFFICIENT_BUFFER ->
       et_error r <> ERROR_INSUFFICIENT_BUFFER /\
       (et_error r <> NO_ERROR -> et_data r = None) /\
       (et_error r = NO_ERROR -> exists tbl, et_data r = Some tbl)).
Proof.
  induction fuel as [| fuel IH]; intros error data size st r st' H.
  - simpl in H.
    destruct (Z.eqb_spec error ERROR_INSUFFICIENT_BUFFER) as [E | E];
      simpl in H; [discriminate |].
    inversion H; subst. split; [auto | contradiction].
  - simpl in H.
    destruct (Z.eqb_spec error ERROR_INSUFFICIENT_BUFFER) as [E | E];
      simpl in H.
    2:{ inversion H; subst. split; [auto | contradiction]. }
    split; [contradiction | intros _].
    destruct (alloc (now st) size); simpl in H.
    + destruct (call (now (log (EvAlloc size) st)) true size)
        as [[err size'] tbl].
      destruct (Z.eqb_spec err NO_ERROR) as [N | N]; simpl in H.
      * apply IH in H. destruct H as [H _].
        destruct H as [-> _]; [subst err; discriminate |]. simpl.
        split; [subst err; discriminate | split; [contradiction | eauto]].
      * apply IH in H. destruct H as [H1 H2].
        destruct (Z.eq_dec err ERROR_INSUFFICIENT_BUFFER) as [B | B].
        -- apply H2. exact B.
        -- destruct (H1 B) as [-> _]. simpl.
           split; [exact B | split; [intros _; reflexivity | contradiction]].
    + apply IH in H. destruct H as [H _].
      destruct H as [-> _]; [discriminate |]. simpl.
      split; [discriminate | split; [intros _; reflexivity | discriminate]].
Qed.

(** More fuel does not change an answer. *)
Lemma extended_table_loop_mono fuel :
  forall k error data size st r,
    loop fuel error data size st = Some r ->
    loop (fuel + k) error data size st = Some r.
Proof.
  induction fuel as [| fuel IH]; intros k error data size st r H.
  - simpl in H. destruct (negb (error =? ERROR_INSUFFICIENT_BUFFER)) eqn:E;
      [| discriminate].
    destruct k; simpl; rewrite E; exact H.
  - simpl in H |- *.
    destruct (negb (error =? ERROR_INSUFFICIENT_BUFFER)); [exact H |].
    destruct (negb (alloc (now st) size)); [now apply IH |].
    destruct (call (now (log (EvAlloc size) st)) true size)
      as [[err size'] tbl].
    destruct (negb (err =? NO_ERROR)); now apply IH.
Qed.

Hypothesis alloc_ok : forall t b, alloc t b = true.
Hypothesis always_insufficient :
  forall t b size, fst (fst (call t b size)) = ERROR_INSUFFICIENT_BUFFER.

(** While every fetch reports "insufficient buffer" and every allocation
    succeeds, the loop goes on. *)
Lemma extended_table_loop_diverges fuel :
  forall data size st,
    loop fuel ERROR_INSUFFICIENT_BUFFER data size st = None.
Proof.
  induction fuel as [| fuel IH]; intros data size st; simpl; [reflexivity |].
  rewrite alloc_ok. simpl.
  pose proof (always_insufficient (now (log (EvAlloc size) st)) true size) as C.
  destruct (call (now (log (EvAlloc size) st)) true size) as [[err size'] tbl].
  simpl in C. subst err. simpl. apply IH.
Qed.

Lemma GetExtendedTcpTable_diverges st :
  never_returns (fun fuel => __GetExtendedTcpTable table call alloc fuel st).
Proof.
  intros fuel. unfold __GetExtendedTcpTable.
  pose proof (always_insufficient (now st) false 0) as C.
  destruct (call (now st) false 0) as [[err size] tbl]. simpl in C. subst err.
  apply extended_table_loop_diverges.
Qed.

Lemma GetExtendedUdpTable_diverges st :
  never_returns (fun fuel => __GetExtendedUdpTable table call alloc fuel st).
Proof.
  intros fuel. unfold __GetExtendedUdpTable.
  pose proof (always_insufficient (now st) false 0) as C.
  destruct (call (now st) false 0) as [[err size] tbl]. simpl in C. subst err.
  apply extended_table_loop_diverges.
Qed.

End ExtendedTable.

Section HandleTable.

Variable handle_info : Type.
Variable nt_query_system_information : nat -> Z -> Z * handle_info.
Variable heap_alloc : alloc_oracle.

Hypothesis heap_ok : forall t b, heap_alloc t b = true.
Hypothesis always_mismatch :
  forall t size,
    to_DWORD (fst (nt_query_system_information t size))
    = STATUS_INFO_LENGTH_MISMATCH.

(** The handle-table loop has no bound of its own either. *)
Lemma get_open_files_fetch_diverges dwInfoSize st :
  never_returns
    (fun fuel =>
       psutil_get_open_files_fetch handle_info nt_query_system_information
         heap_alloc fuel dwInfoSize st).
Proof.
  intros fuel. revert dwInfoSize st.
  induction fuel as [| fuel IH]; intros dwInfoSize st; simpl; [reflexivity |].
  rewrite heap_ok. simpl.
  match goal with
  | |- context [nt_query_system_information ?t ?s] =>
      pose proof (always_mismatch t s) as C;
      destruct (nt_query_system_information t s) as [status info]
  end.
  simpl in C. rewrite C. simpl. apply IH.
Qed.

End HandleTable.

(** C6, as the code has it.  Whenever [__GetExtendedTcpTable] or
    [__GetExtendedUdpTable] returns, the code it returns is not
    [ERROR_INSUFFICIENT_BUFFER]; a code other than [NO_ERROR] comes with
    a NULL data pointer; [NO_ERROR] comes with the table the last fetch
    wrote when the size probe made with a NULL buffer did not itself
    report success; and when that probe reports [NO_ERROR] the loop is
    not entered: the helper returns [NO_ERROR] with a NULL data pointer,
    having allocated and fetched nothing. *)
Theorem transient_never_escapes :
  forall (table : Type) call alloc fuel st r st',
    (__GetExtendedTcpTable table call alloc fuel st = Some (r, st') \/
     __GetExtendedUdpTable table call alloc fuel st = Some (r, st')) ->
    et_error r <> ERROR_INSUFFICIENT_BUFFER /\
    (et_error r <> NO_ERROR -> et_data r = None) /\
    (fst (fst (call (now st) false 0)) <> NO_ERROR ->
     et_error r = NO_ERROR -> exists tbl, et_data r = Some tbl) /\
    (fst (fst (call (now st) false 0)) = NO_ERROR ->
     et_error r = NO_ERROR /\ et_data r = None /\
     st' = log (EvTableCall false 0) st).
Proof.
  intros table call alloc fuel st r st' H.
  assert (L : extended_table_loop table call alloc fuel
                (fst (fst (call (now st) false 0))) None
                (snd (fst (call (now st) false 0)))
                (log (EvTableCall false 0) st) = Some (r, st')).
  { unfold __GetExtendedTcpTable, __GetExtendedUdpTable in H.
    destruct (call (now st) false 0) as [[err size] tbl].
    destruct H as [H | H]; exact H. }
  clear H. apply extended_table_loop_exit in L. destruct L as [L1 L2].
  destruct (Z.eq_dec (fst (fst (call (now st) false 0)))
              ERROR_INSUFFICIENT_BUFFER) as [B | B].
  - destruct (L2 B) as (A1 & A2 & A3). split; [| split; [| split]]; auto.
    intros N. rewrite N in B. discriminate B.
  - destruct (L1 B) as [-> ->]. simpl.
    split; [exact B | split; [intros _; reflexivity | split]].
    + contradiction.
    + intros N. split; [exact N |]. split; reflexivity.
Qed.

(** Against C6 as stated: a size probe that answers [NO_ERROR].  The
    helper returns success without a data buffer, and the listing then
    reads the table through the NULL pointer. *)
Lemma probe_success_returns_no_buffer :
  (exists r st',
     __GetExtendedTcpTable (list Z) (fun _ _ _ => (NO_ERROR, 0, []))
       Scenario.alloc_always 3 init_state = Some (r, st') /\
     et_error r = NO_ERROR /\ et_data r = None) /\
  (exists st',
     WindowsNet.psutil_net_connections Scenario.open_any
       Scenario.exit_still_active (fun _ _ _ _ => (NO_ERROR, 0, []))
       (fun _ _ _ _ => (NO_ERROR, 0, [])) Scenario.alloc_always 3 (-1)
       [WindowsNet.AF_INET] [WindowsNet.SOCK_STREAM] init_state
     = Some (WindowsNet.NetNullTable, st')).
Proof.
  split.
  - eexists. eexists. split; [reflexivity |]. split; reflexivity.
  - eexists. reflexivity.
Qed.

(** A fetch that succeeds ends the loop at once, with the table it
    wrote. *)
Lemma GetExtendedTcpTable_first_fetch
    (table : Type) call alloc fuel st size size' tbl tbl' :
  call (now st) false 0 = (ERROR_INSUFFICIENT_BUFFER, size, tbl) ->
  alloc (S (now st)) size = true ->
  call (S (S (now st))) true size = (NO_ERROR, size', tbl') ->
  __GetExtendedTcpTable table call alloc (S fuel) st
  = Some (mkExtTable NO_ERROR (Some tbl') size',
          log (EvTableCall true size)
            (log (EvAlloc size) (log (EvTableCall false 0) st))).
Proof.
  intros C A F. unfold __GetExtendedTcpTable. rewrite C. simpl.
  rewrite !now_log, A, F. simpl. destruct fuel; reflexivity.
Qed.

(** An allocation that fails ends the loop with "not enough memory" and
    no data. *)
Lemma GetExtendedTcpTable_out_of_memory
    (table : Type) call alloc fuel st size tbl :
  call (now st) false 0 = (ERROR_INSUFFICIENT_BUFFER, size, tbl) ->
  alloc (S (now st)) size = false ->
  __GetExtendedTcpTable table call alloc (S fuel) st
  = Some (mkExtTable ERROR_NOT_ENOUGH_MEMORY None size,
          log (EvAlloc size) (log (EvTableCall false 0) st)).
Proof.
  intros C A. unfold __GetExtendedTcpTable. rewrite C. simpl.
  rewrite now_log, A. simpl. destruct fuel; reflexivity.
Qed.

(** The buffer grew between the size probe and the first fetch: the
    helper retries once and hands back the table, never the transient
    code. *)
Lemma transient_never_escapes_witness :
  exists r st',
    __GetExtendedTcpTable (list Z) Scenario.table_grows_once
      Scenario.alloc_always 3 init_state = Some (r, st') /\
    count_events is_table_fetch (calls st') = 2%nat /\
    et_error r <> ERROR_INSUFFICIENT_BUFFER /\
    et_data r = Some [4; 1234].
Proof.
  eexists. eexists. split; [reflexivity |]. split; [reflexivity |].
  split; [| reflexivity].
  refine (proj1 (transient_never_escapes (list Z)
                   Scenario.table_grows_once Scenario.alloc_always 3
                   init_state _ _ (or_introl eq_refl))).
Defined.

End WindowsSpec.

(** ** The public existence probe on Windows *)

Module PidProbeSpec.

(** A negative [long] is a nonzero [DWORD]. *)
Lemma negative_long_as_DWORD pid :
  - 2 ^ 31 <= pid < 0 -> to_DWORD pid = pid + 2 ^ 32 /\ to_DWORD pid <> 0.
Proof.
  intros H. unfold to_DWORD, uwrap.
  assert (E : pid mod 2 ^ 32 = pid + 2 ^ 32).
  { symmetry. apply Z.mod_unique with (q := -1); lia. }
  rewrite E. lia.
Qed.

(** On Windows every negative pid costs an [OpenProcess]. *)
Lemma windows_negative_pid_is_probed open_process get_exit_code pid st :
  - 2 ^ 31 <= pid < 0 ->
  exists rest,
    calls (snd (Windows.psutil_pid_exists open_process get_exit_code pid st))
    = calls st ++ EvOpenProcess (pid + 2 ^ 32) :: rest.
Proof.
  intros H. destruct (negative_long_as_DWORD pid H) as [E N].
  rewrite <- E. now apply WindowsSpec.pid_exists_opens_process.
Qed.

(** C10.  The module function [pid_exists] on Windows, called with a
    negative pid.  The value reaches [psutil_pid_is_running] as a
    [DWORD], so the [pid < 0] test does not fire and [OpenProcess] is
    called: for -1, on a system where no such id opens, the answer is
    "does not exist" after one system call; for -4, on a system where
    the id 4294967292 opens and is still active, the answer is
    "exists". *)
Theorem windows_pid_exists_negative_pid :
  Windows.psutil_pid_exists Scenario.open_none Scenario.exit_still_active
    (-1) init_state
  = (Some false,
     {| errno := 0; last_error := Windows.ERROR_INVALID_HANDLE;
        pyerr := None; calls := [EvOpenProcess 4294967295] |}) /\
  Windows.psutil_pid_exists Scenario.open_any Scenario.exit_still_active
    (-4) init_state
  = (Some true,
     {| errno := 0; last_error := 0; pyerr := None;
        calls := [EvOpenProcess 4294967292;
                  EvGetExitCodeProcess 4294967292] |}).
Proof. split; reflexivity. Qed.

End PidProbeSpec.

(** ** Retry bounds of the fetch loops *)

Module FetchLoopSpec.

(** C2, as the code has it.  The macOS process-list fetch
    [psutil_get_proc_list] issues at most 8 fetches whatever the kernel
    answers; when the size query and the allocation succeed and every
    fetch reports [ENOMEM] it issues exactly 8, returns [ENOMEM] with no
    list, and [psutil_pids] raises [OSError(ENOMEM)], a [Fatal] outcome.
    The Windows loops carry no bound: while every call reports
    "insufficient buffer" (or "info length mismatch") and every
    allocation succeeds, [__GetExtendedTcpTable], [__GetExtendedUdpTable]
    and the handle-table fetch are still running after any number of
    iterations. *)
Theorem retry_bound_only_on_macos :
  forall sizeof_kinfo_proc proc_all_size proc_all_fetch alloc st,
    let run := OSX.psutil_get_proc_list sizeof_kinfo_proc proc_all_size
                 proc_all_fetch alloc st in
    let pids := OSX.psutil_pids sizeof_kinfo_proc proc_all_size
                  proc_all_fetch alloc st in
    (count_events is_fetch (calls (snd run))
     <= count_events is_fetch (calls st) + 8)%nat /\
    ((forall t, exists n, proc_all_size t = SysOk n tt) ->
     (forall t b, alloc t b = true) ->
     (forall t cap, proc_all_fetch t cap = SysErr ENOMEM) ->
     OSX.pl_ret (fst run) = ENOMEM /\
     OSX.procList (fst run) = None /\
     count_events is_fetch (calls (snd run))
     = (count_events is_fetch (calls st) + 8)%nat /\
     fst pids = None /\
     pyerr (snd pids) = Some (OSError ENOMEM) /\
     outcome (snd pids) = Some Fatal) /\
    (forall (table : Type) call walloc wst,
       (forall t b, walloc t b = true) ->
       (forall t b size,
          fst (fst (call t b size)) = ERROR_INSUFFICIENT_BUFFER) ->
       never_returns
         (fun fuel => Windows.__GetExtendedTcpTable table call walloc fuel wst)
       /\
       never_returns
         (fun fuel => Windows.__GetExtendedUdpTable table call walloc fuel wst))
    /\
    (forall (handle_info : Type) query heap_alloc dwInfoSize hst,
       (forall t b, heap_alloc t b = true) ->
       (forall t size,
          to_DWORD (fst (query t size)) = STATUS_INFO_LENGTH_MISMATCH) ->
       never_returns
         (fun fuel =>
            Windows.psutil_get_open_files_fetch handle_info query heap_alloc
              fuel dwInfoSize hst)).
Proof.
  intros sizeof_kinfo_proc proc_all_size proc_all_fetch alloc st; cbv zeta.
  split; [apply OSXSpec.loop_fetch_bound |].
  split; [| split].
  - intros Hs Ha Hf.
    pose proof (OSXSpec.loop_always_enomem sizeof_kinfo_proc proc_all_size
                  proc_all_fetch alloc Hs Ha Hf OSX.lim st) as L.
    cbv zeta in L. destruct L as (R & P & E & C).
    fold (OSX.psutil_get_proc_list sizeof_kinfo_proc proc_all_size
            proc_all_fetch alloc st) in R, P, E, C.
    split; [exact R |]. split; [exact P |]. split; [exact C |].
    unfold OSX.psutil_pids.
    destruct (OSX.psutil_get_proc_list sizeof_kinfo_proc proc_all_size
                proc_all_fetch alloc st) as [r st1].
    simpl in R, E. rewrite R. simpl. rewrite E. simpl.
    unfold outcome. simpl. rewrite E. auto.
  - intros table call walloc wst Ha Hc. split.
    + now apply WindowsSpec.GetExtendedTcpTable_diverges.
    + now apply WindowsSpec.GetExtendedUdpTable_diverges.
  - intros handle_info query heap_alloc dwInfoSize hst Ha Hq.
    now apply WindowsSpec.get_open_files_fetch_diverges.
Qed.

(** The bound at work: eight fetches, each answered [ENOMEM], then the
    errno [ENOMEM] as the return value. *)
Lemma retry_bound_only_on_macos_witness :
  OSX.pl_ret
    (fst (OSX.psutil_get_proc_list 648 Scenario.proc_size_6480
            Scenario.proc_fetch_enomem Scenario.alloc_always init_state))
  = ENOMEM /\
  count_events is_fetch
    (calls
       (snd (OSX.psutil_get_proc_list 648 Scenario.proc_size_6480
               Scenario.proc_fetch_enomem Scenario.alloc_always init_state)))
  = 8%nat.
Proof.
  pose proof (retry_bound_only_on_macos 648 Scenario.proc_size_6480
                Scenario.proc_fetch_enomem Scenario.alloc_always init_state)
    as H.
  cbv zeta in H. destruct H as (_ & H & _).
  destruct H as (R & _ & C & _).
  - intros t. exists 6480. reflexivity.
  - reflexivity.
  - reflexivity.
  - split; [exact R | exact C].
Defined.

(** The retry loop of [__GetExtendedTcpTable] against a table that has
    always grown again: it does not return. *)
Lemma extended_table_retry_is_unbounded :
  never_returns
    (fun fuel =>
       Windows.__GetExtendedTcpTable (list Z) Scenario.table_always_grows
         Scenario.alloc_always fuel init_state).
Proof.
  apply WindowsSpec.GetExtendedTcpTable_diverges; reflexivity.
Qed.

End FetchLoopSpec.

(** ** arch/bsd/freebsd_socks.c *)

Module FreeBSDSocksSpec.
Import FreeBSDSocks.

(** The hash of a socket address is its residue modulo 1009. *)
Lemma sock_hash_of_mod p :
  0 <= p < 2 ^ 64 -> sock_hash_of p = p mod HASHSIZE.
Proof.
  intros H. unfold sock_hash_of, to_size_t, uwrap, to_int, swrap, HASHSIZE.
  rewrite (Z.mod_small p) by exact H.
  pose proof (Z.mod_pos_bound p 1009 ltac:(lia)) as B.
  rewrite Z.mod_small; lia.
Qed.

Lemma sock_hash_of_bounds p : 0 <= sock_hash_of p < HASHSIZE.
Proof.
  unfold sock_hash_of, to_size_t, uwrap, to_int, swrap, HASHSIZE.
  pose proof (Z.mod_pos_bound (p mod 2 ^ 64) 1009 ltac:(lia)) as B.
  rewrite Z.mod_small; lia.
Qed.

(** The loop returns the pid of the first entry of the bucket. *)
Lemma get_pid_from_sock_loop_first_match xfs ptr :
  0 <= ptr < 2 ^ 64 ->
  Forall (fun xf => 0 <= xf_data xf < 2 ^ 64) xfs ->
  psutil_get_pid_from_sock_loop xfs (sock_hash_of ptr)
  = Correlator.hash_join_owner (map Correlator.xfile_entry xfs) ptr.
Proof.
  intros Hp Hall. unfold Correlator.hash_join_owner.
  induction Hall as [| xf xfs Hx Hall IH]; simpl; [reflexivity |].
  unfold Correlator.in_bucket at 1. simpl.
  destruct (xf_data xf =? 0); simpl; [exact IH |].
  rewrite (sock_hash_of_mod ptr Hp), (sock_hash_of_mod (xf_data xf) Hx).
  rewrite (Z.eqb_sym (ptr mod HASHSIZE)).
  destruct (xf_data xf mod HASHSIZE =? ptr mod HASHSIZE); [reflexivity |].
  rewrite <- (sock_hash_of_mod ptr Hp). exact IH.
Qed.

(** The answer is -1 or the pid of a non-null entry of the bucket. *)
Lemma get_pid_from_sock_loop_in_bucket xfs h :
  psutil_get_pid_from_sock_loop xfs h = -1 \/
  exists xf, In xf xfs /\ xf_data xf <> 0 /\
             sock_hash_of (xf_data xf) = h /\
             psutil_get_pid_from_sock_loop xfs h = xf_pid xf.
Proof.
  induction xfs as [| xf xfs IH]; simpl; [now left |].
  destruct (Z.eqb_spec (xf_data xf) 0) as [E | E].
  - destruct IH as [IH | (y & I & D & Hh & P)]; [now left |].
    right. exists y. simpl. auto.
  - destruct (Z.eqb_spec h (sock_hash_of (xf_data xf))) as [Hh | Hh].
    + right. exists xf. simpl. auto.
    + destruct IH as [IH | (y & I & D & Hy & P)]; [now left |].
      right. exists y. simpl. auto.
Qed.

(** The answer is -1 only if the bucket holds no non-null entry. *)
Lemma get_pid_from_sock_loop_none xfs h :
  (forall xf, In xf xfs -> xf_data xf <> 0 -> sock_hash_of (xf_data xf) <> h) ->
  psutil_get_pid_from_sock_loop xfs h = -1.
Proof.
  induction xfs as [| xf xfs IH]; intros H; simpl; [reflexivity |].
  destruct (Z.eqb_spec (xf_data xf) 0) as [E | E].
  - apply IH. intros y I. apply H. now right.
  - destruct (Z.eqb_spec h (sock_hash_of (xf_data xf))) as [Hh | Hh].
    + exfalso. apply (H xf); [now left | exact E | now symmetry].
    + apply IH. intros y I. apply H. now right.
Qed.

Lemma c_pid_inet_conn proto x pid : c_pid (inet_conn proto x pid) = pid.
Proof.
  unfold inet_conn.
  destruct (negb (Z.land (inp_vflag (xp_inp x)) INP_IPV4 =? 0));
    [reflexivity |].
  destruct (negb (Z.land (inp_vflag (xp_inp x)) INP_IPV6 =? 0)); reflexivity.
Qed.

Lemma c_pid_unix_conn off proto x pid : c_pid (unix_conn off proto x pid) = pid.
Proof. reflexivity. Qed.

Section Kernel.

Variable sizeof_xfile : Z.
Variable sizeof_xinpgen : Z.
Variable sizeof_xtcpcb : Z.
Variable sizeof_xinpcb : Z.
Variable sizeof_xunpgen : Z.
Variable sizeof_xunpcb : Z.
Variable kern_file : nat -> Z -> sysctl_res (carray xfile).
Variable inet_pcblist : inet_proto -> nat -> Z -> sysctl_res (pcblist xpcb).
Variable unix_pcblist : unix_proto -> nat -> Z -> sysctl_res (pcblist xunpcb).
Variable alloc : alloc_oracle.
Variable null_type : null_type_oracle.
Variable sun_path_offset : Z.

Local Abbreviation inet_walk :=
  (psutil_gather_inet_walk sizeof_xtcpcb sizeof_xinpcb).
Local Abbreviation unix_walk :=
  (psutil_gather_unix_walk sizeof_xunpcb sun_path_offset).
Local Abbreviation inet_size := (inet_sizeof sizeof_xtcpcb sizeof_xinpcb).

(** With every element of the expected size the walk succeeds and
    appends, in order, the records of the elements whose owner was
    found. *)
Lemma gather_inet_walk_ok proto g elems :
  Forall (fun x => xp_len x = inet_size proto) elems ->
  forall py_retlist st,
    inet_walk proto g elems py_retlist st
    = (true,
       py_retlist ++ flat_map (Correlator.inet_records proto g) elems, st).
Proof.
  induction 1 as [| x elems Hx Hall IH]; intros py_retlist st; simpl.
  - now rewrite app_nil_r.
  - rewrite Hx, Z.eqb_refl. simpl. unfold Correlator.inet_records at 1.
    destruct (psutil_get_pid_from_sock g
                (sock_hash_of (xso_so (xp_socket x))) <? 0).
    + apply IH.
    + rewrite IH, <- app_assoc. reflexivity.
Qed.

(** An element whose declared length is not the expected size makes the
    walk fail with the "size mismatch" RuntimeError. *)
Lemma gather_inet_walk_mismatch proto g elems :
  Exists (fun x => xp_len x <> inet_size proto) elems ->
  forall py_retlist st,
    fst (fst (inet_walk proto g elems py_retlist st)) = false /\
    pyerr (snd (inet_walk proto g elems py_retlist st))
    = Some (RuntimeError (inet_mismatch proto)).
Proof.
  induction elems as [| x elems IH]; intros H py_retlist st.
  - inversion H.
  - simpl. destruct (Z.eqb_spec (xp_len x) (inet_size proto)) as [E | E]; simpl.
    + assert (H' : Exists (fun x => xp_len x <> inet_size proto) elems).
      { inversion H; subst; [contradiction | assumption]. }
      destruct (psutil_get_pid_from_sock g
                  (sock_hash_of (xso_so (xp_socket x))) <? 0);
        apply IH; exact H'.
    + split; reflexivity.
Qed.

(** Whatever happens, every record the walk appends has an owner. *)
Lemma gather_inet_walk_pids proto g elems :
  forall py_retlist st,
    Forall (fun c => 0 <= c_pid c) py_retlist ->
    Forall (fun c => 0 <= c_pid c)
      (snd (fst (inet_walk proto g elems py_retlist st))).
Proof.
  induction elems as [| x elems IH]; intros py_retlist st H; simpl.
  - exact H.
  - destruct (negb (xp_len x =? inet_size proto)); simpl; [exact H |].
    destruct (Z.ltb_spec
                (psutil_get_pid_from_sock g
                   (sock_hash_of (xso_so (xp_socket x)))) 0) as [L | L].
    + apply IH. exact H.
    + apply IH. apply Forall_app. split; [exact H |].
      constructor; [| constructor]. rewrite c_pid_inet_conn. exact L.
Qed.

Lemma gather_unix_walk_pids proto g elems :
  forall py_retlist st,
    Forall (fun c => 0 <= c_pid c) py_retlist ->
    Forall (fun c => 0 <= c_pid c)
      (snd (fst (unix_walk proto g elems py_retlist st))).
Proof.
  induction elems as [| x elems IH]; intros py_retlist st H; simpl.
  - exact H.
  - destruct (negb (xu_len x =? sizeof_xunpcb)); simpl; [exact H |].
    destruct (Z.ltb_spec
                (psutil_get_pid_from_sock g
                   (sock_hash_of (xso_so (xu_socket x)))) 0) as [L | L].
    + apply IH. exact H.
    + apply IH. apply Forall_app. split; [exact H |].
      constructor; [| constructor]. simpl. exact L.
Qed.

Local Abbreviation populate :=
  (psutil_populate_xfiles sizeof_xfile kern_file alloc null_type).
Local Abbreviation gather_inet :=
  (psutil_gather_inet sizeof_xinpgen sizeof_xtcpcb sizeof_xinpcb inet_pcblist
     alloc null_type).
Local Abbreviation gather_unix :=
  (psutil_gather_unix sizeof_xunpgen sizeof_xunpcb unix_pcblist alloc
     null_type sun_path_offset).
Local Abbreviation inet_snapshot :=
  (psutil_gather_inet_snapshot sizeof_xinpgen inet_pcblist alloc null_type).
Local Abbreviation net_connections :=
  (psutil_net_connections sizeof_xfile sizeof_xinpgen sizeof_xtcpcb
     sizeof_xinpcb sizeof_xunpgen sizeof_xunpcb kern_file inet_pcblist
     unix_pcblist alloc null_type sun_path_offset).

(** A walk that succeeds has found every element of the expected size. *)
Lemma gather_inet_walk_true proto g elems :
  forall py_retlist st,
    fst (fst (inet_walk proto g elems py_retlist st)) = true ->
    Forall (fun x => xp_len x = inet_size proto) elems.
Proof.
  induction elems as [| x elems IH]; intros py_retlist st H; [constructor |].
  simpl in H.
  destruct (Z.eqb_spec (xp_len x) (inet_size proto)) as [E | E]; simpl in H;
    [| discriminate].
  constructor; [exact E |].
  destruct (psutil_get_pid_from_sock g
              (sock_hash_of (xso_so (xp_socket x))) <? 0);
    eapply IH; exact H.
Qed.

(** A snapshot is handed to the walk only after its header and its
    trailer were found of the expected size. *)
Lemma gather_inet_snapshot_checked fuel proto retry :
  forall bufsize st tbl st',
    inet_snapshot fuel proto retry bufsize st = Some (inr tbl, st') ->
    xig_len (pl_head tbl) = sizeof_xinpgen /\
    xig_len (pl_tail tbl) = sizeof_xinpgen.
Proof.
  induction retry as [| retry IH]; intros bufsize st tbl st' H; simpl in H;
    destruct (psutil_gather_inet_fetch inet_pcblist alloc null_type fuel proto bufsize st)
      as [[[[[] | t] b] s] |]; try discriminate;
    destruct (Z.eqb_spec (xig_len (pl_head t)) sizeof_xinpgen) as [E1 | E1];
    destruct (Z.eqb_spec (xig_len (pl_tail t)) sizeof_xinpgen) as [E2 | E2];
    simpl in H; try discriminate;
    destruct (negb (xig_gen (pl_head t) =? xig_gen (pl_tail t)));
    try (inversion H; subst; now split).
  eapply IH. exact H.
Qed.

(** A snapshot whose header or trailer has another size is refused. *)
Lemma gather_inet_snapshot_mismatch fuel proto retry bufsize st tbl b st1 :
  psutil_gather_inet_fetch inet_pcblist alloc null_type fuel proto bufsize st
  = Some (inr tbl, b, st1) ->
  xig_len (pl_head tbl) <> sizeof_xinpgen \/
  xig_len (pl_tail tbl) <> sizeof_xinpgen ->
  inet_snapshot fuel proto retry bufsize st
  = Some (inl tt, set_exc (RuntimeError "struct xinpgen size mismatch") st1).
Proof.
  intros F M.
  assert (C : negb (xig_len (pl_head tbl) =? sizeof_xinpgen)
              || negb (xig_len (pl_tail tbl) =? sizeof_xinpgen) = true).
  { destruct (Z.eqb_spec (xig_len (pl_head tbl)) sizeof_xinpgen);
      destruct (Z.eqb_spec (xig_len (pl_tail tbl)) sizeof_xinpgen);
      simpl; try reflexivity. destruct M; contradiction. }
  destruct retry; simpl; rewrite F, C; reflexivity.
Qed.

Lemma gather_inet_pids fuel proto g py_retlist st b l st' :
  gather_inet fuel proto g py_retlist st = Some (b, l, st') ->
  Forall (fun c => 0 <= c_pid c) py_retlist ->
  Forall (fun c => 0 <= c_pid c) l.
Proof.
  unfold psutil_gather_inet. intros H P.
  destruct (inet_snapshot fuel proto 5 8192 st) as [[[[] | tbl] st1] |];
    try discriminate.
  - inversion H; subst. exact P.
  - pose proof (gather_inet_walk_pids proto g (pl_elems tbl) py_retlist st1 P)
      as W.
    inversion H as [H']. rewrite H' in W. exact W.
Qed.

Lemma gather_unix_pids fuel proto g py_retlist st b l st' :
  gather_unix fuel proto g py_retlist st = Some (b, l, st') ->
  Forall (fun c => 0 <= c_pid c) py_retlist ->
  Forall (fun c => 0 <= c_pid c) l.
Proof.
  unfold psutil_gather_unix. intros H P.
  destruct (psutil_gather_unix_snapshot sizeof_xunpgen unix_pcblist alloc null_type fuel
              proto 5 8192 st) as [[[[] | tbl] st1] |];
    try discriminate.
  - inversion H; subst. exact P.
  - pose proof (gather_unix_walk_pids proto g (pl_elems tbl) py_retlist st1 P)
      as W.
    inversion H as [H']. rewrite H' in W. exact W.
Qed.

(** A gather that returns 1 walked a table whose header, trailer and
    elements all have the expected sizes. *)
Lemma gather_inet_true fuel proto g py_retlist st l st' :
  gather_inet fuel proto g py_retlist st = Some (true, l, st') ->
  exists tbl st1,
    inet_snapshot fuel proto 5 8192 st = Some (inr tbl, st1) /\
    xig_len (pl_head tbl) = sizeof_xinpgen /\
    xig_len (pl_tail tbl) = sizeof_xinpgen /\
    Forall (fun x => xp_len x = inet_size proto) (pl_elems tbl).
Proof.
  unfold psutil_gather_inet. intros H.
  destruct (inet_snapshot fuel proto 5 8192 st) as [[[[] | tbl] st1] |] eqn:S;
    try discriminate.
  exists tbl, st1. split; [reflexivity |].
  destruct (gather_inet_snapshot_checked _ _ _ _ _ _ _ S) as [A B].
  split; [exact A |]. split; [exact B |].
  apply (gather_inet_walk_true proto g (pl_elems tbl) py_retlist st1).
  inversion H as [H']. rewrite H'. reflexivity.
Qed.

(** When [psutil_populate_xfiles] returns 0 the listing returns NULL. *)
Lemma net_connections_populate_failed fuel st st1 :
  populate fuel st = Some (None, st1) ->
  net_connections fuel st = Some (None, st1).
Proof. intros H. unfold psutil_net_connections. now rewrite H. Qed.

(** Every tuple of a listing has a non-negative pid. *)
Lemma net_connections_pids fuel st l st' :
  net_connections fuel st = Some (Some l, st') ->
  Forall (fun c => 0 <= c_pid c) l.
Proof.
  unfold psutil_net_connections. intros H.
  destruct (populate fuel st) as [[[g |] st1] |]; try discriminate.
  destruct (gather_inet fuel IPPROTO_TCP g [] st1)
    as [[[[|] l2] st2] |] eqn:G2; try discriminate.
  destruct (gather_inet fuel IPPROTO_UDP g l2 st2)
    as [[[[|] l3] st3] |] eqn:G3; try discriminate.
  destruct (gather_unix fuel UNIX_STREAM g l3 st3)
    as [[[[|] l4] st4] |] eqn:G4; try discriminate.
  destruct (gather_unix fuel UNIX_DGRAM g l4 st4)
    as [[[[|] l5] st5] |] eqn:G5; try discriminate.
  inversion H; subst.
  eapply gather_unix_pids; [exact G5 |].
  eapply gather_unix_pids; [exact G4 |].
  eapply gather_inet_pids; [exact G3 |].
  eapply gather_inet_pids; [exact G2 |].
  constructor.
Qed.

(** What [psutil_populate_xfiles] makes of the first answer of the
    kernel: it looks at the length and at the declared size of the first
    entry, and at nothing else. *)
Lemma populate_xfiles_first_answer fuel st len buf :
  alloc (now st) sizeof_xfile = true ->
  kern_file (S (now st)) sizeof_xfile = SysOk len buf ->
  let st2 := log (EvSysctl "kern.file" sizeof_xfile)
               (log (EvAlloc sizeof_xfile) st) in
  populate (S fuel) st
  = Some (if (0 <? len) && negb (xf_size (buf O) =? sizeof_xfile)
          then (None,
                set_exc (RuntimeError "struct xfile size mismatch") st2)
          else (Some (mkGlobals buf (to_int (len / sizeof_xfile))), st2)).
Proof.
  intros A K. cbv zeta. unfold psutil_populate_xfiles.
  rewrite (c_alloc_true _ _ _ A). simpl.
  rewrite now_log, K.
  destruct ((0 <? len) && negb (xf_size (buf O) =? sizeof_xfile)); reflexivity.
Qed.

End Kernel.

(** *** The buffer of [psutil_populate_xfiles] doubles until the table fits *)

Section Doubling.

Variable sizeof_xfile : Z.
Variable kern_file : nat -> Z -> sysctl_res (carray xfile).
Variable alloc : alloc_oracle.
Variable null_type : null_type_oracle.

(** The table of the kernel: [size] bytes, which [kern.file] copies out
    once the buffer holds them. *)
Variable size : Z.
Variable buf : carray xfile.

Hypothesis size_bounds : 0 <= size < 2 ^ 31.
Hypothesis alloc_ok : forall t b, alloc t b = true.
Hypothesis kern_file_ok :
  forall t len,
    kern_file t len = if len <? size then SysErr ENOMEM else SysOk size buf.

Lemma populate_xfiles_loop_doubles k :
  forall fuel len st,
    (k < fuel)%nat ->
    0 < len < 2 ^ 32 ->
    size <= len * 2 ^ Z.of_nat k ->
    exists st',
      psutil_populate_xfiles_loop kern_file alloc null_type fuel len st
      = Some (inr (size, buf), st') /\
      pyerr st' = pyerr st /\
      (count_events is_fetch (calls st')
       <= count_events is_fetch (calls st) + k + 1)%nat.
Proof.
  change (2 ^ 31) with 2147483648 in size_bounds.
  induction k as [| k IH]; intros fuel len st Hfuel Hlen Hfit;
    change (2 ^ 32) with 4294967296 in Hlen;
    (destruct fuel as [| fuel]; [lia |]);
    cbn [psutil_populate_xfiles_loop]; rewrite kern_file_ok.
  - destruct (Z.ltb_spec len size) as [L | L]; [simpl in Hfit; lia |].
    eexists. split; [reflexivity |]. split; [reflexivity |].
    rewrite calls_log, count_events_app. unfold count_events. simpl. lia.
  - destruct (Z.ltb_spec len size) as [L | L].
    + cbn [errno set_errno]. rewrite Z.eqb_refl. cbn [negb].
      assert (E : to_size_t (len * 2) = len * 2).
      { unfold to_size_t, uwrap. change (2 ^ 64) with 18446744073709551616.
        rewrite Z.mod_small; lia. }
      rewrite E. rewrite c_alloc_true by apply alloc_ok.
      destruct (IH fuel (len * 2)
                  (log (EvAlloc (len * 2))
                     (set_errno ENOMEM
                        (log (EvSysctl "kern.file" len) st))))
        as (st' & R & P & C).
      * lia.
      * change (2 ^ 32) with 4294967296. lia.
      * rewrite Nat2Z.inj_succ, Z.pow_succ_r in Hfit by lia. lia.
      * exists st'. split; [exact R |]. split; [exact P |].
        rewrite calls_log in C. cbn [calls set_errno] in C.
        rewrite calls_log in C. rewrite !count_events_app in C.
        unfold count_events in *. simpl in C. lia.
    + eexists. split; [reflexivity |]. split; [reflexivity |].
      rewrite calls_log, count_events_app. unfold count_events. simpl. lia.
Qed.

End Doubling.

End FreeBSDSocksSpec.

(** ** arch/bsd/netbsd_socks.c *)

Module NetBSDSocksSpec.
Import NetBSDSocks.

(** The inner loop appends one tuple per socket whose kernel address is
    the file entry's. *)
Lemma foreach_kpcb_In k kpcbhead :
  forall py_retlist c,
    In c (foreach_kpcb k kpcbhead py_retlist) <->
    In c py_retlist \/
    exists kp, In kp kpcbhead /\ ki_fdata k = ki_sockaddr kp /\
               c = make_conn k kp.
Proof.
  induction kpcbhead as [| kp rest IH]; intros py_retlist c; simpl.
  - split; [auto | intros [H | (kp & [] & _)]; exact H].
  - destruct (Z.eqb_spec (ki_fdata k) (ki_sockaddr kp)) as [E | E]; simpl;
      rewrite IH; clear IH.
    + rewrite in_app_iff. simpl. split.
      * intros [[H | [H | []]] | (kp' & I & F & C)]; eauto 7.
      * intros [H | (kp' & [I | I] & F & C)]; subst; eauto 7.
    + split.
      * intros [H | (kp' & I & F & C)]; eauto 7.
      * intros [H | (kp' & [I | I] & F & C)]; subst; eauto 7.
        contradiction.
Qed.

(** The join of [psutil_net_connections]: a tuple for every pair of a
    file entry (of the requested pid) and a socket with the same kernel
    address. *)
Lemma foreach_kif_In pid kihead kpcbhead :
  forall py_retlist c,
    In c (foreach_kif pid kihead kpcbhead py_retlist) <->
    In c py_retlist \/
    exists k kp, In k kihead /\ In kp kpcbhead /\
                 (pid = -1 \/ ki_pid k = pid) /\
                 ki_fdata k = ki_sockaddr kp /\ c = make_conn k kp.
Proof.
  induction kihead as [| k rest IH]; intros py_retlist c; simpl.
  - split; [auto | intros [H | (k & kp & [] & _)]; exact H].
  - assert (Skip : negb (pid =? -1) && negb (ki_pid k =? pid) = true <->
                   ~ (pid = -1 \/ ki_pid k = pid)).
    { destruct (Z.eqb_spec pid (-1)); destruct (Z.eqb_spec (ki_pid k) pid);
        simpl; split; intros H; try discriminate; try reflexivity; tauto. }
    destruct (negb (pid =? -1) && negb (ki_pid k =? pid)).
    + rewrite IH; clear IH. split.
      * intros [H | (k' & kp & I & J & S & F & C)]; [now left |].
        right. exists k', kp. auto.
      * intros [H | (k' & kp & [I | I] & J & S & F & C)]; [now left | |].
        -- subst k'. exfalso. apply (proj1 Skip); [reflexivity | exact S].
        -- right. exists k', kp. auto.
    + assert (Keep : pid = -1 \/ ki_pid k = pid).
      { destruct (Z.eq_dec pid (-1)); [now left |].
        destruct (Z.eq_dec (ki_pid k) pid); [now right |].
        assert (false = true) by (apply Skip; tauto). discriminate. }
      rewrite IH, foreach_kpcb_In; clear IH. split.
      * intros [[H | (kp & I & F & C)] | (k' & kp & I & J & S & F & C)].
        -- now left.
        -- right. exists k, kp. auto.
        -- right. exists k', kp. auto.
      * intros [H | (k' & kp & [I | I] & J & S & F & C)].
        -- left. now left.
        -- subst k'. left. right. exists kp. auto.
        -- right. exists k', kp. auto.
Qed.

End NetBSDSocksSpec.

(** ** The socket-owner correlation *)

Module SocketOwnerSpec.
Import FreeBSDSocks.

(** C1, as the code has it.  The FreeBSD listing returns NULL whenever
    [psutil_populate_xfiles] returns 0, in the state that call left, as
    it does with MemoryError pending when the buffer of the open-file
    table cannot be allocated; every tuple of a listing that is returned
    carries a pid that is not negative; and a pcb-list walk over
    elements of the expected size appends, in order, exactly the tuples
    of the elements whose lookup found an owner, an element whose lookup
    answers a negative pid contributing none. *)
Theorem listing_requires_owner_table :
  forall sizeof_xfile sizeof_xinpgen sizeof_xtcpcb sizeof_xinpcb
         sizeof_xunpgen sizeof_xunpcb kern_file inet_pcblist unix_pcblist
         alloc null_type sun_path_offset fuel st,
    let listing :=
      psutil_net_connections sizeof_xfile sizeof_xinpgen sizeof_xtcpcb
        sizeof_xinpcb sizeof_xunpgen sizeof_xunpcb kern_file inet_pcblist
        unix_pcblist alloc null_type sun_path_offset fuel st in
    (forall st1,
       psutil_populate_xfiles sizeof_xfile kern_file alloc null_type fuel st
       = Some (None, st1) ->
       listing = Some (None, st1)) /\
    (alloc (now st) sizeof_xfile = false ->
     exists st1,
       listing = Some (None, st1) /\
       pyerr st1 = Some MemoryError /\
       count_events is_fetch (calls st1) = count_events is_fetch (calls st)) /\
    (forall l st', listing = Some (Some l, st') ->
                   Forall (fun c => 0 <= c_pid c) l) /\
    (forall proto g elems py_retlist st0,
       Forall
         (fun x => xp_len x = inet_sizeof sizeof_xtcpcb sizeof_xinpcb proto)
         elems ->
       psutil_gather_inet_walk sizeof_xtcpcb sizeof_xinpcb proto g elems
         py_retlist st0
       = (true,
          py_retlist ++ flat_map (Correlator.inet_records proto g) elems,
          st0)) /\
    (forall proto g x,
       psutil_get_pid_from_sock g (sock_hash_of (xso_so (xp_socket x))) < 0 ->
       Correlator.inet_records proto g x = []).
Proof.
  intros; subst listing. split; [| split; [| split; [| split]]].
  - intros st1 H. now apply FreeBSDSocksSpec.net_connections_populate_failed.
  - intros A. unfold psutil_net_connections, psutil_populate_xfiles, c_alloc.
    rewrite A. cbn [negb]. eexists. split; [reflexivity |].
    split; [reflexivity |].
    cbn [calls PyErr_NoMemory set_exc set_errno].
    rewrite calls_log, count_events_app. unfold count_events. simpl. lia.
  - intros l st' H. eapply FreeBSDSocksSpec.net_connections_pids. exact H.
  - intros proto g elems py_retlist st0 H.
    now apply FreeBSDSocksSpec.gather_inet_walk_ok.
  - intros proto g x H. unfold Correlator.inet_records.
    destruct (Z.ltb_spec
                (psutil_get_pid_from_sock g
                   (sock_hash_of (xso_so (xp_socket x)))) 0);
      [reflexivity | lia].
Qed.

(** The rule at work: the buffer of the open-file table cannot be
    allocated, and the listing is NULL with MemoryError, no socket list
    having been fetched. *)
Lemma listing_requires_owner_table_witness :
  exists st1,
    psutil_net_connections Scenario.sizeof_xfile Scenario.sizeof_xinpgen
      Scenario.sizeof_xtcpcb Scenario.sizeof_xinpcb Scenario.sizeof_xunpgen
      Scenario.sizeof_xunpcb Scenario.kern_file_listener
      Scenario.inet_one_listener Scenario.unix_no_socket Sample.alloc_never
      Scenario.null_type_stored Scenario.sun_path_offset 1 init_state
    = Some (None, st1) /\
    pyerr st1 = Some MemoryError /\
    count_events is_fetch (calls st1)
    = count_events is_fetch (calls init_state).
Proof.
  apply (proj1 (proj2 (listing_requires_owner_table Scenario.sizeof_xfile
                         Scenario.sizeof_xinpgen Scenario.sizeof_xtcpcb
                         Scenario.sizeof_xinpcb Scenario.sizeof_xunpgen
                         Scenario.sizeof_xunpcb Scenario.kern_file_listener
                         Scenario.inet_one_listener Scenario.unix_no_socket
                         Sample.alloc_never Scenario.null_type_stored
                         Scenario.sun_path_offset 1%nat init_state))).
  reflexivity.
Defined.

(** Against C1 as stated: with an open-file table that is refused (its
    first entry declares the size of another kernel's [struct xfile])
    the listing is an error, RuntimeError, not a list; and with an
    open-file table that has no entry for the one TCP socket, the
    listing is the empty list, the socket's record being left out
    rather than returned with pid -1. *)
Lemma listing_without_owner_is_not_degraded :
  (exists st,
     Scenario.freebsd_net_connections Scenario.kern_file_foreign 1
     = Some (None, st) /\
     pyerr st = Some (RuntimeError "struct xfile size mismatch")) /\
  (exists st,
     Scenario.freebsd_net_connections Scenario.kern_file_empty 1
     = Some (Some [], st) /\
     pyerr st = None).
Proof.
  split; eexists; split; reflexivity.
Qed.

(** For contrast: once the open-file table has the listener's file the
    same socket is listed, with its owner. *)
Example listing_with_owner :
  exists st,
    Scenario.freebsd_net_connections Scenario.kern_file_listener 1
    = Some (Some [mkConn (-1) (Some AF_INET) SOCK_STREAM
                    (InetAddr (Some 0) 80) NoAddr 1 321], st).
Proof. eexists. reflexivity. Qed.

(** C3, as the code has it.  On FreeBSD the pid looked up for a socket
    at kernel address [ptr] is the pid of the first entry of the
    open-file table that has a non-null address with the same residue
    modulo 1009, and -1 when there is none; two sockets with the same
    hash get the same answer, which is -1 or the pid of an entry of that
    bucket; a tuple carries the looked-up pid.  On NetBSD no hash is
    taken: a tuple is built for every pair of a file entry (of the
    requested pid) and a socket whose kernel addresses are equal, and it
    carries the pid of that file entry. *)
Theorem hash_join_on_freebsd_exact_join_on_netbsd :
  (forall g ptr,
     0 <= ptr < 2 ^ 64 ->
     Forall (fun xf => 0 <= xf_data xf < 2 ^ 64)
       (elements (psutil_xfiles g) (psutil_nxfiles g)) ->
     psutil_get_pid_from_sock g (sock_hash_of ptr)
     = Correlator.hash_join_owner
         (map Correlator.xfile_entry
            (elements (psutil_xfiles g) (psutil_nxfiles g))) ptr) /\
  (forall g p1 p2,
     sock_hash_of p1 = sock_hash_of p2 ->
     psutil_get_pid_from_sock g (sock_hash_of p1)
     = psutil_get_pid_from_sock g (sock_hash_of p2) /\
     (psutil_get_pid_from_sock g (sock_hash_of p1) = -1 \/
      exists xf,
        In xf (elements (psutil_xfiles g) (psutil_nxfiles g)) /\
        xf_data xf <> 0 /\
        sock_hash_of (xf_data xf) = sock_hash_of p1 /\
        psutil_get_pid_from_sock g (sock_hash_of p1) = xf_pid xf)) /\
  (forall proto g x c,
     In c (Correlator.inet_records proto g x) ->
     c_pid c
     = psutil_get_pid_from_sock g (sock_hash_of (xso_so (xp_socket x)))) /\
  (forall pid kihead kpcbhead c,
     In c (NetBSDSocks.foreach_kif pid kihead kpcbhead []) <->
     exists k kp,
       In k kihead /\ In kp kpcbhead /\
       (pid = -1 \/ NetBSDSocks.ki_pid k = pid) /\
       NetBSDSocks.ki_fdata k = NetBSDSocks.ki_sockaddr kp /\
       c = NetBSDSocks.make_conn k kp).
Proof.
  split; [| split; [| split]].
  - intros g ptr Hp Hall. unfold psutil_get_pid_from_sock.
    now apply FreeBSDSocksSpec.get_pid_from_sock_loop_first_match.
  - intros g p1 p2 H. split; [now rewrite H |].
    unfold psutil_get_pid_from_sock.
    apply FreeBSDSocksSpec.get_pid_from_sock_loop_in_bucket.
  - intros proto g x c H. unfold Correlator.inet_records in H.
    destruct (psutil_get_pid_from_sock g
                (sock_hash_of (xso_so (xp_socket x))) <? 0);
      [destruct H |].
    destruct H as [<- | []]. apply FreeBSDSocksSpec.c_pid_inet_conn.
  - intros pid kihead kpcbhead c.
    rewrite NetBSDSocksSpec.foreach_kif_In. simpl. tauto.
Qed.

(** The FreeBSD lookup at work: the listener's address, looked up in a
    table that holds its file, gives the owner the hash join gives. *)
Lemma hash_join_on_freebsd_exact_join_on_netbsd_witness :
  psutil_get_pid_from_sock
    (mkGlobals
       (Scenario.xfile_array [mkXfile 128 321 Scenario.socket_address]) 1)
    (sock_hash_of Scenario.socket_address)
  = Correlator.hash_join_owner [(Scenario.socket_address, 321)]
      Scenario.socket_address.
Proof.
  apply (proj1 hash_join_on_freebsd_exact_join_on_netbsd
           (mkGlobals
              (Scenario.xfile_array [mkXfile 128 321 Scenario.socket_address])
              1)
           Scenario.socket_address).
  - unfold Scenario.socket_address. lia.
  - repeat constructor; simpl; unfold Scenario.socket_address; lia.
Defined.

(** Against C3 as stated: two NetBSD sockets whose kernel addresses have
    the same residue modulo 1009, each open in its own process.  The hash
    join gives both sockets one owner: pid 10 when the file table is
    read in the kernel's order, pid 20 when it is read in the order of
    the list built from it.  The listing attaches pid 20 to the second
    socket (fd 4) and pid 10 to the first (fd 3). *)
Lemma netbsd_join_ignores_hash_buckets :
  Scenario.socket_address mod HASHSIZE
  = (Scenario.socket_address + 1009) mod HASHSIZE /\
  map (Correlator.hash_join_owner
         (map Correlator.kinfo_file_entry Scenario.kinfo_files))
    [Scenario.socket_address; Scenario.socket_address + 1009]
  = [10; 10] /\
  map (Correlator.hash_join_owner
         (map Correlator.kinfo_file_entry (rev Scenario.kinfo_files)))
    [Scenario.socket_address; Scenario.socket_address + 1009]
  = [20; 20] /\
  option_map (map (fun c => (NetBSDSocks.c_fd c, NetBSDSocks.c_pid c)))
    (fst (Scenario.netbsd_net_connections (-1)))
  = Some [(4, 20); (3, 10)].
Proof. repeat split; reflexivity. Qed.




End SocketOwnerSpec.

(** ** The "no such process" rule *)

Module ClassifierSpec.

(** C5, as the code has it.  A raw failure that means "no such
    process" leaves the "no such process" exception pending, which is
    classified [NotFound]:
    [errno == ESRCH] surfaced by [psutil_raise_for_pid]; the sysctl of
    [psutil_get_kinfo_proc] failing with [ESRCH], or succeeding with a
    returned length of zero; [task_for_pid] failing for a pid whose
    [kill(pid, 0)] probe answers [ESRCH]; [OpenProcess] failing with
    [ERROR_INVALID_PARAMETER] in [psutil_handle_from_pid_waccess] and in
    [psutil_proc_kill]; and the sysctl of the BSD [psutil_kinfo_proc]
    failing with [ESRCH] or storing a size of zero.  [psutil_proc_wait]
    is the exception the code makes: when its [OpenProcess] fails with
    [ERROR_INVALID_PARAMETER] it returns [None] and sets no exception. *)
Theorem no_such_process_is_not_found :
  (forall pf kill pid msg st,
     errno st = ESRCH ->
     outcome (snd (Common.psutil_raise_for_pid pf kill pid msg st))
     = Some NotFound) /\
  (forall proc_pid_fetch pid st,
     proc_pid_fetch (now st) (to_pid_t pid) = SysErr ESRCH ->
     let r := OSX.psutil_get_kinfo_proc proc_pid_fetch pid st in
     fst (fst r) = -1 /\ outcome (snd r) = Some NotFound) /\
  (forall proc_pid_fetch pid st kp,
     proc_pid_fetch (now st) (to_pid_t pid) = SysOk 0 kp ->
     let r := OSX.psutil_get_kinfo_proc proc_pid_fetch pid st in
     fst (fst r) = -1 /\ outcome (snd r) = Some NotFound) /\
  (forall task_for_pid kill pid st,
     0 < pid ->
     task_for_pid (now st) (to_pid_t pid) <> OSX.KERN_SUCCESS ->
     kill (S (now st)) (to_pid_t pid) 0 = Some ESRCH ->
     let r := OSX.task_for_pid_or_raise task_for_pid kill pid st in
     fst r = false /\ outcome (snd r) = Some NotFound) /\
  (forall open_process get_exit_code pid st,
     pid <> 0 ->
     open_process (now st) pid
     = Windows.OpenFailed ERROR_INVALID_PARAMETER ->
     let r := Windows.psutil_handle_from_pid_waccess open_process
                get_exit_code pid st in
     fst r = None /\ outcome (snd r) = Some NotFound) /\
  (forall open_process terminate_process pid st,
     pid <> 0 ->
     open_process (now st) (to_DWORD pid)
     = Windows.OpenFailed ERROR_INVALID_PARAMETER ->
     let r := Windows.psutil_proc_kill open_process terminate_process
                pid st in
     fst r = false /\ outcome (snd r) = Some NotFound) /\
  (forall (kinfo : Type) (proc_pid_fetch : nat -> Z -> sysctl_res kinfo)
          pid st,
     proc_pid_fetch (now st) pid = SysErr ESRCH ->
     let r := BSD.psutil_kinfo_proc kinfo proc_pid_fetch pid st in
     fst (fst r) = -1 /\ outcome (snd r) = Some NotFound) /\
  (forall (kinfo : Type) (proc_pid_fetch : nat -> Z -> sysctl_res kinfo)
          pid st proc,
     proc_pid_fetch (now st) pid = SysOk 0 proc ->
     let r := BSD.psutil_kinfo_proc kinfo proc_pid_fetch pid st in
     fst (fst r) = -1 /\ outcome (snd r) = Some NotFound) /\
  (forall open_process get_exit_code wait_for_process pid timeout st,
     pid <> 0 ->
     open_process (now st) (to_DWORD pid)
     = Windows.OpenFailed ERROR_INVALID_PARAMETER ->
     exists st',
       Windows.psutil_proc_wait open_process get_exit_code wait_for_process
         pid timeout st = Some (Windows.ProcWaitNone, st') /\
       pyerr st' = pyerr st).
Proof.
  split; [| split; [| split; [| split; [| split; [| split; [| split;
    [| split]]]]]]].
  - intros pf kill pid msg st E. unfold Common.psutil_raise_for_pid.
    rewrite E. simpl. unfold outcome, PyErr_SetFromErrno_OSError. simpl.
    rewrite E. reflexivity.
  - intros f pid st F; cbv zeta. unfold OSX.psutil_get_kinfo_proc.
    rewrite F. split; reflexivity.
  - intros f pid st kp F; cbv zeta. unfold OSX.psutil_get_kinfo_proc.
    rewrite F. split; reflexivity.
  - intros tfp kill pid st P T K; cbv zeta. unfold OSX.task_for_pid_or_raise.
    destruct (Z.eqb_spec (tfp (now st) (to_pid_t pid)) OSX.KERN_SUCCESS)
      as [E | _]; [contradiction |].
    simpl. unfold Common.psutil_pid_exists.
    destruct (Z.ltb_spec pid 0); [lia |].
    destruct (Z.eqb_spec pid 0); [lia |].
    rewrite now_log, K. split; reflexivity.
  - intros op ge pid st P O; cbv zeta.
    unfold Windows.psutil_handle_from_pid_waccess.
    destruct (Z.eqb_spec pid 0); [contradiction |].
    rewrite O. split; reflexivity.
  - intros op tp pid st P O; cbv zeta. unfold Windows.psutil_proc_kill.
    destruct (Z.eqb_spec pid 0); [contradiction |].
    rewrite O. split; reflexivity.
  - intros kinfo f pid st F; cbv zeta. unfold BSD.psutil_kinfo_proc.
    rewrite F. split; reflexivity.
  - intros kinfo f pid st proc F; cbv zeta. unfold BSD.psutil_kinfo_proc.
    rewrite F. split; reflexivity.
  - intros op ge wf pid timeout st P O. unfold Windows.psutil_proc_wait.
    destruct (Z.eqb_spec pid 0); [contradiction |].
    rewrite O. eexists. split; reflexivity.
Qed.

(** The rule at work: pid 7 has gone by the time [psutil_raise_for_pid]
    runs with [errno] at [ESRCH]. *)
Lemma no_such_process_is_not_found_witness :
  outcome
    (snd (Common.psutil_raise_for_pid Common.OSX Scenario.kill_42_alive 7
            "proc_pidinfo() syscall failed" (set_errno ESRCH init_state)))
  = Some NotFound.
Proof.
  apply (proj1 no_such_process_is_not_found). reflexivity.
Defined.

(** [psutil_proc_wait] on pid 7, which has gone: [OpenProcess] fails with
    [ERROR_INVALID_PARAMETER], the call returns [None] and no exception
    is pending, so nothing is classified [NotFound]. *)
Lemma proc_wait_gone_process_is_none :
  exists st,
    Windows.psutil_proc_wait Scenario.open_none Scenario.exit_still_active
      Scenario.wait_signalled 7 1000 init_state
    = Some (Windows.ProcWaitNone, st) /\
    last_error st = ERROR_INVALID_PARAMETER /\
    pyerr st = None /\
    outcome st <> Some NotFound.
Proof.
  eexists. split; [reflexivity |]. split; [reflexivity |].
  split; [reflexivity | discriminate].
Qed.

End ClassifierSpec.

(** ** Swap counters on a machine without swap *)

Module SwapSpec.

(** On NetBSD a count of zero swap devices is answered with the zeroed
    tuple; no exception is set. *)
Lemma netbsd_swap_mem_no_device
    sizeof_swapent swapctl_nswap swapctl_stats uvmexp2 pagesize alloc st :
  swapctl_nswap (now st) = Ret 0 ->
  NetBSD.psutil_swap_mem sizeof_swapent swapctl_nswap swapctl_stats uvmexp2
    pagesize alloc st
  = (SwapTuple 0 0 0 0 0, log EvSwapctlNswap st).
Proof. intros H. unfold NetBSD.psutil_swap_mem. rewrite H. reflexivity. Qed.

(** On OpenBSD the same count is answered with NULL and
    [OSError(errno)]. *)
Lemma openbsd_swap_mem_no_device
    sizeof_swapent swapctl_nswap swapctl_stats alloc st :
  swapctl_nswap (now st) = Ret 0 ->
  OpenBSD.psutil_swap_mem sizeof_swapent swapctl_nswap swapctl_stats alloc st
  = (SwapNULL, PyErr_SetFromErrno_OSError (log EvSwapctlNswap st)).
Proof. intros H. unfold OpenBSD.psutil_swap_mem. rewrite H. reflexivity. Qed.

(** C7.  [psutil_swap_mem] on a machine without swap devices
    ([swapctl(SWAP_NSWAP)] returns 0): the NetBSD function returns the
    zeroed tuple and sets no exception; the OpenBSD function returns NULL
    with [OSError(errno)] pending, [errno] being 0 here. *)
Theorem swap_mem_without_swap_devices :
  NetBSD.psutil_swap_mem 40 Scenario.swapctl_no_device
    Scenario.swapctl_stats_none Scenario.uvmexp2_idle 4096
    Scenario.alloc_always init_state
  = (SwapTuple 0 0 0 0 0,
     {| errno := 0; last_error := 0; pyerr := None;
        calls := [EvSwapctlNswap] |}) /\
  OpenBSD.psutil_swap_mem 40 Scenario.swapctl_no_device
    Scenario.swapctl_stats_none Scenario.alloc_always init_state
  = (SwapNULL,
     {| errno := 0; last_error := 0; pyerr := Some (OSError 0);
        calls := [EvSwapctlNswap] |}).
Proof. split; reflexivity. Qed.

End SwapSpec.

(** ** _psutil_windows.c: byte order of a port *)

Module ByteswapSpec.
Import WindowsNet.

Lemma testbit_above_16 x m :
  0 <= x < 65536 -> 16 <= m -> Z.testbit x m = false.
Proof.
  intros Hx Hm. rewrite <- (Z.mod_small x (2 ^ 16)) by (simpl; lia).
  apply Z.mod_pow2_bits_high. lia.
Qed.

(** Bit [n] of the swapped value is bit [n + 8] or bit [n - 8] of the
    value. *)
Lemma BYTESWAP_USHORT_bits x n :
  0 <= x < 65536 -> 0 <= n ->
  Z.testbit (BYTESWAP_USHORT x) n
  = if n <? 8 then Z.testbit x (n + 8)
    else if n <? 16 then Z.testbit x (n - 8)
    else false.
Proof.
  intros Hx Hn. unfold BYTESWAP_USHORT, uwrap.
  rewrite (Z.mod_small x) by (simpl; lia).
  change 0xffff with (Z.ones 16).
  rewrite Z.land_spec, Z.lor_spec, Z.shiftl_spec, Z.shiftr_spec by lia.
  rewrite Z.testbit_ones_nonneg by lia.
  destruct (Z.ltb_spec n 8).
  - rewrite (Z.testbit_neg_r x (n - 8)) by lia.
    destruct (Z.ltb_spec n 16); [| lia]. simpl. now rewrite andb_true_r.
  - destruct (Z.ltb_spec n 16).
    + rewrite (testbit_above_16 x (n + 8)) by lia.
      now rewrite orb_false_r, andb_true_r.
    + now rewrite andb_false_r.
Qed.

Lemma BYTESWAP_USHORT_range x : 0 <= BYTESWAP_USHORT x < 65536.
Proof.
  unfold BYTESWAP_USHORT. change 0xffff with (Z.ones 16).
  rewrite Z.land_ones by lia. apply Z.mod_pos_bound. reflexivity.
Qed.

(** X1.  [BYTESWAP_USHORT] always yields a 16-bit value, and on 16-bit
    values it is its own inverse: swapping a port twice gives the port
    back. *)
Theorem BYTESWAP_USHORT_involutive :
  forall x,
    0 <= BYTESWAP_USHORT x < 65536 /\
    (0 <= x < 65536 -> BYTESWAP_USHORT (BYTESWAP_USHORT x) = x).
Proof.
  intros x. split; [apply BYTESWAP_USHORT_range |].
  intros Hx. apply Z.bits_inj'. intros n Hn.
  rewrite BYTESWAP_USHORT_bits by (try apply BYTESWAP_USHORT_range; lia).
  destruct (Z.ltb_spec n 8).
  - rewrite BYTESWAP_USHORT_bits by lia.
    destruct (Z.ltb_spec (n + 8) 8); [lia |].
    destruct (Z.ltb_spec (n + 8) 16); [| lia].
    f_equal. lia.
  - destruct (Z.ltb_spec n 16).
    + rewrite BYTESWAP_USHORT_bits by lia.
      destruct (Z.ltb_spec (n - 8) 8); [| lia]. f_equal. lia.
    + symmetry. apply testbit_above_16; lia.
Qed.

(** Port 8080 in network byte order. *)
Lemma BYTESWAP_USHORT_involutive_witness :
  BYTESWAP_USHORT (BYTESWAP_USHORT 0x901f) = 0x901f.
Proof.
  apply (proj2 (BYTESWAP_USHORT_involutive 0x901f)). lia.
Defined.

End ByteswapSpec.

(** ** arch/windows/process_info.c: the list of pids *)

Module WindowsPidsSpec.
Import WindowsPids.

(** A buffer that holds a list, read back over the list's length. *)
Lemma elements_of_list (l : list Z) (d : Z) :
  elements (fun i => nth i l d) (Z.of_nat (List.length l)) = l.
Proof.
  unfold elements. rewrite Nat2Z.id.
  apply nth_ext with (d := d) (d' := d).
  - now rewrite length_map, length_seq.
  - intros n Hn. rewrite length_map, length_seq in Hn.
    rewrite (nth_indep _ d (nth 0 l d)) by now rewrite length_map, length_seq.
    rewrite map_nth with (f := fun i => nth i l d).
    now rewrite seq_nth.
Qed.

(** The linear search answers 1 exactly for the members of the list. *)
Lemma pid_in_proclist_loop_spec pid proclist :
  (In pid proclist -> pid_in_proclist_loop pid proclist = 1) /\
  (~ In pid proclist -> pid_in_proclist_loop pid proclist = 0).
Proof.
  induction proclist as [| p rest [IH1 IH0]]; simpl.
  - split; [intros [] | reflexivity].
  - destruct (Z.eqb_spec pid p) as [E | E]; split.
    + reflexivity.
    + intros N. exfalso. apply N. now left.
    + intros [H | H]; [congruence | now apply IH1].
    + intros N. apply IH0. intros H. apply N. now right.
Qed.

Section StableSystem.

Variable enum_processes : nat -> Z -> sysctl_res (carray Z).
Variable alloc : alloc_oracle.

(** The processes of the system, which do not change during the call. *)
Variable procs : list Z.

Local Abbreviation N := (Z.of_nat (List.length procs)).
Local Abbreviation procArray := (fun i : nat => nth i procs 0).

Hypothesis procs_small : N < 2 ^ 28.
Hypothesis alloc_ok : forall t b, alloc t b = true.

(** [EnumProcesses] stores as many pids as the buffer holds. *)
Hypothesis enum_ok :
  forall t cap,
    enum_processes t cap = SysOk (Z.min cap (sizeof_DWORD * N)) procArray.

Lemma get_pids_loop_stable fuel :
  forall procArraySz st,
    0 <= procArraySz <= N ->
    N < procArraySz + 1024 * Z.of_nat fuel ->
    exists st',
      psutil_get_pids_loop enum_processes alloc fuel procArraySz st
      = Some (Some (procArray, N), st') /\
      pyerr st' = pyerr st.
Proof.
  induction fuel as [| fuel IH]; intros sz st Hsz Hfuel.
  - simpl in Hfuel. lia.
  - simpl psutil_get_pids_loop.
    assert (B : 0 <= sz + 1024 < 2 ^ 28 + 1024) by lia.
    change (2 ^ 28) with 268435456 in B.
    assert (E1 : to_int (sz + 1024) = sz + 1024).
    { unfold to_int, swrap.
      change (2 ^ (32 - 1)) with 2147483648. change (2 ^ 32) with 4294967296.
      rewrite Z.mod_small; lia. }
    rewrite E1.
    assert (E2 : to_size_t ((sz + 1024) * sizeof_DWORD) = 4 * (sz + 1024)).
    { unfold to_size_t, uwrap, sizeof_DWORD.
      change (2 ^ 64) with 18446744073709551616.
      rewrite Z.mod_small; lia. }
    rewrite E2.
    assert (E3 : to_DWORD (4 * (sz + 1024)) = 4 * (sz + 1024)).
    { unfold to_DWORD, uwrap. change (2 ^ 32) with 4294967296.
      rewrite Z.mod_small; lia. }
    rewrite E3.
    rewrite c_alloc_true by apply alloc_ok. simpl negb. cbv iota.
    rewrite enum_ok. unfold sizeof_DWORD.
    destruct (Z.eqb_spec (Z.min (4 * (sz + 1024)) (4 * N)) (4 * (sz + 1024)))
      as [C | C].
    + destruct (IH (sz + 1024)
                  (log (EvCall "EnumProcesses" (4 * (sz + 1024)))
                     (log (EvAlloc (4 * (sz + 1024))) st)))
        as (st' & R & P); [lia | lia |].
      exists st'. split; [exact R | exact P].
    + exists (log (EvCall "EnumProcesses" (4 * (sz + 1024)))
                (log (EvAlloc (4 * (sz + 1024))) st)).
      split; [| reflexivity].
      replace (Z.min (4 * (sz + 1024)) (4 * N) / 4) with N; [reflexivity |].
      rewrite Z.min_r by lia.
      symmetry. rewrite Z.mul_comm. apply Z.div_mul. lia.
Qed.

End StableSystem.

(** X2.  When the processes of the system do not change during the call
    and [EnumProcesses] stores as many pids as the buffer holds,
    [psutil_get_pids] returns all of them, in order, however many
    multiples of 1024 they are (the buffer grows by 1024 entries until
    the answer no longer fills it); no exception is set. *)
Theorem get_pids_returns_all_pids :
  forall enum_processes alloc procs fuel st,
    Z.of_nat (List.length procs) < 2 ^ 28 ->
    (forall t b, alloc t b = true) ->
    (forall t cap,
       enum_processes t cap
       = SysOk (Z.min cap (sizeof_DWORD * Z.of_nat (List.length procs)))
           (fun i => nth i procs 0)) ->
    Z.of_nat (List.length procs) < 1024 * Z.of_nat fuel ->
    exists procArray numberOfReturnedPIDs st',
      psutil_get_pids enum_processes alloc fuel st
      = Some (Some (procArray, numberOfReturnedPIDs), st') /\
      elements procArray numberOfReturnedPIDs = procs /\
      pyerr st' = pyerr st.
Proof.
  intros enum_processes alloc procs fuel st Hs Ha He Hf.
  destruct (get_pids_loop_stable enum_processes alloc procs Hs Ha He fuel 0 st)
    as (st' & R & P); [lia | lia |].
  exists (fun i => nth i procs 0), (Z.of_nat (List.length procs)), st'.
  split; [exact R |]. split; [apply elements_of_list | exact P].
Qed.

Lemma get_pids_returns_all_pids_witness :
  exists procArray numberOfReturnedPIDs st',
    psutil_get_pids Sample.enum_three Scenario.alloc_always 1 init_state
    = Some (Some (procArray, numberOfReturnedPIDs), st') /\
    elements procArray numberOfReturnedPIDs = Sample.three_pids /\
    pyerr st' = pyerr init_state.
Proof.
  apply (get_pids_returns_all_pids Sample.enum_three Scenario.alloc_always
           Sample.three_pids 1 init_state).
  - reflexivity.
  - intros t b. reflexivity.
  - intros t cap. reflexivity.
  - reflexivity.
Defined.

(** X3.  Under the same conditions [psutil_pid_in_proclist] answers 1
    for a pid of the system and 0 for any other. *)
Theorem pid_in_proclist_decides_membership :
  forall enum_processes alloc procs fuel pid st,
    Z.of_nat (List.length procs) < 2 ^ 28 ->
    (forall t b, alloc t b = true) ->
    (forall t cap,
       enum_processes t cap
       = SysOk (Z.min cap (sizeof_DWORD * Z.of_nat (List.length procs)))
           (fun i => nth i procs 0)) ->
    Z.of_nat (List.length procs) < 1024 * Z.of_nat fuel ->
    exists r st',
      psutil_pid_in_proclist enum_processes alloc fuel pid st = Some (r, st') /\
      (In pid procs -> r = 1) /\ (~ In pid procs -> r = 0).
Proof.
  intros enum_processes alloc procs fuel pid st Hs Ha He Hf.
  destruct (get_pids_loop_stable enum_processes alloc procs Hs Ha He fuel 0 st)
    as (st' & R & _); [lia | lia |].
  unfold psutil_pid_in_proclist, psutil_get_pids. rewrite R, elements_of_list.
  eexists. eexists. split; [reflexivity |].
  apply pid_in_proclist_loop_spec.
Qed.

Lemma pid_in_proclist_decides_membership_witness :
  exists r st',
    psutil_pid_in_proclist Sample.enum_three Scenario.alloc_always 1 612
      init_state = Some (r, st') /\
    (In 612 Sample.three_pids -> r = 1) /\
    (~ In 612 Sample.three_pids -> r = 0).
Proof.
  apply (pid_in_proclist_decides_membership Sample.enum_three
           Scenario.alloc_always Sample.three_pids 1 612 init_state).
  - reflexivity.
  - intros t b. reflexivity.
  - intros t cap. reflexivity.
  - reflexivity.
Defined.

End WindowsPidsSpec.

(** ** _psutil_windows.c: the connection listing *)

Module WindowsNetSpec.
Import WindowsNet.

Lemma contains_In filter value :
  contains filter value = true -> In value filter.
Proof.
  unfold contains. intros H. apply existsb_exists in H.
  destruct H as (x & I & E). apply Z.eqb_eq in E. now subst.
Qed.

Lemma tcp_rows_Forall (Q : conn -> Prop) pid family table :
  (forall row, listed pid (dwOwningPid row) -> Q (tcp_conn family row)) ->
  forall py_retlist,
    Forall Q py_retlist -> Forall Q (tcp_rows pid family table py_retlist).
Proof.
  intros HQ. induction table as [| row rest IH]; intros acc Hacc; simpl.
  - exact Hacc.
  - destruct (Z.eqb_spec pid ALL_PIDS) as [A | A]; simpl.
    + apply IH. apply Forall_app. split; [exact Hacc |].
      constructor; [| constructor]. apply HQ. now left.
    + destruct (Z.eqb_spec (dwOwningPid row) pid) as [O | O]; simpl.
      * apply IH. apply Forall_app. split; [exact Hacc |].
        constructor; [| constructor]. apply HQ. now right.
      * apply IH. exact Hacc.
Qed.

Lemma udp_rows_Forall (Q : conn -> Prop) pid family table :
  (forall row, listed pid (udp_dwOwningPid row) -> Q (udp_conn family row)) ->
  forall py_retlist,
    Forall Q py_retlist -> Forall Q (udp_rows pid family table py_retlist).
Proof.
  intros HQ. induction table as [| row rest IH]; intros acc Hacc; simpl.
  - exact Hacc.
  - destruct (Z.eqb_spec pid ALL_PIDS) as [A | A]; simpl.
    + apply IH. apply Forall_app. split; [exact Hacc |].
      constructor; [| constructor]. apply HQ. now left.
    + destruct (Z.eqb_spec (udp_dwOwningPid row) pid) as [O | O]; simpl.
      * apply IH. apply Forall_app. split; [exact Hacc |].
        constructor; [| constructor]. apply HQ. now right.
      * apply IH. exact Hacc.
Qed.

Section Blocks.

Variable open_process : nat -> Z -> Windows.open_res.
Variable get_exit_code : nat -> Z -> Windows.exit_res.
Variable tcp_call : Z -> nat -> bool -> Z -> Z * Z * list tcp_row.
Variable udp_call : Z -> nat -> bool -> Z -> Z * Z * list udp_row.
Variable alloc : alloc_oracle.

Variable Q : conn -> Prop.
Variable pid : Z.
Variable af_filter type_filter : list Z.

(** What [Q] has to hold of: the tuple of any listed row of a wanted
    table. *)
Hypothesis Q_tcp :
  forall family row,
    contains af_filter family = true ->
    contains type_filter SOCK_STREAM = true ->
    listed pid (dwOwningPid row) -> Q (tcp_conn family row).
Hypothesis Q_udp :
  forall family row,
    contains af_filter family = true ->
    contains type_filter SOCK_DGRAM = true ->
    listed pid (udp_dwOwningPid row) -> Q (udp_conn family row).

Lemma tcp_block_Forall fuel family py_retlist st l st' :
  contains af_filter family && contains type_filter SOCK_STREAM = true ->
  tcp_block tcp_call alloc fuel pid family py_retlist st = Some (inr l, st') ->
  Forall Q py_retlist -> Forall Q l.
Proof.
  intros W R H. apply andb_prop in W. destruct W as [Wa Wt].
  unfold tcp_block in R.
  destruct (Windows.__GetExtendedTcpTable _ _ _ _ _) as [[r st1] |];
    [| discriminate].
  destruct (Windows.et_error r =? ERROR_NOT_ENOUGH_MEMORY); [discriminate |].
  destruct (Windows.et_error r =? NO_ERROR); [| discriminate].
  destruct (Windows.et_data r) as [table |]; [| discriminate].
  injection R as <- _. apply tcp_rows_Forall; [| exact H].
  intros row L. now apply Q_tcp.
Qed.

Lemma udp_block_Forall fuel family py_retlist st l st' :
  contains af_filter family && contains type_filter SOCK_DGRAM = true ->
  udp_block udp_call alloc fuel pid family py_retlist st = Some (inr l, st') ->
  Forall Q py_retlist -> Forall Q l.
Proof.
  intros W R H. apply andb_prop in W. destruct W as [Wa Wt].
  unfold udp_block in R.
  destruct (Windows.__GetExtendedUdpTable _ _ _ _ _) as [[r st1] |];
    [| discriminate].
  destruct (Windows.et_error r =? ERROR_NOT_ENOUGH_MEMORY); [discriminate |].
  destruct (Windows.et_error r =? NO_ERROR); [| discriminate].
  destruct (Windows.et_data r) as [table |]; [| discriminate].
  injection R as <- _. apply udp_rows_Forall; [| exact H].
  intros row L. now apply Q_udp.
Qed.

Lemma tcp_block_leaves fuel family py_retlist st r st' :
  tcp_block tcp_call alloc fuel pid family py_retlist st = Some (inl r, st') ->
  r = NetNULL \/ r = NetNullTable.
Proof.
  unfold tcp_block. intros R.
  destruct (Windows.__GetExtendedTcpTable _ _ _ _ _) as [[e s1] |];
    [| discriminate].
  destruct (_ =? ERROR_NOT_ENOUGH_MEMORY); [left; congruence |].
  destruct (_ =? NO_ERROR); [| left; congruence].
  destruct (Windows.et_data e); [discriminate | right; congruence].
Qed.

Lemma udp_block_leaves fuel family py_retlist st r st' :
  udp_block udp_call alloc fuel pid family py_retlist st = Some (inl r, st') ->
  r = NetNULL \/ r = NetNullTable.
Proof.
  unfold udp_block. intros R.
  destruct (Windows.__GetExtendedUdpTable _ _ _ _ _) as [[e s1] |];
    [| discriminate].
  destruct (_ =? ERROR_NOT_ENOUGH_MEMORY); [left; congruence |].
  destruct (_ =? NO_ERROR); [| left; congruence].
  destruct (Windows.et_data e); [discriminate | right; congruence].
Qed.

Lemma when_wanted_leaves wanted block py_retlist st r st' :
  (forall acc s r' s',
     block acc s = Some (inl r', s') -> r' = NetNULL \/ r' = NetNullTable) ->
  when_wanted wanted block py_retlist st = Some (inl r, st') ->
  r = NetNULL \/ r = NetNullTable.
Proof.
  intros HB R. unfold when_wanted in R. destruct wanted.
  - eapply HB. exact R.
  - discriminate.
Qed.

Lemma when_wanted_Forall wanted block py_retlist st l st' :
  (forall acc s l' s',
     wanted = true -> block acc s = Some (inr l', s') ->
     Forall Q acc -> Forall Q l') ->
  when_wanted wanted block py_retlist st = Some (inr l, st') ->
  Forall Q py_retlist -> Forall Q l.
Proof.
  intros HB R H. unfold when_wanted in R. destruct wanted.
  - eapply HB; [reflexivity | exact R | exact H].
  - injection R as <- _. exact H.
Qed.

Lemma net_connections_tables_Forall fuel st l st' :
  psutil_net_connections_tables tcp_call udp_call alloc fuel pid
    af_filter type_filter st = Some (NetList l, st') ->
  Forall Q l.
Proof.
  unfold psutil_net_connections_tables. intros R.
  destruct (when_wanted _ (tcp_block _ _ _ _ AF_INET) _ _)
    as [[[r1 | l1] st1] |] eqn:B1; [| | discriminate].
  { cbv beta iota in R. injection R as -> _.
    apply when_wanted_leaves in B1; [destruct B1; discriminate |].
    intros acc s r' s'. apply tcp_block_leaves. }
  assert (F1 : Forall Q l1).
  { eapply when_wanted_Forall; [| exact B1 | constructor].
    intros acc s l' s' W. now apply tcp_block_Forall. }
  destruct (when_wanted _ (tcp_block _ _ _ _ AF_INET6) _ _)
    as [[[r2 | l2] st2] |] eqn:B2; [| | discriminate].
  { cbv beta iota in R. injection R as -> _.
    apply when_wanted_leaves in B2; [destruct B2; discriminate |].
    intros acc s r' s'. apply tcp_block_leaves. }
  assert (F2 : Forall Q l2).
  { eapply when_wanted_Forall; [| exact B2 | exact F1].
    intros acc s l' s' W. now apply tcp_block_Forall. }
  destruct (when_wanted _ (udp_block _ _ _ _ AF_INET) _ _)
    as [[[r3 | l3] st3] |] eqn:B3; [| | discriminate].
  { cbv beta iota in R. injection R as -> _.
    apply when_wanted_leaves in B3; [destruct B3; discriminate |].
    intros acc s r' s'. apply udp_block_leaves. }
  assert (F3 : Forall Q l3).
  { eapply when_wanted_Forall; [| exact B3 | exact F2].
    intros acc s l' s' W. now apply udp_block_Forall. }
  destruct (when_wanted _ (udp_block _ _ _ _ AF_INET6) _ _)
    as [[[r4 | l4] st4] |] eqn:B4; [| | discriminate].
  { cbv beta iota in R. injection R as -> _.
    apply when_wanted_leaves in B4; [destruct B4; discriminate |].
    intros acc s r' s'. apply udp_block_leaves. }
  cbv beta iota in R. injection R as <- _.
  eapply when_wanted_Forall; [| exact B4 | exact F3].
  intros acc s l' s' W. now apply udp_block_Forall.
Qed.

End Blocks.

Section Raises.

Variable open_process : nat -> Z -> Windows.open_res.
Variable get_exit_code : nat -> Z -> Windows.exit_res.
Variable tcp_call : Z -> nat -> bool -> Z -> Z * Z * list tcp_row.
Variable udp_call : Z -> nat -> bool -> Z -> Z * Z * list udp_row.
Variable alloc : alloc_oracle.

Lemma tcp_block_NULL_raises fuel pid family py_retlist st st' :
  tcp_block tcp_call alloc fuel pid family py_retlist st
  = Some (inl NetNULL, st') ->
  raised_by_table tcp_call udp_call alloc fuel st'.
Proof.
  unfold tcp_block. intros R.
  destruct (Windows.__GetExtendedTcpTable _ _ _ _ _) as [[e s1] |] eqn:T;
    [| discriminate].
  exists (Windows.et_error e), s1. unfold table_exception.
  destruct (Z.eqb_spec (Windows.et_error e) ERROR_NOT_ENOUGH_MEMORY) as [M | M].
  { injection R as <-. split; [| split; [| reflexivity]].
    - exists family, st. left. exists e. split; [exact T | reflexivity].
    - rewrite M. discriminate. }
  destruct (Z.eqb_spec (Windows.et_error e) NO_ERROR) as [N | N].
  { destruct (Windows.et_data e); discriminate. }
  injection R as <-. split; [| split; [exact N | reflexivity]].
  exists family, st. left. exists e. split; [exact T | reflexivity].
Qed.

Lemma udp_block_NULL_raises fuel pid family py_retlist st st' :
  udp_block udp_call alloc fuel pid family py_retlist st
  = Some (inl NetNULL, st') ->
  raised_by_table tcp_call udp_call alloc fuel st'.
Proof.
  unfold udp_block. intros R.
  destruct (Windows.__GetExtendedUdpTable _ _ _ _ _) as [[e s1] |] eqn:T;
    [| discriminate].
  exists (Windows.et_error e), s1. unfold table_exception.
  destruct (Z.eqb_spec (Windows.et_error e) ERROR_NOT_ENOUGH_MEMORY) as [M | M].
  { injection R as <-. split; [| split; [| reflexivity]].
    - exists family, st. right. exists e. split; [exact T | reflexivity].
    - rewrite M. discriminate. }
  destruct (Z.eqb_spec (Windows.et_error e) NO_ERROR) as [N | N].
  { destruct (Windows.et_data e); discriminate. }
  injection R as <-. split; [| split; [exact N | reflexivity]].
  exists family, st. right. exists e. split; [exact T | reflexivity].
Qed.

Lemma when_wanted_NULL_raises fuel wanted block py_retlist st st' :
  (forall acc s s',
     block acc s = Some (inl NetNULL, s') -> raised_by_table tcp_call udp_call alloc fuel s') ->
  when_wanted wanted block py_retlist st = Some (inl NetNULL, st') ->
  raised_by_table tcp_call udp_call alloc fuel st'.
Proof.
  intros HB R. unfold when_wanted in R. destruct wanted.
  - eapply HB. exact R.
  - discriminate.
Qed.

Lemma net_connections_tables_NULL_raises fuel pid af_filter type_filter st st' :
  psutil_net_connections_tables tcp_call udp_call alloc fuel pid
    af_filter type_filter st = Some (NetNULL, st') ->
  raised_by_table tcp_call udp_call alloc fuel st'.
Proof.
  unfold psutil_net_connections_tables. intros R.
  destruct (when_wanted _ (tcp_block _ _ _ _ AF_INET) _ _)
    as [[[r1 | l1] st1] |] eqn:B1; [| | discriminate].
  { cbv beta iota in R. injection R as -> ->.
    eapply when_wanted_NULL_raises; [| exact B1].
    intros acc s s'. apply tcp_block_NULL_raises. }
  destruct (when_wanted _ (tcp_block _ _ _ _ AF_INET6) _ _)
    as [[[r2 | l2] st2] |] eqn:B2; [| | discriminate].
  { cbv beta iota in R. injection R as -> ->.
    eapply when_wanted_NULL_raises; [| exact B2].
    intros acc s s'. apply tcp_block_NULL_raises. }
  destruct (when_wanted _ (udp_block _ _ _ _ AF_INET) _ _)
    as [[[r3 | l3] st3] |] eqn:B3; [| | discriminate].
  { cbv beta iota in R. injection R as -> ->.
    eapply when_wanted_NULL_raises; [| exact B3].
    intros acc s s'. apply udp_block_NULL_raises. }
  destruct (when_wanted _ (udp_block _ _ _ _ AF_INET6) _ _)
    as [[[r4 | l4] st4] |] eqn:B4; [| | discriminate].
  { cbv beta iota in R. injection R as -> ->.
    eapply when_wanted_NULL_raises; [| exact B4].
    intros acc s s'. apply udp_block_NULL_raises. }
  discriminate.
Qed.

End Raises.

(** The tuples of a listing that was handed back all satisfy [Q], when
    [Q] holds of the tuple of any listed row of a wanted table. *)
Lemma net_connections_Forall (Q : conn -> Prop)
    open_process get_exit_code tcp_call udp_call alloc
    fuel pid af_filter type_filter st l st' :
  (forall family row,
     contains af_filter family = true ->
     contains type_filter SOCK_STREAM = true ->
     listed (to_DWORD pid) (dwOwningPid row) -> Q (tcp_conn family row)) ->
  (forall family row,
     contains af_filter family = true ->
     contains type_filter SOCK_DGRAM = true ->
     listed (to_DWORD pid) (udp_dwOwningPid row) -> Q (udp_conn family row)) ->
  psutil_net_connections open_process get_exit_code tcp_call udp_call alloc
    fuel pid af_filter type_filter st = Some (NetList l, st') ->
  Forall Q l.
Proof.
  intros Qt Qu R. unfold psutil_net_connections in R.
  destruct (negb (to_DWORD pid =? ALL_PIDS)).
  - destruct (Windows.psutil_pid_is_running _ _ _ _) as [status st1].
    destruct (status =? 0); [discriminate |].
    eapply net_connections_tables_Forall; [exact Qt | exact Qu | exact R].
  - eapply net_connections_tables_Forall; [exact Qt | exact Qu | exact R].
Qed.

(** X4.  When [psutil_net_connections] is asked for one process (a pid
    other than -1), every tuple of the list it returns carries that pid,
    read as an unsigned long. *)
Theorem net_connections_lists_only_the_pid :
  forall open_process get_exit_code tcp_call udp_call alloc
         fuel pid af_filter type_filter st l st',
    to_DWORD pid <> ALL_PIDS ->
    psutil_net_connections open_process get_exit_code tcp_call udp_call alloc
      fuel pid af_filter type_filter st = Some (NetList l, st') ->
    Forall (fun c => c_pid c = to_DWORD pid) l.
Proof.
  intros op ge tc uc al fuel pid af ty st l st' Hpid R.
  eapply net_connections_Forall; [| | exact R].
  - intros family row _ _ [A | O]; [contradiction | exact O].
  - intros family row _ _ [A | O]; [contradiction | exact O].
Qed.

Lemma net_connections_lists_only_the_pid_witness :
  exists l st',
    psutil_net_connections Scenario.open_any Scenario.exit_still_active
      Sample.tcp_tables Sample.udp_tables Scenario.alloc_always
      2 612 [AF_INET; AF_INET6] [SOCK_STREAM; SOCK_DGRAM] init_state
    = Some (NetList l, st') /\
    l <> [] /\ Forall (fun c => c_pid c = to_DWORD 612) l.
Proof.
  eexists. eexists. split; [reflexivity |]. split; [discriminate |].
  eapply (net_connections_lists_only_the_pid
           Scenario.open_any Scenario.exit_still_active
           Sample.tcp_tables Sample.udp_tables Scenario.alloc_always
           2 612 [AF_INET; AF_INET6] [SOCK_STREAM; SOCK_DGRAM] init_state).
  - discriminate.
  - reflexivity.
Defined.

(** X5.  Every tuple of the list [psutil_net_connections] returns has
    its family in [af_filter] and its type in [type_filter]: a table
    whose family or type is not wanted contributes nothing. *)
Theorem net_connections_respects_filters :
  forall open_process get_exit_code tcp_call udp_call alloc
         fuel pid af_filter type_filter st l st',
    psutil_net_connections open_process get_exit_code tcp_call udp_call alloc
      fuel pid af_filter type_filter st = Some (NetList l, st') ->
    Forall (fun c => In (c_family c) af_filter /\ In (c_type c) type_filter) l.
Proof.
  intros op ge tc uc al fuel pid af ty st l st' R.
  eapply net_connections_Forall; [| | exact R].
  - intros family row Ha Ht _. split; apply contains_In; assumption.
  - intros family row Ha Ht _. split; apply contains_In; assumption.
Qed.

Lemma net_connections_respects_filters_witness :
  exists l st',
    psutil_net_connections Scenario.open_any Scenario.exit_still_active
      Sample.tcp_tables Sample.udp_tables Scenario.alloc_always
      2 (-1) [AF_INET] [SOCK_DGRAM] init_state
    = Some (NetList l, st') /\
    l <> [] /\
    Forall (fun c => In (c_family c) [AF_INET] /\ In (c_type c) [SOCK_DGRAM]) l.
Proof.
  eexists. eexists. split; [reflexivity |]. split; [discriminate |].
  eapply (net_connections_respects_filters
           Scenario.open_any Scenario.exit_still_active
           Sample.tcp_tables Sample.udp_tables Scenario.alloc_always
           2 (-1) [AF_INET] [SOCK_DGRAM] init_state).
  reflexivity.
Defined.

(** X6.  In the list [psutil_net_connections] returns, a tuple whose
    status is LISTEN has the empty remote address, whatever the table
    row held, and a UDP tuple has the empty remote address and the
    status [PSUTIL_CONN_NONE]. *)
Theorem net_connections_listen_has_no_remote_address :
  forall open_process get_exit_code tcp_call udp_call alloc
         fuel pid af_filter type_filter st l st',
    psutil_net_connections open_process get_exit_code tcp_call udp_call alloc
      fuel pid af_filter type_filter st = Some (NetList l, st') ->
    Forall (fun c =>
              (c_status c = MIB_TCP_STATE_LISTEN -> c_raddr c = None) /\
              (c_type c = SOCK_DGRAM ->
               c_raddr c = None /\ c_status c = PSUTIL_CONN_NONE)) l.
Proof.
  intros op ge tc uc al fuel pid af ty st l st' R.
  eapply net_connections_Forall; [| | exact R].
  - intros family row _ _ _. split.
    + simpl. intros E. rewrite E, Z.eqb_refl, andb_false_r. reflexivity.
    + simpl. discriminate.
  - intros family row _ _ _. split.
    + simpl. discriminate.
    + intros _. split; reflexivity.
Qed.

Lemma net_connections_listen_has_no_remote_address_witness :
  exists l st',
    psutil_net_connections Scenario.open_any Scenario.exit_still_active
      Sample.tcp_tables Sample.udp_tables Scenario.alloc_always
      2 612 [AF_INET; AF_INET6] [SOCK_STREAM; SOCK_DGRAM] init_state
    = Some (NetList l, st') /\
    Exists (fun c => c_status c = MIB_TCP_STATE_LISTEN) l /\
    Forall (fun c =>
              (c_status c = MIB_TCP_STATE_LISTEN -> c_raddr c = None) /\
              (c_type c = SOCK_DGRAM ->
               c_raddr c = None /\ c_status c = PSUTIL_CONN_NONE)) l.
Proof.
  eexists. eexists. split; [reflexivity |].
  split; [apply Exists_cons_hd; reflexivity |].
  eapply (net_connections_listen_has_no_remote_address
           Scenario.open_any Scenario.exit_still_active
           Sample.tcp_tables Sample.udp_tables Scenario.alloc_always
           2 612 [AF_INET; AF_INET6] [SOCK_STREAM; SOCK_DGRAM] init_state).
  reflexivity.
Defined.

(** X7.  Whenever [psutil_net_connections] returns NULL an exception is
    pending, and it is this one: NoSuchProcess, set on the state
    [psutil_pid_is_running] left, when a pid other than -1 was asked
    for and [psutil_pid_is_running] answered 0; otherwise the exception
    of the error code a table helper returned, which is not
    [NO_ERROR]: MemoryError for [ERROR_NOT_ENOUGH_MEMORY], the
    WindowsError of that code for any other. *)
Theorem net_connections_NULL_sets_exception :
  forall open_process get_exit_code tcp_call udp_call alloc
         fuel pid af_filter type_filter st st',
    psutil_net_connections open_process get_exit_code tcp_call udp_call alloc
      fuel pid af_filter type_filter st = Some (NetNULL, st') ->
    (to_DWORD pid <> ALL_PIDS /\
     fst (Windows.psutil_pid_is_running open_process get_exit_code
            (to_DWORD pid) st) = 0 /\
     st' = NoSuchProcess
             (snd (Windows.psutil_pid_is_running open_process get_exit_code
                     (to_DWORD pid) st))) \/
    (exists error st1,
       table_helper_returned tcp_call udp_call alloc fuel error st1 /\
       error <> NO_ERROR /\
       st' = set_exc (table_exception error) st1).
Proof.
  intros op ge tc uc al fuel pid af ty st st' R.
  unfold psutil_net_connections in R.
  destruct (Z.eqb_spec (to_DWORD pid) ALL_PIDS) as [A | A]; cbn [negb] in R.
  - right. eapply net_connections_tables_NULL_raises. exact R.
  - destruct (Windows.psutil_pid_is_running op ge (to_DWORD pid) st)
      as [status st1].
    destruct (Z.eqb_spec status 0) as [Z | Z].
    + injection R as <-. left. split; [exact A |]. split; [exact Z |].
      reflexivity.
    + right. eapply net_connections_tables_NULL_raises. exact R.
Qed.

(** A pid that does not open: NoSuchProcess, no table having been
    asked for. *)
Lemma net_connections_NULL_sets_exception_witness :
  exists st',
    psutil_net_connections Scenario.open_none Scenario.exit_still_active
      Sample.tcp_tables Sample.udp_tables Scenario.alloc_always
      2 612 [AF_INET] [SOCK_STREAM] init_state = Some (NetNULL, st') /\
    pyerr st' = Some (OSError ESRCH) /\
    count_events is_table_fetch (calls st') = O.
Proof.
  eexists. split; [reflexivity |].
  destruct (net_connections_NULL_sets_exception
              Scenario.open_none Scenario.exit_still_active
              Sample.tcp_tables Sample.udp_tables Scenario.alloc_always
              2 612 [AF_INET] [SOCK_STREAM] init_state _ eq_refl)
    as [(_ & _ & E) | (error & st1 & _ & _ & E)].
  - split; reflexivity.
  - split; reflexivity.
Defined.

(** The other way out: the TCP table cannot be had ("access denied"),
    and the WindowsError of that code is set. *)
Example net_connections_table_error :
  exists st',
    psutil_net_connections Scenario.open_any Scenario.exit_still_active
      (fun _ _ _ _ => (ERROR_ACCESS_DENIED, 0, [])) Sample.udp_tables
      Scenario.alloc_always 2 (-1) [AF_INET] [SOCK_STREAM] init_state
    = Some (NetNULL, st') /\
    pyerr st' = Some (WindowsError ERROR_ACCESS_DENIED).
Proof. eexists. split; reflexivity. Qed.

End WindowsNetSpec.

(** ** Argument blocks: arch/bsd/netbsd.c and arch/osx/process_info.c *)

Module ArgsSpec.

Lemma c_strlen_nul_free a rest :
  nul_free a -> c_strlen (a ++ 0 :: rest) = Some (List.length a).
Proof.
  induction 1 as [| c a Hc Ha IH]; simpl.
  - reflexivity.
  - destruct (Z.eqb_spec c 0) as [E | E]; [contradiction |].
    rewrite IH. reflexivity.
Qed.

Lemma c_string_nul_free a rest :
  nul_free a -> c_string (a ++ 0 :: rest) = Some a.
Proof.
  intros H. unfold c_string. rewrite c_strlen_nul_free by exact H. simpl.
  f_equal. rewrite firstn_app, firstn_all, Nat.sub_diag. simpl.
  apply app_nil_r.
Qed.

Lemma nul_terminated_cons a args :
  nul_terminated (a :: args) = a ++ 0 :: nul_terminated args.
Proof.
  unfold nul_terminated. simpl. rewrite <- app_assoc. reflexivity.
Qed.

Lemma nul_terminated_length args :
  (List.length args <= List.length (nul_terminated args))%nat.
Proof.
  induction args as [| a args IH]; [apply Nat.le_refl |].
  rewrite nul_terminated_cons, length_app. simpl. lia.
Qed.

(** *** NetBSD *)

Lemma cmdline_loop_step fuel argstr pos argsize py_retlist s :
  (pos < argsize)%nat ->
  c_string (skipn pos argstr) = Some s ->
  NetBSDArgs.cmdline_loop (S fuel) argstr pos argsize py_retlist
  = NetBSDArgs.cmdline_loop fuel argstr (pos + List.length s + 1) argsize
      (py_retlist ++ [s]).
Proof.
  intros L S. simpl. apply Nat.ltb_lt in L. rewrite L, S. reflexivity.
Qed.

Lemma cmdline_loop_done fuel argstr pos argsize py_retlist :
  (argsize <= pos)%nat ->
  NetBSDArgs.cmdline_loop fuel argstr pos argsize py_retlist
  = Some (ArgsList py_retlist).
Proof.
  intros L. apply Nat.ltb_ge in L. destruct fuel; simpl; rewrite L; reflexivity.
Qed.

Lemma cmdline_loop_args args :
  Forall nul_free args ->
  forall fuel before tail py_retlist,
    (List.length args <= fuel)%nat ->
    NetBSDArgs.cmdline_loop fuel (before ++ nul_terminated args ++ tail)
      (List.length before)
      (List.length before + List.length (nul_terminated args)) py_retlist
    = Some (ArgsList (py_retlist ++ args)).
Proof.
  induction 1 as [| a args Ha Hargs IH]; intros fuel before tail acc Hfuel.
  - rewrite cmdline_loop_done by (simpl; lia). rewrite app_nil_r. reflexivity.
  - destruct fuel as [| fuel]; [simpl in Hfuel; lia |].
    rewrite nul_terminated_cons.
    assert (L : List.length (a ++ 0 :: nul_terminated args)
                = (List.length a + 1 + List.length (nul_terminated args))%nat).
    { rewrite length_app. simpl. lia. }
    rewrite L.
    rewrite (cmdline_loop_step fuel _ _ _ acc a).
    + assert (A : before ++ (a ++ 0 :: nul_terminated args) ++ tail
                  = (before ++ a ++ [0]) ++ nul_terminated args ++ tail).
      { rewrite <- !app_assoc. reflexivity. }
      assert (P : (List.length before + List.length a + 1)%nat
                  = List.length (before ++ a ++ [0])).
      { rewrite !length_app. simpl. lia. }
      assert (Z : (List.length before
                   + (List.length a + 1 + List.length (nul_terminated args)))%nat
                  = (List.length (before ++ a ++ [0%Z])
                     + List.length (nul_terminated args))%nat).
      { rewrite <- P. lia. }
      rewrite A, P, Z, IH by (simpl in Hfuel; lia).
      rewrite <- app_assoc. reflexivity.
    + lia.
    + rewrite skipn_app, skipn_all, Nat.sub_diag. simpl skipn.
      rewrite app_nil_l, <- app_assoc. simpl app.
      apply c_string_nul_free. exact Ha.
Qed.

Lemma split_args_nul_terminated args tail :
  Forall nul_free args ->
  NetBSDArgs.split_args (nul_terminated args) tail = ArgsList args.
Proof.
  intros H. unfold NetBSDArgs.split_args.
  pose proof (cmdline_loop_args args H (List.length (nul_terminated args)) []
                tail [] (nul_terminated_length args)) as E.
  simpl in E. rewrite E. reflexivity.
Qed.

(** X8.  NetBSD: when the kernel answers with the arguments of the
    process one after the other, each followed by its NUL,
    [psutil_get_cmdline] returns exactly these arguments, in order,
    whatever the rest of the buffer holds, and sets no exception. *)
Theorem netbsd_get_cmdline_round_trip :
  forall kern_argmax kern_proc_args alloc pid st len argmax args tail,
    pid <> 0 ->
    kern_argmax (now st) = SysOk len argmax ->
    (forall t b, alloc t b = true) ->
    (forall t, kern_proc_args t pid argmax
               = ProcargsOk (nul_terminated args) tail) ->
    Forall nul_free args ->
    exists st',
      NetBSDArgs.psutil_get_cmdline kern_argmax kern_proc_args alloc pid st
      = (ArgsList args, st') /\
      pyerr st' = pyerr st.
Proof.
  intros ka kp alloc pid st len argmax args tail Hpid Hmax Halloc Hargs Hfree.
  unfold NetBSDArgs.psutil_get_cmdline, NetBSDArgs.psutil_get_cmd_args.
  destruct (Z.eqb_spec pid 0) as [E | _]; [contradiction |].
  rewrite Hmax. rewrite c_alloc_true by apply Halloc. simpl negb. cbv iota.
  rewrite Hargs, split_args_nul_terminated by exact Hfree.
  eexists. split; reflexivity.
Qed.

Lemma netbsd_get_cmdline_round_trip_witness :
  exists st',
    NetBSDArgs.psutil_get_cmdline Sample.netbsd_argmax Sample.netbsd_proc_args
      Scenario.alloc_always 731 init_state = (ArgsList Sample.ls_l, st') /\
    pyerr st' = pyerr init_state.
Proof.
  apply (netbsd_get_cmdline_round_trip Sample.netbsd_argmax
           Sample.netbsd_proc_args Scenario.alloc_always 731 init_state
           8 262144 Sample.ls_l [255; 255]).
  - discriminate.
  - reflexivity.
  - intros t b. reflexivity.
  - intros t. reflexivity.
  - repeat constructor; discriminate.
Defined.

(** *** macOS *)

Lemma scan_args_one a :
  nul_free a ->
  forall rest nargs curr_arg,
    0 < nargs ->
    OSXArgs.scan_args (a ++ 0 :: rest) nargs curr_arg
    = (curr_arg ++ a) :: OSXArgs.scan_args rest (nargs - 1) [].
Proof.
  induction 1 as [| c a Hc Ha IH]; intros rest nargs cur Hn; simpl.
  - destruct (Z.leb_spec nargs 0) as [L | _]; [lia |].
    rewrite app_nil_r. reflexivity.
  - destruct (Z.leb_spec nargs 0) as [L | _]; [lia |].
    destruct (Z.eqb_spec c 0) as [E | _]; [contradiction |].
    rewrite IH by exact Hn. rewrite <- app_assoc. reflexivity.
Qed.

Lemma scan_args_all args :
  Forall nul_free args ->
  forall env,
    OSXArgs.scan_args (nul_terminated args ++ env)
      (Z.of_nat (List.length args)) [] = args.
Proof.
  induction 1 as [| a args Ha Hargs IH]; intros env.
  - simpl. destruct env; reflexivity.
  - rewrite nul_terminated_cons, <- app_assoc. simpl app.
    rewrite scan_args_one by (exact Ha || (simpl List.length; lia)).
    simpl app. f_equal.
    replace (Z.of_nat (List.length (a :: args)) - 1)
      with (Z.of_nat (List.length args)) by (simpl List.length; lia).
    apply IH.
Qed.

Lemma skip_nul_padding padding rest :
  Forall (fun c => c = 0) padding ->
  OSXArgs.skip_nul (padding ++ rest) = OSXArgs.skip_nul rest.
Proof.
  induction 1 as [| c padding Hc Hp IH]; simpl.
  - reflexivity.
  - subst c. simpl. exact IH.
Qed.

Lemma skip_nul_stops c rest :
  c <> 0 -> OSXArgs.skip_nul (c :: rest) = c :: rest.
Proof.
  intros H. simpl. destruct (Z.eqb_spec c 0); [contradiction | reflexivity].
Qed.

(** X9.  macOS: for a block laid out as the kernel does (the count of
    arguments, the path of the executable, NUL padding, the arguments
    each followed by its NUL, then the environment),
    [psutil_get_cmdline] returns exactly the arguments, and none of the
    environment, provided the first argument is not the empty string. *)
Theorem osx_get_cmdline_round_trip :
  forall kern_argmax kern_procargs2 alloc kill pid st len argmax
         b0 b1 b2 b3 exe padding c arg0 args env tail,
    pid <> 0 ->
    kern_argmax (now st) = SysOk len argmax ->
    to_size_t (to_int argmax) <> 0 ->
    (forall t b, alloc t b = true) ->
    (forall t cap,
       kern_procargs2 t (to_pid_t pid) cap
       = ProcargsOk
           (b0 :: b1 :: b2 :: b3 :: exe ++ 0 :: padding
              ++ nul_terminated ((c :: arg0) :: args) ++ env)
           tail) ->
    OSXArgs.read_int b0 b1 b2 b3 = Z.of_nat (List.length ((c :: arg0) :: args)) ->
    nul_free exe ->
    Forall (fun z => z = 0) padding ->
    Forall nul_free ((c :: arg0) :: args) ->
    exists st',
      OSXArgs.psutil_get_cmdline kern_argmax kern_procargs2 alloc kill pid st
      = (ArgsList ((c :: arg0) :: args), st') /\
      pyerr st' = pyerr st.
Proof.
  intros ka kp alloc kill pid st len argmax b0 b1 b2 b3 exe padding c arg0
    args env tail Hpid Hmax Hnz Halloc Hblock Hn Hexe Hpad Hargs.
  unfold OSXArgs.psutil_get_cmdline, OSXArgs.psutil_get_argmax.
  destruct (Z.eqb_spec pid 0) as [E | _]; [contradiction |].
  rewrite Hmax.
  destruct (Z.eqb_spec (to_size_t (to_int argmax)) 0) as [E | _];
    [contradiction |].
  rewrite c_alloc_true by apply Halloc. simpl negb. cbv iota.
  rewrite Hblock.
  eexists. split; [apply (f_equal2 pair); [| reflexivity] | reflexivity].
  unfold OSXArgs.parse_procargs.
  cbn [app]. rewrite Hn.
  rewrite <- app_assoc. cbn [app].
  rewrite c_strlen_nul_free by exact Hexe.
  set (rest := padding ++ nul_terminated ((c :: arg0) :: args) ++ env).
  assert (Hlen : List.length (b0 :: b1 :: b2 :: b3 :: exe ++ 0 :: rest)
                 = (4 + List.length exe + 1 + List.length rest)%nat).
  { simpl. rewrite length_app. simpl. lia. }
  assert (Hrest : (0 < List.length rest)%nat).
  { unfold rest. rewrite nul_terminated_cons, !length_app. simpl. lia. }
  destruct (Nat.eqb_spec (4 + List.length exe + 1)
              (List.length (b0 :: b1 :: b2 :: b3 :: exe ++ 0 :: rest)))
    as [E | _]; [lia |].
  f_equal.
  replace (4 + List.length exe + 1)%nat
    with (S (S (S (S (List.length exe + 1))))) by lia.
  cbn [skipn].
  replace (exe ++ 0 :: rest) with ((exe ++ [0]) ++ rest)
    by (rewrite <- app_assoc; reflexivity).
  rewrite skipn_app.
  replace (List.length exe + 1)%nat with (List.length (exe ++ [0]))
    by (rewrite length_app; reflexivity).
  rewrite skipn_all, Nat.sub_diag. cbn [skipn app].
  unfold rest. rewrite skip_nul_padding by exact Hpad.
  rewrite nul_terminated_cons.
  assert (Hc : c <> 0).
  { inversion Hargs as [| ? ? Ha _]. inversion Ha. assumption. }
  cbn [app]. rewrite skip_nul_stops by exact Hc.
  change (c :: (arg0 ++ 0 :: nul_terminated args) ++ env)
    with (((c :: arg0) ++ 0 :: nul_terminated args) ++ env).
  rewrite <- nul_terminated_cons.
  apply scan_args_all. exact Hargs.
Qed.

Lemma osx_get_cmdline_round_trip_witness :
  exists st',
    OSXArgs.psutil_get_cmdline Sample.osx_argmax Sample.osx_procargs2
      Scenario.alloc_always Scenario.kill_42_alive 731 init_state
    = (ArgsList Sample.ls_l, st') /\
    pyerr st' = pyerr init_state.
Proof.
  apply (osx_get_cmdline_round_trip Sample.osx_argmax Sample.osx_procargs2
           Scenario.alloc_always Scenario.kill_42_alive 731 init_state
           4 262144 2 0 0 0 Sample.bin_ls [0; 0; 0; 0] 108 [115] [[45; 108]]
           [65; 61; 49; 0] [255; 255]).
  - discriminate.
  - reflexivity.
  - discriminate.
  - intros t b. reflexivity.
  - intros t cap. reflexivity.
  - reflexivity.
  - repeat constructor; discriminate.
  - repeat constructor.
  - repeat constructor; discriminate.
Defined.

(** X10.  macOS: when the [KERN_PROCARGS2] sysctl fails,
    [psutil_get_cmdline] returns NULL; with [EINVAL] it sets
    AccessDenied or NoSuchProcess, but with any other [errno] it sets
    no exception at all: the pending exception is what it was. *)
Theorem osx_get_cmdline_sysctl_failure :
  forall kern_argmax kern_procargs2 alloc kill pid st len argmax e,
    pid <> 0 ->
    kern_argmax (now st) = SysOk len argmax ->
    to_size_t (to_int argmax) <> 0 ->
    (forall t b, alloc t b = true) ->
    (forall t cap, kern_procargs2 t (to_pid_t pid) cap = ProcargsErr e) ->
    exists st',
      OSXArgs.psutil_get_cmdline kern_argmax kern_procargs2 alloc kill pid st
      = (ArgsNULL, st') /\
      (e <> EINVAL -> pyerr st' = pyerr st) /\
      (e = EINVAL ->
       pyerr st' = Some (OSError EACCES) \/ pyerr st' = Some (OSError ESRCH)).
Proof.
  intros ka kp alloc kill pid st len argmax e Hpid Hmax Hnz Halloc Hfail.
  unfold OSXArgs.psutil_get_cmdline, OSXArgs.psutil_get_argmax.
  destruct (Z.eqb_spec pid 0) as [E | _]; [contradiction |].
  rewrite Hmax.
  destruct (Z.eqb_spec (to_size_t (to_int argmax)) 0) as [E | _];
    [contradiction |].
  rewrite c_alloc_true by apply Halloc. simpl negb. cbv iota.
  rewrite Hfail. simpl errno.
  destruct (Z.eqb_spec e EINVAL) as [E | N].
  - destruct (Common.psutil_pid_exists _ _ _ _) as [r st5].
    destruct (negb (r =? 0)); eexists;
      (split; [reflexivity | split; [contradiction |]]); intros _.
    + left. reflexivity.
    + right. reflexivity.
  - eexists. split; [reflexivity |]. split; [| contradiction].
    intros _. reflexivity.
Qed.

Lemma osx_get_cmdline_sysctl_failure_witness :
  exists st',
    OSXArgs.psutil_get_cmdline Sample.osx_argmax Sample.osx_procargs2_eio
      Scenario.alloc_always Scenario.kill_42_alive 731 init_state
    = (ArgsNULL, st') /\
    pyerr st' = None.
Proof.
  destruct (osx_get_cmdline_sysctl_failure Sample.osx_argmax
              Sample.osx_procargs2_eio Scenario.alloc_always
              Scenario.kill_42_alive 731 init_state 4 262144 5)
    as (st' & R & H & _).
  - discriminate.
  - reflexivity.
  - discriminate.
  - intros t b. reflexivity.
  - intros t cap. reflexivity.
  - exists st'. split; [exact R |]. apply H. discriminate.
Defined.

(** [psutil_raise_for_pid] returns 0 and leaves an exception pending. *)
Lemma raise_for_pid_raises pf kill pid msg st :
  fst (Common.psutil_raise_for_pid pf kill pid msg st) = 0 /\
  pyerr (snd (Common.psutil_raise_for_pid pf kill pid msg st)) <> None.
Proof.
  unfold Common.psutil_raise_for_pid.
  destruct (negb (errno st =? 0)); [split; [reflexivity | discriminate] |].
  destruct (Common.psutil_pid_exists pf kill pid st) as [r st1].
  destruct (r =? 0); split; (reflexivity || discriminate).
Qed.

(** X11.  macOS: [psutil_proc_pidinfo] returns either 0 with an
    exception pending, or the byte count of [proc_pidinfo], which is
    then at least the size of a pointer, with the pending exception
    left as it was. *)
Theorem proc_pidinfo_protocol :
  forall kill proc_pidinfo pid size st,
    let r := OSXArgs.psutil_proc_pidinfo kill proc_pidinfo pid size st in
    (fst r = 0 /\ pyerr (snd r) <> None) \/
    (OSXArgs.sizeof_pti <= fst r /\
     fst r = fst (proc_pidinfo (now st) (to_int pid) size) /\
     pyerr (snd r) = pyerr st).
Proof.
  intros kill pp pid size st. unfold OSXArgs.psutil_proc_pidinfo.
  destruct (pp (now st) (to_int pid) size) as [ret en]. cbv zeta.
  destruct (Z.leb_spec ret 0) as [L | L]; simpl orb.
  - left.
    match goal with
    | |- context [Common.psutil_raise_for_pid ?a ?b ?c ?d ?e] =>
        pose proof (raise_for_pid_raises a b c d e) as [_ H];
        destruct (Common.psutil_raise_for_pid a b c d e) as [z s]
    end.
    split; [reflexivity | exact H].
  - destruct (Z.ltb_spec (to_size_t ret) OSXArgs.sizeof_pti) as [S | S].
    + left.
      match goal with
      | |- context [Common.psutil_raise_for_pid ?a ?b ?c ?d ?e] =>
          pose proof (raise_for_pid_raises a b c d e) as [_ H];
          destruct (Common.psutil_raise_for_pid a b c d e) as [z s]
      end.
      split; [reflexivity | exact H].
    + right. simpl fst. simpl snd. split; [| split; [reflexivity |]].
      * unfold to_size_t, uwrap, OSXArgs.sizeof_pti in *.
        change (2 ^ 64) with 18446744073709551616 in S.
        destruct (Z.lt_ge_cases ret 18446744073709551616) as [B | B];
          [rewrite Z.mod_small in S; lia | lia].
      * destruct en; reflexivity.
Qed.

End ArgsSpec.

(** ** Return values and the pending exception *)

Module ErrorProtocolSpec.

(** X12.  [psutil_pid_exists] answers -1 exactly when it sets an
    exception, which is then OSError with the [errno] of [kill], an
    [errno] other than [ESRCH] and [EPERM]; with any other answer the
    pending exception is left as it was. *)
Theorem pid_exists_error_protocol :
  forall pf kill pid st,
    let r := Common.psutil_pid_exists pf kill pid st in
    (fst r = -1 /\
     pyerr (snd r) = Some (OSError (errno (snd r))) /\
     kill (now st) (to_pid_t pid) 0 = Some (errno (snd r)) /\
     errno (snd r) <> ESRCH /\ errno (snd r) <> EPERM) \/
    ((fst r = 0 \/ fst r = 1) /\ pyerr (snd r) = pyerr st).
Proof.
  intros pf kill pid st. unfold Common.psutil_pid_exists.
  destruct (pid <? 0); [right; simpl; auto |].
  destruct (pid =? 0);
    [right; destruct (Common.linux_or_freebsd pf); simpl; auto |].
  destruct (kill (now st) (to_pid_t pid) 0) as [e |]; [| right; simpl; auto].
  destruct (Z.eqb_spec e ESRCH) as [S | S]; [right; simpl; auto |].
  destruct (Z.eqb_spec e EPERM) as [P | P]; [right; simpl; auto |].
  left. simpl. auto.
Qed.

(** X13.  Windows: [psutil_pid_is_running] answers -1 exactly when it
    sets an exception; with the answers 0 and 1 the pending exception
    is left as it was.  The exception is the WindowsError of the error
    of [GetExitCodeProcess], or, when [OpenProcess] failed, that of the
    [CloseHandle] of the NULL handle that follows it ("invalid
    handle"), whatever the error of [OpenProcess] was. *)
Theorem pid_is_running_error_protocol :
  forall open_process get_exit_code pid st,
    let r := Windows.psutil_pid_is_running open_process get_exit_code pid st in
    (fst r = -1 /\
     ((exists err,
         open_process (now st) pid = Windows.OpenFailed err /\
         err <> ERROR_INVALID_PARAMETER /\ err <> ERROR_ACCESS_DENIED /\
         pyerr (snd r) = Some (WindowsError Windows.ERROR_INVALID_HANDLE)) \/
      (exists h err,
         open_process (now st) pid = Windows.Opened h /\
         get_exit_code (now (log (EvOpenProcess pid) st)) h
         = Windows.ExitFailed err /\
         err <> ERROR_ACCESS_DENIED /\
         pyerr (snd r) = Some (WindowsError err)))) \/
    ((fst r = 0 \/ fst r = 1) /\ pyerr (snd r) = pyerr st).
Proof.
  intros op ge pid st. unfold Windows.psutil_pid_is_running.
  destruct (pid =? 0); [right; simpl; auto |].
  destruct (pid <? 0); [right; simpl; auto |].
  destruct (op (now st) pid) as [h | err].
  - destruct (ge (now (log (EvOpenProcess pid) st)) h) as [c | err] eqn:G.
    + right. destruct (c =? STILL_ACTIVE); simpl; auto.
    + simpl last_error.
      destruct (Z.eqb_spec err ERROR_ACCESS_DENIED) as [A | A];
        [right; simpl; auto |].
      left. split; [reflexivity |]. right. exists h, err.
      split; [reflexivity |]. split; [exact G |]. split; [exact A |].
      reflexivity.
  - simpl last_error.
    destruct (Z.eqb_spec err ERROR_INVALID_PARAMETER) as [P | P];
      [right; simpl; auto |].
    destruct (Z.eqb_spec err ERROR_ACCESS_DENIED) as [A | A];
      [right; simpl; auto |].
    left. split; [reflexivity |]. left. exists err.
    split; [reflexivity |]. split; [exact P |]. split; [exact A |].
    reflexivity.
Qed.

(** X14.  Windows: [psutil_handle_from_pid_waccess] hands back a handle
    exactly when the pid is not 0, [OpenProcess] gave that handle and
    [GetExitCodeProcess] stored an exit code other than 0 (be it
    [STILL_ACTIVE] or not); the pending exception is then left as it
    was, and with NULL an exception is pending. *)
Theorem handle_from_pid_waccess_protocol :
  forall open_process get_exit_code pid st,
    let r :=
      Windows.psutil_handle_from_pid_waccess open_process get_exit_code
        pid st in
    (forall h,
       fst r = Some h <->
       pid <> 0 /\ open_process (now st) pid = Windows.Opened h /\
       exists c,
         get_exit_code (now (log (EvOpenProcess pid) st)) h
         = Windows.ExitCode c /\ c <> 0) /\
    (fst r = None -> pyerr (snd r) <> None) /\
    (fst r <> None -> pyerr (snd r) = pyerr st).
Proof.
  intros op ge pid st. unfold Windows.psutil_handle_from_pid_waccess.
  destruct (Z.eqb_spec pid 0) as [Z | Z].
  { simpl. split; [| split].
    - intros h. split; [discriminate | intros [N _]; contradiction].
    - discriminate.
    - intros N. contradiction. }
  destruct (op (now st) pid) as [h0 | err].
  - destruct (ge (now (log (EvOpenProcess pid) st)) h0) as [c | err] eqn:G.
    + destruct (Z.eqb_spec c 0) as [C | C]; simpl; split; [| split | | split].
      * intros h. split; [discriminate |].
        intros (_ & O & c' & G' & N). injection O as <-.
        rewrite G in G'. injection G' as <-. contradiction.
      * discriminate.
      * intros N. contradiction.
      * intros h. split.
        -- intros E. injection E as <-. split; [exact Z |].
           split; [reflexivity |]. exists c. split; [exact G | exact C].
        -- intros (_ & O & _). injection O as <-. reflexivity.
      * discriminate.
      * intros _. reflexivity.
    + simpl. split; [| split].
      * intros h. split; [discriminate |].
        intros (_ & O & c' & G' & N). injection O as <-.
        rewrite G in G'. discriminate.
      * discriminate.
      * intros N. contradiction.
  - simpl last_error.
    destruct (err =? ERROR_INVALID_PARAMETER); simpl; (split; [| split]);
      try discriminate; try (intros N; contradiction);
      intros h; (split; [discriminate |]);
      intros (_ & O & _); discriminate.
Qed.

End ErrorProtocolSpec.

(** ** arch/bsd/openbsd.c and arch/bsd/netbsd.c: the swap counters *)

Module SwapTotalsSpec.

Lemma uwrap_small w x : 0 <= x < 2 ^ w -> uwrap w x = x.
Proof. intros H. unfold uwrap. now apply Z.mod_small. Qed.

Lemma swrap_small x : - 2 ^ 63 <= x < 2 ^ 63 -> swrap 64 x = x.
Proof.
  intros H. unfold swrap.
  change (2 ^ (64 - 1)) with 9223372036854775808 in *.
  change (2 ^ 64) with 18446744073709551616.
  change (2 ^ 63) with 9223372036854775808 in H.
  rewrite Z.mod_small; lia.
Qed.

Lemma to_int_small x : - 2 ^ 31 <= x < 2 ^ 31 -> to_int x = x.
Proof.
  intros H. unfold to_int, swrap.
  change (2 ^ (32 - 1)) with 2147483648 in *.
  change (2 ^ 32) with 4294967296.
  change (2 ^ 31) with 2147483648 in H.
  rewrite Z.mod_small; lia.
Qed.

(** Signed 64-bit conversion is additive modulo 2^64. *)
Lemma swrap_add a b : swrap 64 (swrap 64 a + swrap 64 b) = swrap 64 (a + b).
Proof.
  unfold swrap. change (2 ^ (64 - 1)) with 9223372036854775808.
  change (2 ^ 64) with 18446744073709551616.
  set (H := 9223372036854775808). set (M := 18446744073709551616).
  f_equal.
  replace ((a + H) mod M - H + ((b + H) mod M - H) + H)
    with ((a + H) mod M + ((b + H) mod M - H)) by lia.
  rewrite Z.add_mod_idemp_l by (unfold M; lia).
  replace (a + H + ((b + H) mod M - H)) with ((b + H) mod M + a) by lia.
  rewrite Z.add_mod_idemp_l by (unfold M; lia).
  f_equal. lia.
Qed.

Lemma blocks_total_cons d l :
  blocks_total (d :: l)
  = (if swap_enabled d then se_nblks d else 0) + blocks_total l.
Proof.
  unfold blocks_total. simpl filter. destruct (swap_enabled d); reflexivity.
Qed.

Lemma blocks_free_cons d l :
  blocks_free (d :: l)
  = (if swap_enabled d then se_nblks d - se_inuse d else 0) + blocks_free l.
Proof.
  unfold blocks_free. simpl filter. destruct (swap_enabled d); reflexivity.
Qed.

Lemma blocks_free_bounds l bound :
  Forall (device_ok bound) l -> 0 <= blocks_free l <= blocks_total l.
Proof.
  induction 1 as [| d l [Hd Hb] Hl IH].
  - unfold blocks_free, blocks_total. simpl. lia.
  - rewrite blocks_free_cons, blocks_total_cons.
    destruct (swap_enabled d); lia.
Qed.

Lemma openbsd_total_up l :
  Forall (device_ok (2 ^ 31)) l ->
  forall swap_total swap_free,
    0 <= swap_free <= swap_total ->
    swap_total + blocks_total l < 2 ^ 64 ->
    OpenBSD.total_up l swap_total swap_free
    = (swap_total + blocks_total l, swap_free + blocks_free l).
Proof.
  induction 1 as [| d l [Hd Hb] Hl IH]; intros t f Hf Ht.
  - unfold blocks_total, blocks_free. simpl. f_equal; lia.
  - pose proof (blocks_free_bounds l _ Hl) as B.
    rewrite blocks_total_cons in *. rewrite blocks_free_cons.
    simpl OpenBSD.total_up. fold (swap_enabled d).
    destruct (swap_enabled d).
    + rewrite to_int_small by lia.
      rewrite (uwrap_small 64 (t + se_nblks d)) by lia.
      rewrite (uwrap_small 64 (f + (se_nblks d - se_inuse d))) by lia.
      rewrite IH by lia. f_equal; lia.
    + rewrite IH by lia. f_equal; lia.
Qed.

Lemma netbsd_total_up l :
  Forall (device_ok (2 ^ 22)) l ->
  forall swap_total swap_free,
    0 <= swap_free <= swap_total ->
    swap_total + 512 * blocks_total l < 2 ^ 64 ->
    NetBSD.total_up l swap_total swap_free
    = (swap_total + 512 * blocks_total l, swap_free + 512 * blocks_free l).
Proof.
  induction 1 as [| d l [Hd Hb] Hl IH]; intros t f Hf Ht.
  - unfold blocks_total, blocks_free. simpl. f_equal; lia.
  - pose proof (blocks_free_bounds l _ Hl) as B.
    rewrite blocks_total_cons in *. rewrite blocks_free_cons.
    simpl NetBSD.total_up. fold (swap_enabled d). unfold DEV_BSIZE.
    change (2 ^ 22) with 4194304 in Hb.
    destruct (swap_enabled d).
    + rewrite (to_int_small (se_nblks d - se_inuse d))
        by (change (2 ^ 31) with 2147483648; lia).
      rewrite (to_int_small (se_nblks d * 512))
        by (change (2 ^ 31) with 2147483648; lia).
      rewrite (to_int_small ((se_nblks d - se_inuse d) * 512))
        by (change (2 ^ 31) with 2147483648; lia).
      rewrite (uwrap_small 64 (t + se_nblks d * 512)) by lia.
      rewrite (uwrap_small 64 (f + (se_nblks d - se_inuse d) * 512)) by lia.
      rewrite IH by lia. f_equal; lia.
    + rewrite IH by lia. f_equal; lia.
Qed.

(** X15.  OpenBSD: when the devices' block counts are sound and the
    total stays below 2^63 bytes, [psutil_swap_mem] returns, in bytes,
    the blocks of the enabled devices, those in use and those free,
    each times [DEV_BSIZE]; devices that are not enabled count for
    nothing, and swap-in and swap-out are 0. *)
Theorem openbsd_swap_mem_totals :
  forall sizeof_swapent swapctl_nswap swapctl_stats alloc st nswap len swdev,
    swapctl_nswap (now st) = Ret nswap ->
    nswap <> 0 ->
    (forall t b, alloc t b = true) ->
    (forall t, swapctl_stats t nswap = SysOk len swdev) ->
    Forall (device_ok (2 ^ 31)) (elements swdev nswap) ->
    DEV_BSIZE * blocks_total (elements swdev nswap) < 2 ^ 63 ->
    fst (OpenBSD.psutil_swap_mem sizeof_swapent swapctl_nswap swapctl_stats
           alloc st)
    = SwapTuple
        (DEV_BSIZE * blocks_total (elements swdev nswap))
        (DEV_BSIZE * (blocks_total (elements swdev nswap)
                      - blocks_free (elements swdev nswap)))
        (DEV_BSIZE * blocks_free (elements swdev nswap))
        0 0.
Proof.
  intros sz sn ss alloc st nswap len swdev Hn Hnz Halloc Hstats Hdev Hsmall.
  unfold OpenBSD.psutil_swap_mem. rewrite Hn.
  destruct (Z.eqb_spec nswap 0) as [E | _]; [contradiction |].
  rewrite c_alloc_true by apply Halloc. simpl negb. cbv iota.
  rewrite Hstats.
  pose proof (blocks_free_bounds _ _ Hdev) as B.
  unfold DEV_BSIZE in *. change (2 ^ 63) with 9223372036854775808 in Hsmall.
  rewrite openbsd_total_up
    by (try exact Hdev; change (2 ^ 64) with 18446744073709551616; lia).
  cbn [fst].
  rewrite !swrap_small by (change (2 ^ 63) with 9223372036854775808; lia).
  f_equal; lia.
Qed.

Lemma openbsd_swap_mem_totals_witness :
  fst (OpenBSD.psutil_swap_mem 40 Sample.swapctl_two_devices
         Sample.swapctl_stats_two Scenario.alloc_always init_state)
  = SwapTuple 1073741824 524288 1073217536 0 0.
Proof.
  apply (openbsd_swap_mem_totals 40 Sample.swapctl_two_devices
           Sample.swapctl_stats_two Scenario.alloc_always init_state 2 2
           (fun i => nth i Sample.swap_devices (mkSwapent 0 0 0))).
  - reflexivity.
  - discriminate.
  - intros t b. reflexivity.
  - intros t. reflexivity.
  - repeat constructor; simpl; lia.
  - reflexivity.
Defined.

(** X16.  NetBSD: under the same conditions, with devices below 2^22
    blocks (the products are computed in [int]), [psutil_swap_mem]
    returns the same three byte counts, and the pages swapped in and
    out times the page size. *)
Theorem netbsd_swap_mem_totals :
  forall sizeof_swapent swapctl_nswap swapctl_stats uvmexp2 pagesize alloc st
         nswap len swdev len' pgswapin pgswapout,
    swapctl_nswap (now st) = Ret nswap ->
    nswap <> 0 ->
    (forall t b, alloc t b = true) ->
    (forall t, swapctl_stats t nswap = SysOk len swdev) ->
    (forall t, uvmexp2 t = SysOk len' (pgswapin, pgswapout)) ->
    Forall (device_ok (2 ^ 22)) (elements swdev nswap) ->
    DEV_BSIZE * blocks_total (elements swdev nswap) < 2 ^ 63 ->
    0 <= pgswapin * pagesize < 2 ^ 63 ->
    0 <= pgswapout * pagesize < 2 ^ 63 ->
    fst (NetBSD.psutil_swap_mem sizeof_swapent swapctl_nswap swapctl_stats
           uvmexp2 pagesize alloc st)
    = SwapTuple
        (DEV_BSIZE * blocks_total (elements swdev nswap))
        (DEV_BSIZE * (blocks_total (elements swdev nswap)
                      - blocks_free (elements swdev nswap)))
        (DEV_BSIZE * blocks_free (elements swdev nswap))
        (pgswapin * pagesize) (pgswapout * pagesize).
Proof.
  intros sz sn ss uv pagesize alloc st nswap len swdev len' pin pout
    Hn Hnz Halloc Hstats Huv Hdev Hsmall Hin Hout.
  unfold NetBSD.psutil_swap_mem. rewrite Hn.
  destruct (Z.eqb_spec nswap 0) as [E | _]; [contradiction |].
  rewrite c_alloc_true by apply Halloc. simpl negb. cbv iota.
  rewrite Hstats.
  pose proof (blocks_free_bounds _ _ Hdev) as B.
  change (2 ^ 63) with 9223372036854775808 in Hsmall.
  rewrite netbsd_total_up
    by (try exact Hdev; unfold DEV_BSIZE in *;
        change (2 ^ 64) with 18446744073709551616; lia).
  rewrite Huv. cbn [fst].
  rewrite (swrap_small (pin * pagesize)) by lia.
  rewrite (swrap_small (pout * pagesize)) by lia.
  unfold DEV_BSIZE in *.
  rewrite !swrap_small by (change (2 ^ 63) with 9223372036854775808; lia).
  f_equal; lia.
Qed.

Lemma netbsd_swap_mem_totals_witness :
  fst (NetBSD.psutil_swap_mem 40 Sample.swapctl_two_devices
         Sample.swapctl_stats_two Sample.uvmexp2_busy 4096
         Scenario.alloc_always init_state)
  = SwapTuple 1073741824 524288 1073217536 28672 36864.
Proof.
  apply (netbsd_swap_mem_totals 40 Sample.swapctl_two_devices
           Sample.swapctl_stats_two Sample.uvmexp2_busy 4096
           Scenario.alloc_always init_state 2 2
           (fun i => nth i Sample.swap_devices (mkSwapent 0 0 0)) 0 7 9).
  - reflexivity.
  - discriminate.
  - intros t b. reflexivity.
  - intros t. reflexivity.
  - intros t. reflexivity.
  - repeat constructor; simpl; lia.
  - reflexivity.
  - split; [discriminate | reflexivity].
  - split; [discriminate | reflexivity].
Defined.

(** X17.  On both systems, whatever the devices and whatever wraps
    around, the tuple [psutil_swap_mem] returns is consistent modulo
    2^64: used plus free, read as a signed 64-bit integer, is the
    total. *)
Theorem swap_mem_used_plus_free_is_total :
  forall sizeof_swapent swapctl_nswap swapctl_stats uvmexp2 pagesize alloc st
         total used free sin sout,
    fst (NetBSD.psutil_swap_mem sizeof_swapent swapctl_nswap swapctl_stats
           uvmexp2 pagesize alloc st) = SwapTuple total used free sin sout \/
    fst (OpenBSD.psutil_swap_mem sizeof_swapent swapctl_nswap swapctl_stats
           alloc st) = SwapTuple total used free sin sout ->
    swrap 64 (used + free) = total.
Proof.
  intros sz sn ss uv pagesize alloc st total used free sin sout [R | R].
  - unfold NetBSD.psutil_swap_mem in R.
    destruct (sn (now st)) as [v | e].
    + destruct (v =? 0); [simpl in R; injection R as <- <- <- _ _; reflexivity |].
      destruct (c_alloc alloc _ _) as [[|] st3]; simpl in R; [| discriminate].
      destruct (ss _ v) as [n buf | e]; [| discriminate].
      destruct (NetBSD.total_up _ 0 0) as [t f].
      destruct (uv _) as [n' [pin pout] | e]; [| discriminate].
      simpl in R. injection R as <- <- <- _ _.
      rewrite swrap_add. f_equal. lia.
    + destruct (-1 =? 0) eqn:E; [discriminate E |].
      destruct (c_alloc alloc _ _) as [[|] st3]; simpl in R; [| discriminate].
      destruct (ss _ (-1)) as [n buf | e']; [| discriminate].
      simpl in R.
      destruct (uv _) as [n' [pin pout] | e']; [| discriminate].
      simpl in R. injection R as <- <- <- _ _. reflexivity.
  - unfold OpenBSD.psutil_swap_mem in R.
    destruct (sn (now st)) as [v | e].
    + destruct (v =? 0); [discriminate |].
      destruct (c_alloc alloc _ _) as [[|] st3]; simpl in R; [| discriminate].
      destruct (ss _ v) as [n buf | e]; [| discriminate].
      destruct (OpenBSD.total_up _ 0 0) as [t f].
      simpl in R. injection R as <- <- <- _ _.
      rewrite swrap_add. f_equal. lia.
    + destruct (-1 =? 0) eqn:E; [discriminate E |].
      destruct (c_alloc alloc _ _) as [[|] st3]; simpl in R; [| discriminate].
      destruct (ss _ (-1)) as [n buf | e']; [| discriminate].
      simpl in R. injection R as <- <- <- _ _. reflexivity.
Qed.

Lemma swap_mem_used_plus_free_is_total_witness :
  swrap 64 (524288 + 1073217536) = 1073741824.
Proof.
  apply (swap_mem_used_plus_free_is_total 40 Sample.swapctl_two_devices
           Sample.swapctl_stats_two Sample.uvmexp2_busy 4096
           Scenario.alloc_always init_state 1073741824 524288 1073217536 0 0).
  right. reflexivity.
Defined.

End SwapTotalsSpec.

(** ** arch/bsd/freebsd_socks.c: fetching the protocol control blocks *)

Module FreeBSDSnapshotSpec.
Import FreeBSDSocks.

Lemma c_alloc_false alloc bytes st :
  alloc (now st) bytes = false ->
  c_alloc alloc bytes st = (false, set_errno ENOMEM (log (EvAlloc bytes) st)).
Proof. intros H. unfold c_alloc. now rewrite H. Qed.

Lemma gather_inet_fetch_no_memory inet_pcblist alloc null_type :
  (forall t b, alloc t b = false) ->
  forall fuel proto bufsize st,
    psutil_gather_inet_fetch inet_pcblist alloc null_type fuel proto bufsize st
    = None.
Proof.
  intros Ha. induction fuel as [| fuel IH]; intros proto bufsize st.
  - reflexivity.
  - simpl. rewrite c_alloc_false by apply Ha. simpl. apply IH.
Qed.

(** X18.  FreeBSD: when [realloc] keeps failing, [psutil_gather_inet]
    never returns (it retries the allocation at once, for ever), while
    [psutil_gather_unix] returns 0 at its first allocation, with
    MemoryError set and the list untouched. *)
Theorem gather_inet_spins_when_out_of_memory :
  forall sizeof_xinpgen sizeof_xtcpcb sizeof_xinpcb sizeof_xunpgen
         sizeof_xunpcb inet_pcblist unix_pcblist alloc null_type
         sun_path_offset proto uproto g py_retlist st,
    (forall t b, alloc t b = false) ->
    never_returns
      (fun fuel =>
         psutil_gather_inet sizeof_xinpgen sizeof_xtcpcb sizeof_xinpcb
           inet_pcblist alloc null_type fuel proto g py_retlist st) /\
    (forall fuel, exists st',
        psutil_gather_unix sizeof_xunpgen sizeof_xunpcb unix_pcblist alloc
          null_type sun_path_offset (S fuel) uproto g py_retlist st
        = Some (false, py_retlist, st') /\
        pyerr st' = Some MemoryError).
Proof.
  intros sg st_ si sug su ip up alloc nt off proto uproto g l st Ha. split.
  - intros fuel. unfold psutil_gather_inet.
    destruct fuel as [| fuel]; [reflexivity |].
    simpl psutil_gather_inet_snapshot.
    rewrite c_alloc_false by apply Ha. simpl.
    rewrite gather_inet_fetch_no_memory by exact Ha. reflexivity.
  - intros fuel. unfold psutil_gather_unix. simpl psutil_gather_unix_snapshot.
    rewrite c_alloc_false by apply Ha. simpl.
    eexists. split; reflexivity.
Qed.

Lemma gather_inet_spins_when_out_of_memory_witness :
  never_returns
    (fun fuel =>
       psutil_gather_inet Scenario.sizeof_xinpgen Scenario.sizeof_xtcpcb
         Scenario.sizeof_xinpcb Scenario.inet_one_listener Sample.alloc_never
         Scenario.null_type_stored fuel IPPROTO_TCP Sample.no_xfiles []
         init_state).
Proof.
  apply (proj1 (gather_inet_spins_when_out_of_memory
                  Scenario.sizeof_xinpgen Scenario.sizeof_xtcpcb
                  Scenario.sizeof_xinpcb Scenario.sizeof_xunpgen
                  Scenario.sizeof_xunpcb Scenario.inet_one_listener
                  Scenario.unix_no_socket Sample.alloc_never
                  Scenario.null_type_stored
                  Scenario.sun_path_offset IPPROTO_TCP UNIX_STREAM
                  Sample.no_xfiles [] init_state
                  (fun t b => eq_refl))).
Defined.

Lemma gather_inet_fetch_ok inet_pcblist alloc null_type fuel proto bufsize st
    n tbl :
  (forall t b, alloc t b = true) ->
  (forall t b, inet_pcblist proto t b = SysOk n tbl) ->
  psutil_gather_inet_fetch inet_pcblist alloc null_type (S fuel) proto
    bufsize st
  = Some (inr tbl, bufsize,
          log (EvSysctl (inet_varname proto) bufsize)
            (log (EvAlloc bufsize) st)).
Proof.
  intros Ha Hs. simpl. rewrite c_alloc_true by apply Ha. simpl.
  rewrite Hs. reflexivity.
Qed.

Lemma gather_inet_snapshot_unstable sizeof_xinpgen inet_pcblist alloc
    null_type fuel proto n tbl :
  (forall t b, alloc t b = true) ->
  (forall t b, inet_pcblist proto t b = SysOk n tbl) ->
  xig_len (pl_head tbl) = sizeof_xinpgen ->
  xig_len (pl_tail tbl) = sizeof_xinpgen ->
  xig_gen (pl_head tbl) <> xig_gen (pl_tail tbl) ->
  forall retry bufsize st,
  exists st',
    psutil_gather_inet_snapshot sizeof_xinpgen inet_pcblist alloc null_type
      (S fuel) proto retry bufsize st = Some (inr tbl, st') /\
    count_events is_fetch (calls st')
    = (count_events is_fetch (calls st) + retry + 1)%nat /\
    pyerr st' = pyerr st.
Proof.
  intros Ha Hs Hh Ht Hg.
  induction retry as [| retry IH]; intros bufsize st.
  - cbn [psutil_gather_inet_snapshot].
    rewrite (gather_inet_fetch_ok _ _ _ _ _ _ _ n tbl Ha Hs).
    rewrite Hh, Ht, Z.eqb_refl. simpl orb. cbv iota.
    destruct (Z.eqb_spec (xig_gen (pl_head tbl)) (xig_gen (pl_tail tbl)))
      as [E | _]; [contradiction |].
    simpl negb. cbv iota.
    eexists. split; [reflexivity |]. split; [| reflexivity].
    rewrite !calls_log, !count_events_app. unfold count_events. simpl. lia.
  - cbn [psutil_gather_inet_snapshot].
    rewrite (gather_inet_fetch_ok _ _ _ _ _ _ _ n tbl Ha Hs).
    rewrite Hh, Ht, Z.eqb_refl. simpl orb. cbv iota.
    destruct (Z.eqb_spec (xig_gen (pl_head tbl)) (xig_gen (pl_tail tbl)))
      as [E | _]; [contradiction |].
    simpl negb. cbv iota.
    destruct (IH bufsize
                (log (EvSysctl (inet_varname proto) bufsize)
                   (log (EvAlloc bufsize) st))) as (st' & R & C & P).
    exists st'. split; [exact R |]. split; [| exact P].
    rewrite C. rewrite !calls_log, !count_events_app.
    unfold count_events. simpl. lia.
Qed.

(** X19.  FreeBSD: when the list changes during every fetch (the
    generation counts of header and trailer differ each time),
    [psutil_gather_inet] fetches it 6 times, the first time and 5
    retries, and then walks the last snapshot although it is not
    consistent; no exception is set by the fetching. *)
Theorem gather_inet_accepts_unstable_snapshot :
  forall sizeof_xinpgen sizeof_xtcpcb sizeof_xinpcb inet_pcblist alloc
         null_type fuel proto g py_retlist st n tbl,
    (forall t b, alloc t b = true) ->
    (forall t b, inet_pcblist proto t b = SysOk n tbl) ->
    xig_len (pl_head tbl) = sizeof_xinpgen ->
    xig_len (pl_tail tbl) = sizeof_xinpgen ->
    xig_gen (pl_head tbl) <> xig_gen (pl_tail tbl) ->
    exists st',
      psutil_gather_inet sizeof_xinpgen sizeof_xtcpcb sizeof_xinpcb
        inet_pcblist alloc null_type (S fuel) proto g py_retlist st
      = Some (psutil_gather_inet_walk sizeof_xtcpcb sizeof_xinpcb proto g
                (pl_elems tbl) py_retlist st') /\
      count_events is_fetch (calls st')
      = (count_events is_fetch (calls st) + 6)%nat /\
      pyerr st' = pyerr st.
Proof.
  intros sg st_ si ip alloc nt fuel proto g l st n tbl Ha Hs Hh Ht Hg.
  destruct (gather_inet_snapshot_unstable sg ip alloc nt fuel proto n tbl
              Ha Hs Hh Ht Hg 5%nat 8192 st) as (st' & R & C & P).
  exists st'. unfold psutil_gather_inet. rewrite R.
  split; [reflexivity |]. split; [| exact P]. rewrite C. lia.
Qed.

Lemma gather_inet_accepts_unstable_snapshot_witness :
  exists st',
    psutil_gather_inet Scenario.sizeof_xinpgen Scenario.sizeof_xtcpcb
      Scenario.sizeof_xinpcb Sample.inet_unstable Scenario.alloc_always
      Scenario.null_type_stored 1 IPPROTO_TCP Sample.no_xfiles [] init_state
    = Some (psutil_gather_inet_walk Scenario.sizeof_xtcpcb
              Scenario.sizeof_xinpcb IPPROTO_TCP Sample.no_xfiles
              (pl_elems Sample.inet_unstable_table) [] st') /\
    count_events is_fetch (calls st')
    = (count_events is_fetch (calls init_state) + 6)%nat /\
    pyerr st' = pyerr init_state.
Proof.
  apply (gather_inet_accepts_unstable_snapshot Scenario.sizeof_xinpgen
           Scenario.sizeof_xtcpcb Scenario.sizeof_xinpcb Sample.inet_unstable
           Scenario.alloc_always Scenario.null_type_stored 0 IPPROTO_TCP
           Sample.no_xfiles [] init_state
           1240 Sample.inet_unstable_table).
  - intros t b. reflexivity.
  - intros t b. reflexivity.
  - reflexivity.
  - reflexivity.
  - discriminate.
Defined.

End FreeBSDSnapshotSpec.

(** ** arch/bsd/netbsd_socks.c: what the listing hands back *)

Module NetBSDListingSpec.
Import NetBSDSocks.

Lemma c_pid_make_conn k kp : c_pid (make_conn k kp) = ki_pid k.
Proof. unfold make_conn. destruct (ki_family kp); reflexivity. Qed.

(** Reading a [pid_t] as a [pid_t] changes nothing. *)
Lemma to_pid_t_idem pid : to_pid_t (to_pid_t pid) = to_pid_t pid.
Proof.
  unfold to_pid_t, swrap.
  change (2 ^ (32 - 1)) with 2147483648. change (2 ^ 32) with 4294967296.
  pose proof (Z.mod_pos_bound (pid + 2147483648) 4294967296 ltac:(lia)) as B.
  rewrite (Z.mod_small ((pid + 2147483648) mod 4294967296 - 2147483648
                        + 2147483648)) by lia.
  lia.
Qed.

Section Kernel.

Variable sizeof_off_t : Z.
Variable sizeof_kinfo_file : Z.
Variable sizeof_kinfo_pcb : Z.
Variable file2_size : nat -> sysctl_res unit.
Variable file2_fetch : nat -> Z -> sysctl_res (carray kinfo_file).
Variable nametomib : nat -> string -> option Z.
Variable pcb_size : nat -> string -> sysctl_res unit.
Variable pcb_fetch : nat -> string -> Z -> sysctl_res (carray kinfo_pcb).
Variable alloc : alloc_oracle.

Lemma get_files_answers kihead st :
  let '(r, _, st') :=
    psutil_get_files sizeof_off_t sizeof_kinfo_file file2_size file2_fetch
      alloc kihead st in
  answers st r st'.
Proof.
  unfold psutil_get_files, answers, c_alloc.
  destruct (file2_size (now st)) as [len u | e];
    [| right; split; [reflexivity | discriminate]].
  destruct (alloc _ _); simpl;
    [| right; split; [reflexivity | discriminate]].
  destruct (file2_fetch _ len) as [len' ki | e];
    [left; split; reflexivity | right; split; [reflexivity | discriminate]].
Qed.

Lemma get_sockets_answers name kpcbhead st :
  let '(r, _, st') :=
    psutil_get_sockets sizeof_kinfo_pcb nametomib pcb_size pcb_fetch alloc
      name kpcbhead st in
  answers st r st'.
Proof.
  unfold psutil_get_sockets, answers, c_alloc.
  destruct (nametomib (now st) name) as [e |];
    [right; split; [reflexivity | discriminate] |].
  destruct (pcb_size _ name) as [len u | e];
    [| right; split; [reflexivity | discriminate]].
  destruct (alloc _ _); simpl;
    [| right; split; [reflexivity | discriminate]].
  destruct (pcb_fetch _ name len) as [len' kp | e];
    [left; split; reflexivity | right; split; [reflexivity | discriminate]].
Qed.

Lemma get_info_answers names :
  forall kpcbhead st,
    let '(r, _, st') :=
      psutil_get_info sizeof_kinfo_pcb nametomib pcb_size pcb_fetch alloc
        names kpcbhead st in
    answers st r st'.
Proof.
  induction names as [| name rest IH]; intros kpcbhead st; simpl.
  - left. split; reflexivity.
  - pose proof (get_sockets_answers name kpcbhead st) as G.
    destruct (psutil_get_sockets _ _ _ _ _ name kpcbhead st)
      as [[r k1] st1].
    destruct G as [[-> P] | [-> P]]; simpl.
    + specialize (IH k1 st1).
      destruct (psutil_get_info _ _ _ _ _ rest k1 st1) as [[r2 k2] st2].
      destruct IH as [[-> Q] | [-> Q]]; [left | right];
        (split; [reflexivity |]); [congruence | exact Q].
    + right. split; [reflexivity | exact P].
Qed.

End Kernel.

(** X20.  NetBSD: when [psutil_net_connections] returns NULL an
    exception is pending; when it returns the list it has set none,
    and, asked for one process (a pid whose low 32 bits, read as a
    [pid_t], are not -1), every tuple of the list carries that [pid_t]:
    2^32 + 10 lists the sockets of process 10, and 2^32 - 1 lists those
    of every process, as -1 does. *)
Theorem netbsd_net_connections_protocol :
  forall sizeof_off_t sizeof_kinfo_file sizeof_kinfo_pcb file2_size
         file2_fetch nametomib pcb_size pcb_fetch alloc pid st,
    let r :=
      psutil_net_connections sizeof_off_t sizeof_kinfo_file sizeof_kinfo_pcb
        file2_size file2_fetch nametomib pcb_size pcb_fetch alloc pid st in
    match fst r with
    | None => pyerr (snd r) <> None
    | Some py_retlist =>
        pyerr (snd r) = pyerr st /\
        (to_pid_t pid <> -1 ->
         Forall (fun c => c_pid c = to_pid_t pid) py_retlist) /\
        fst r
        = fst (psutil_net_connections sizeof_off_t sizeof_kinfo_file
                 sizeof_kinfo_pcb file2_size file2_fetch nametomib pcb_size
                 pcb_fetch alloc (to_pid_t pid) st)
    end.
Proof.
  intros so sf sp fs ff nm ps pf alloc pid st.
  unfold psutil_net_connections. rewrite to_pid_t_idem.
  pose proof (get_files_answers so sf fs ff alloc [] st) as F.
  destruct (psutil_get_files so sf fs ff alloc [] st) as [[rf kihead] st1].
  pose proof (get_info_answers sp nm ps pf alloc pcblists_ALL [] st1) as G.
  destruct (psutil_get_info sp nm ps pf alloc pcblists_ALL [] st1)
    as [[ri kpcbhead] st2].
  destruct F as [[-> P] | [-> P]]; simpl; [| exact P].
  destruct G as [[-> Q] | [-> Q]]; simpl; [| exact Q].
  split; [congruence |]. split; [| reflexivity].
  intros Hpid. apply Forall_forall. intros c I.
  apply NetBSDSocksSpec.foreach_kif_In in I.
  destruct I as [[] | (k & kp & _ & _ & [A | A] & _ & ->)];
    [contradiction |].
  rewrite c_pid_make_conn. exact A.
Qed.

End NetBSDListingSpec.

(** ** _psutil_osx.c: the list of pids *)

Module OSXPidsSpec.

(** X21.  macOS: when the process table does not change during the
    call, [psutil_pids] returns the pid of every entry, in order, after
    one fetch of the table, and sets no exception. *)
Theorem osx_pids_returns_all_pids :
  forall sizeof_kinfo_proc proc_all_size proc_all_fetch alloc st pids size,
    0 < sizeof_kinfo_proc ->
    size = Z.of_nat (List.length pids) * sizeof_kinfo_proc ->
    size < 2 ^ 60 ->
    (forall t b, alloc t b = true) ->
    (forall t, proc_all_size t = SysOk size tt) ->
    (forall t cap, proc_all_fetch t cap = SysOk size (fun i => nth i pids 0)) ->
    exists st',
      OSX.psutil_pids sizeof_kinfo_proc proc_all_size proc_all_fetch alloc st
      = (Some pids, st') /\
      count_events is_fetch (calls st')
      = (count_events is_fetch (calls st) + 1)%nat /\
      pyerr st' = pyerr st.
Proof.
  intros sk ps pf alloc st pids size Hsk Hsize Hsmall Ha Hps Hpf.
  unfold OSX.psutil_pids, OSX.psutil_get_proc_list, OSX.lim.
  cbn [OSX.psutil_get_proc_list_loop]. rewrite Hps.
  assert (Hdiv : size / sk = Z.of_nat (List.length pids)).
  { rewrite Hsize. apply Z.div_mul. lia. }
  destruct (size <? to_size_t (size + Z.shiftr size 3)).
  - rewrite c_alloc_true by apply Ha. rewrite Hpf. cbn.
    rewrite Hdiv, WindowsPidsSpec.elements_of_list.
    eexists. split; [reflexivity |]. split; [| reflexivity].
    rewrite !calls_log, !count_events_app. unfold count_events. simpl. lia.
  - rewrite c_alloc_true by apply Ha. rewrite Hpf. cbn.
    rewrite Hdiv, WindowsPidsSpec.elements_of_list.
    eexists. split; [reflexivity |]. split; [| reflexivity].
    rewrite !calls_log, !count_events_app. unfold count_events. simpl. lia.
Qed.

Lemma osx_pids_returns_all_pids_witness :
  exists st',
    OSX.psutil_pids 648 Sample.osx_proc_all_size Sample.osx_proc_all_fetch
      Scenario.alloc_always init_state = (Some Sample.osx_pids, st') /\
    count_events is_fetch (calls st')
    = (count_events is_fetch (calls init_state) + 1)%nat /\
    pyerr st' = pyerr init_state.
Proof.
  apply (osx_pids_returns_all_pids 648 Sample.osx_proc_all_size
           Sample.osx_proc_all_fetch Scenario.alloc_always init_state
           Sample.osx_pids 1944).
  - reflexivity.
  - reflexivity.
  - reflexivity.
  - intros t b. reflexivity.
  - intros t. reflexivity.
  - intros t cap. reflexivity.
Defined.

End OSXPidsSpec.

(** ** arch/bsd/freebsd_socks.c: reading the open-file table *)

Module FreeBSDPopulateSpec.
Import FreeBSDSocks.

(** X22.  FreeBSD: [psutil_populate_xfiles] doubles its buffer, from
    the size of one entry, until [kern.file] no longer fails with
    [ENOMEM]: for a table that fits after [k] doublings it returns 1
    after [k]+1 reads at most, with the table and its length in entries,
    and sets no exception. *)
Theorem populate_xfiles_doubles_until_it_fits :
  forall sizeof_xfile kern_file alloc null_type size buf k fuel st,
    0 < sizeof_xfile < 2 ^ 31 ->
    0 <= size < 2 ^ 31 ->
    (forall t b, alloc t b = true) ->
    (forall t len,
       kern_file t len
       = if len <? size then SysErr ENOMEM else SysOk size buf) ->
    size = 0 \/ xf_size (buf O) = sizeof_xfile ->
    size <= sizeof_xfile * 2 ^ Z.of_nat k ->
    (k < fuel)%nat ->
    exists st',
      psutil_populate_xfiles sizeof_xfile kern_file alloc null_type fuel st
      = Some (Some (mkGlobals buf (size / sizeof_xfile)), st') /\
      pyerr st' = pyerr st /\
      (count_events is_fetch (calls st')
       <= count_events is_fetch (calls st) + k + 1)%nat.
Proof.
  intros sx kf alloc nt size buf k fuel st Hsx Hsize Ha Hk Hfirst Hfit Hfuel.
  unfold psutil_populate_xfiles.
  rewrite c_alloc_true by apply Ha. cbn [negb].
  destruct (FreeBSDSocksSpec.populate_xfiles_loop_doubles kf alloc nt size buf
              Hsize Ha Hk k fuel sx (log (EvAlloc sx) st))
    as (st' & R & P & C).
  - exact Hfuel.
  - change (2 ^ 31) with 2147483648 in Hsx.
    change (2 ^ 32) with 4294967296. lia.
  - exact Hfit.
  - rewrite R.
    assert (Chk : (0 <? size) && negb (xf_size (buf O) =? sx) = false).
    { destruct Hfirst as [-> | ->]; [reflexivity |].
      rewrite Z.eqb_refl. apply andb_false_r. }
    rewrite Chk.
    assert (D : to_int (size / sx) = size / sx).
    { apply SwapTotalsSpec.to_int_small.
      assert (0 <= size / sx) by (apply Z.div_pos; lia).
      assert (size / sx <= size) by (apply Z.div_le_upper_bound; nia).
      lia. }
    rewrite D. exists st'. split; [reflexivity |]. split; [exact P |].
    rewrite calls_log, count_events_app in C.
    unfold count_events in *. simpl in C. lia.
Qed.

Lemma populate_xfiles_doubles_until_it_fits_witness :
  exists st',
    psutil_populate_xfiles 128 Sample2.kern_file_384 Scenario.alloc_always
      Scenario.null_type_dies 3 init_state
    = Some (Some (mkGlobals Sample2.three_xfiles (384 / 128)), st') /\
    pyerr st' = pyerr init_state /\
    (count_events is_fetch (calls st')
     <= count_events is_fetch (calls init_state) + 2 + 1)%nat.
Proof.
  apply (populate_xfiles_doubles_until_it_fits 128 Sample2.kern_file_384
           Scenario.alloc_always Scenario.null_type_dies 384
           Sample2.three_xfiles 2 3 init_state).
  - split; reflexivity.
  - split; [discriminate | reflexivity].
  - intros t b. reflexivity.
  - intros t len. reflexivity.
  - right. reflexivity.
  - discriminate.
  - lia.
Defined.

End FreeBSDPopulateSpec.

(** ** arch/bsd/netbsd_socks.c: the join, in order *)

Module NetBSDJoinSpec.
Import NetBSDSocks.

Lemma foreach_kpcb_join k kpcbhead :
  forall py_retlist,
    foreach_kpcb k kpcbhead py_retlist
    = py_retlist
      ++ map (make_conn k) (filter (NetBSDJoin.same_socket k) kpcbhead).
Proof.
  induction kpcbhead as [| kp rest IH]; intros acc; simpl.
  - symmetry. apply app_nil_r.
  - unfold NetBSDJoin.same_socket at 1.
    destruct (ki_fdata k =? ki_sockaddr kp); simpl; rewrite IH.
    + rewrite <- app_assoc. reflexivity.
    + reflexivity.
Qed.

Lemma foreach_kif_join pid kihead kpcbhead :
  forall py_retlist,
    foreach_kif pid kihead kpcbhead py_retlist
    = py_retlist ++ NetBSDJoin.join pid kihead kpcbhead.
Proof.
  unfold NetBSDJoin.join.
  induction kihead as [| k rest IH]; intros acc; simpl.
  - symmetry. apply app_nil_r.
  - unfold NetBSDJoin.wanted_pid at 1.
    destruct (pid =? -1); destruct (ki_pid k =? pid); simpl;
      rewrite IH; try reflexivity;
      rewrite foreach_kpcb_join, <- app_assoc; reflexivity.
Qed.

(** X23.  NetBSD: the list [psutil_net_connections] returns is exactly
    the join of the two lists it has read, in order and with
    repetitions: for every file entry of the wanted process, one tuple
    per socket whose kernel address is the entry's.  The wanted process
    is the pid read as a [pid_t] (its low 32 bits, signed); all entries
    are wanted when that is -1. *)
Theorem netbsd_net_connections_is_the_join :
  forall sizeof_off_t sizeof_kinfo_file sizeof_kinfo_pcb file2_size
         file2_fetch nametomib pcb_size pcb_fetch alloc pid st
         kihead st1 kpcbhead st2,
    psutil_get_files sizeof_off_t sizeof_kinfo_file file2_size file2_fetch
      alloc [] st = (0, kihead, st1) ->
    psutil_get_info sizeof_kinfo_pcb nametomib pcb_size pcb_fetch alloc
      pcblists_ALL [] st1 = (0, kpcbhead, st2) ->
    psutil_net_connections sizeof_off_t sizeof_kinfo_file sizeof_kinfo_pcb
      file2_size file2_fetch nametomib pcb_size pcb_fetch alloc pid st
    = (Some (NetBSDJoin.join (to_pid_t pid) kihead kpcbhead), st2).
Proof.
  intros so sf sp fs ff nm ps pf alloc pid st kihead st1 kpcbhead st2 F G.
  unfold psutil_net_connections. rewrite F. cbn [negb Z.eqb].
  rewrite G. cbn [negb Z.eqb].
  rewrite foreach_kif_join. reflexivity.
Qed.

Lemma netbsd_net_connections_is_the_join_witness :
  exists kihead kpcbhead st2,
    Scenario.netbsd_net_connections (2 ^ 32 + 10)
    = (Some (NetBSDJoin.join 10 kihead kpcbhead), st2) /\
    NetBSDJoin.join 10 kihead kpcbhead <> [].
Proof.
  eexists. eexists. eexists. split.
  - unfold Scenario.netbsd_net_connections.
    eapply (netbsd_net_connections_is_the_join 8 Scenario.sizeof_kinfo_file
              Scenario.sizeof_kinfo_pcb Scenario.file2_size
              Scenario.file2_fetch (fun _ _ => None) Scenario.pcb_size
              Scenario.pcb_fetch Scenario.alloc_always (2 ^ 32 + 10)
              init_state).
    + reflexivity.
    + reflexivity.
  - discriminate.
Defined.

End NetBSDJoinSpec.

(* ------------------------------------------------------------------ *)
(** ** The name query of the open-files enumeration *)

Module OpenFilesSpec.

Import Windows.

(** The state in which the wait on the finish event is issued. *)
Lemma NtQueryObject_with_worker :
  forall create_thread finish_wait thread_wait g_hThread g_hFile g_dwSize
         st h st1,
    (g_hThread = Some h /\ st1 = st) \/
    (g_hThread = None /\ create_thread (now st) = HandleOk h /\
     st1 = log EvCreateThread st) ->
    psutil_NtQueryObject create_thread finish_wait thread_wait g_hThread
      g_hFile g_dwSize st
    = let st2 := log EvSetEvent st1 in
      let st3 := log (EvWaitForSingleObject NTQO_TIMEOUT) st2 in
      let '(dwWait, stored) := finish_wait (now st2) g_hFile g_dwSize in
      if to_DWORD dwWait =? WAIT_TIMEOUT then
        let st5 := log EvTerminateThread (log EvSuspendThread st3) in
        if thread_wait (now st5) then
          Some (to_DWORD dwWait, stored, None,
                log (EvWaitForSingleObject INFINITE) st5)
        else None
      else Some (to_DWORD dwWait, stored, Some h, st3).
Proof.
  intros ct fw tw g_hThread g_hFile g_dwSize st h st1 W.
  unfold psutil_NtQueryObject.
  destruct W as [[-> ->] | [-> [C ->]]]; [| rewrite C]; reflexivity.
Qed.




End OpenFilesSpec.
